(** * solar-models: the PV plant pipeline of [solar_functions.py]

    A shallow embedding of the functions of [solar_functions.py]:
    [get_psm3], [get_system], [get_modelchain], and the methods it adds
    to a pvlib [ModelChain]: the irradiance-combining step
    [get_effective_irradiance], the stages [run_pvwatts_dc],
    [run_pvwatts_ac], [run_plant_model] and the metrics of
    [get_results]; then the properties stated about them, each marked
    with the identifier (C1 ... C10, X1 ...) of the statement it settles.

    Numbers.  A pandas/numpy sample is a [np_float]: a rational, one of
    the two infinities, or NaN.  Arithmetic on finite samples is exact
    (binary64 rounding, overflow and the sign of zero are not
    represented); the special values follow IEEE 754 as numpy applies
    it, in particular a numpy division by zero yields an infinity or NaN
    and never raises.  Configuration scalars are Python numbers, as the
    docstrings type them ([float], [int or float]); they are rationals,
    and a Python scalar division by zero raises [ZeroDivisionError].

    Objects.  The methods mutate [self] (and, for the irradiance step,
    the caller's weather frame); a method is a function from the state
    of these objects to an outcome and their new state, so that what was
    assigned before an exception stays assigned.

    Libraries.  pvlib and pvfactors are collaborators: a class of pure
    functions about which nothing is assumed.  Of pandas, the model keeps
    the positional samples of a series (all series of one run share one
    index), [fillna], [sum], the mask assignment [s[s < 0] = 0], and of
    the index its stamps and time zone.  A zone given by name is looked
    up in the tz database, and a name the database does not hold makes
    [tz_localize] and [tz_convert] raise. *)

From Stdlib Require Import QArith Qminmax Lqa Lia ZArith.
From stdpp Require Import base option list strings gmap pretty.

Open Scope Q_scope.

(* ===================================================================== *)
(** ** numpy float64 samples                                              *)
(* ===================================================================== *)

Inductive np_float : Type :=
| Fin (q : Q)
| PInf
| NInf
| NaN.

(** The infinity carrying the sign of a comparison with zero; a zero
    sign gives NaN (as in [0 * inf] and [0 / 0]). *)
Definition np_signed_inf (c : comparison) : np_float :=
  match c with
  | Gt => PInf
  | Lt => NInf
  | Eq => NaN
  end.

Definition np_neg (x : np_float) : np_float :=
  match x with
  | Fin a => Fin (- a)
  | PInf => NInf
  | NInf => PInf
  | NaN => NaN
  end.

Definition np_add (x y : np_float) : np_float :=
  match x, y with
  | NaN, _ | _, NaN => NaN
  | Fin a, Fin b => Fin (a + b)
  | PInf, NInf | NInf, PInf => NaN
  | PInf, _ | _, PInf => PInf
  | NInf, _ | _, NInf => NInf
  end.

Definition np_sub (x y : np_float) : np_float := np_add x (np_neg y).

Definition np_mul (x y : np_float) : np_float :=
  match x, y with
  | NaN, _ | _, NaN => NaN
  | Fin a, Fin b => Fin (a * b)
  | Fin a, PInf | PInf, Fin a => np_signed_inf (a ?= 0)
  | Fin a, NInf | NInf, Fin a => np_signed_inf (CompOpp (a ?= 0))
  | PInf, PInf | NInf, NInf => PInf
  | PInf, NInf | NInf, PInf => NInf
  end.

Definition np_div (x y : np_float) : np_float :=
  match x, y with
  | NaN, _ | _, NaN => NaN
  | Fin a, Fin b =>
      if Qeq_bool b 0 then np_signed_inf (a ?= 0) else Fin (a / b)
  | Fin _, (PInf | NInf) => Fin 0
  | PInf, Fin b => match b ?= 0 with Lt => NInf | _ => PInf end
  | NInf, Fin b => match b ?= 0 with Lt => PInf | _ => NInf end
  | (PInf | NInf), (PInf | NInf) => NaN
  end.

(** [x ** 2] *)
Definition np_pow2 (x : np_float) : np_float :=
  match x with
  | Fin a => Fin (a ^ 2)
  | PInf | NInf => PInf
  | NaN => NaN
  end.

(** [x < y]; every comparison with NaN is false. *)
Definition np_ltb (x y : np_float) : bool :=
  match x, y with
  | NaN, _ | _, NaN => false
  | Fin a, Fin b => match a ?= b with Lt => true | _ => false end
  | NInf, (Fin _ | PInf) => true
  | Fin _, PInf => true
  | _, _ => false
  end.

(** [x == y] on floats: numeric equality, NaN equal to nothing. *)
Definition np_eq (x y : np_float) : Prop :=
  match x, y with
  | Fin a, Fin b => a == b
  | PInf, PInf | NInf, NInf => True
  | _, _ => False
  end.

Definition np_isnan (x : np_float) : bool :=
  match x with NaN => true | _ => false end.

Definition np_isfinite (x : np_float) : bool :=
  match x with Fin _ => true | _ => false end.

(* ===================================================================== *)
(** ** pandas Series (positional; all series of a run share one index)    *)
(* ===================================================================== *)

Abbreviation Series := (list np_float).

(** [s1 op s2] between two series of one index. *)
Definition series_add (s1 s2 : Series) : Series := zip_with np_add s1 s2.
Definition series_sub (s1 s2 : Series) : Series := zip_with np_sub s1 s2.
Definition series_mul (s1 s2 : Series) : Series := zip_with np_mul s1 s2.

(** [s.fillna(0)] *)
Definition fillna0 (s : Series) : Series :=
  (λ x, if np_isnan x then Fin 0 else x) <$> s.

(** [s[s < 0] = 0]: the samples below zero are overwritten, the others
    (NaN among them) stay. *)
Definition np_clamp_negative (x : np_float) : np_float :=
  if np_ltb x (Fin 0) then Fin 0 else x.

Definition clamp_negative (s : Series) : Series := np_clamp_negative <$> s.

(** [s.sum()]: pandas skips NaN ([skipna=True]) and returns a
    [numpy.float64]. *)
Definition series_sum (s : Series) : np_float :=
  foldr np_add (Fin 0) (fillna0 s).

(** [np.repeat(x, n)] *)
Definition np_repeat (x : Q) (n : nat) : Series := replicate n (Fin x).

(* ===================================================================== *)
(** ** Python exceptions and object state                                 *)
(* ===================================================================== *)

Inductive exn : Type :=
| ZeroDivisionError
| KeyError (key : string)
| AttributeError (attr : string)
| UnknownTimeZoneError (name : string).

Inductive result (A : Type) : Type :=
| Ok (a : A)
| Raise (e : exn).
Arguments Ok {A} a.
Arguments Raise {A} e.

(** A method body: it runs on the mutable objects it was given (the
    state [S]), may raise, and leaves behind whatever it had already
    assigned when it raised. *)
Definition Py (S A : Type) : Type := S → result A * S.

Definition ret {S A} (a : A) : Py S A := λ s, (Ok a, s).

Definition bind {S A B} (m : Py S A) (k : A → Py S B) : Py S B := λ s,
  match m s with
  | (Ok a, s') => k a s'
  | (Raise e, s') => (Raise e, s')
  end.

Declare Scope py_scope.
Delimit Scope py_scope with py.
Notation "x ← m ; k" := (bind m (λ x, k))
  (at level 20, m at level 100, k at level 200, only parsing) : py_scope.
Notation "m ;; k" := (bind m (λ _, k))
  (at level 100, k at level 200, only parsing, right associativity)
  : py_scope.
Open Scope py_scope.

Definition get {S} : Py S S := λ s, (Ok s, s).
Definition modify {S} (f : S → S) : Py S unit := λ s, (Ok tt, f s).
Definition lift {S A} (r : result A) : Py S A := λ s, (r, s).

(** [a / b] on Python numbers. *)
Definition py_div (a b : Q) : result Q :=
  if Qeq_bool b 0 then Raise ZeroDivisionError else Ok (a / b).

(** [d[key]] on a dict. *)
Definition getitem (d : gmap string Q) (key : string) : result Q :=
  match d !! key with
  | Some v => Ok v
  | None => Raise (KeyError key)
  end.

(** [obj.attr] for an attribute that exists only once some earlier
    method has assigned it. *)
Definition getattr {A} (attr : string) (o : option A) : result A :=
  match o with
  | Some v => Ok v
  | None => Raise (AttributeError attr)
  end.

(* ===================================================================== *)
(** ** Data model                                                         *)
(* ===================================================================== *)

(** A fixed-offset time zone; [tz_utcoffset] is in seconds east of UTC. *)
Record tzinfo : Type := {
  tz_name : string;
  tz_utcoffset : Z
}.

(** The fixed-offset zone [k] hours west of UTC, under the name
    ['Etc/GMT+k'] that the tz database gives it. *)
Definition etc_gmt_plus (k : Z) : tzinfo :=
  {| tz_name := "Etc/GMT+" +:+ pretty k;
     tz_utcoffset := (- k * 3600)%Z |}.

(** The zones of the tz database whose name starts with ['Etc/GMT+']:
    ['Etc/GMT+0'] to ['Etc/GMT+12'] and no other.  It holds no
    ['Etc/GMT+13'] and no name with a signed number such as
    ['Etc/GMT+-5']. *)
Definition tz_database : list tzinfo := etc_gmt_plus <$> seqZ 0 13.

(** [pytz.timezone(name)], by which pandas resolves a zone passed as a
    string; an unknown name raises [UnknownTimeZoneError]. *)
Definition timezone (name : string) : result tzinfo :=
  match find (λ zone, String.eqb (tz_name zone) name) tz_database with
  | Some zone => Ok zone
  | None => Raise (UnknownTimeZoneError name)
  end.

(** A pandas DatetimeIndex: timestamps in seconds, wall-clock readings
    when the index is naive ([tz = None]) and UTC instants when it is
    timezone-aware. *)
Record DatetimeIndex : Type := {
  stamps : list Z;
  tz : option tzinfo
}.

(** [idx.tz_localize(name)] on a naive index: the stamps are read as
    wall-clock times of the zone. *)
Definition tz_localize (name : string) (idx : DatetimeIndex)
    : result DatetimeIndex :=
  match timezone name with
  | Ok zone =>
      Ok {| stamps := (λ wall, (wall - tz_utcoffset zone)%Z) <$> stamps idx;
            tz := Some zone |}
  | Raise e => Raise e
  end.

(** [idx.tz_convert(name)] on an aware index: the same instants, shown
    in the zone. *)
Definition tz_convert (name : string) (idx : DatetimeIndex)
    : result DatetimeIndex :=
  match timezone name with
  | Ok zone => Ok {| stamps := stamps idx; tz := Some zone |}
  | Raise e => Raise e
  end.

(** The weather DataFrame: its index, the columns [get_psm3] gives it,
    and the plain attribute [albedo] that an assignment [weather.albedo
    = ...] creates on a frame without a column of that name. *)
Module Weather.
Record t : Type := {
  index : DatetimeIndex;
  ghi : Series;
  dni : Series;
  dhi : Series;
  temp_air : Series;
  wind_speed : Series;
  surface_albedo : Series;
  soiling : Series;
  albedo : option Q
}.

Definition set_index (i : DatetimeIndex) (w : t) : t :=
  {| index := i; ghi := ghi w; dni := dni w; dhi := dhi w;
     temp_air := temp_air w; wind_speed := wind_speed w;
     surface_albedo := surface_albedo w; soiling := soiling w;
     albedo := albedo w |}.

Definition set_albedo (a : Q) (w : t) : t :=
  {| index := index w; ghi := ghi w; dni := dni w; dhi := dhi w;
     temp_air := temp_air w; wind_speed := wind_speed w;
     surface_albedo := surface_albedo w; soiling := soiling w;
     albedo := Some a |}.

(** The columns of a frame, in the order of the docstrings. *)
Definition columns (w : t) : list Series :=
  [ghi w; dni w; dhi w; temp_air w; wind_speed w; surface_albedo w;
   soiling w].
End Weather.

(** How the modules are mounted: [isinstance(system, SingleAxisTracker)]
    or a plain [PVSystem]. *)
Inductive Mount : Type :=
| SingleAxisTracker (axis_tilt max_angle : Q)
| FixedTilt (surface_tilt surface_azimuth : Q).

(** A system as [get_system] returns it.  [albedo] is the attribute that
    only canopy and rooftop systems are given. *)
Module PVSystem.
Record t : Type := {
  mount : Mount;
  axis_azimuth : Q;
  gcr : Q;
  backtrack : bool;
  module_parameters : gmap string Q;
  albedo : option Q;
  axis_height : Q;
  collector_width : Q;
  temperature_model_parameters : gmap string Q
}.

Definition set_albedo (a : Q) (s : t) : t :=
  {| mount := mount s; axis_azimuth := axis_azimuth s; gcr := gcr s;
     backtrack := backtrack s; module_parameters := module_parameters s;
     albedo := Some a; axis_height := axis_height s;
     collector_width := collector_width s;
     temperature_model_parameters := temperature_model_parameters s |}.

(** [system.module_parameters[key] = v] *)
Definition setitem_module_parameters (key : string) (v : Q) (s : t) : t :=
  {| mount := mount s; axis_azimuth := axis_azimuth s; gcr := gcr s;
     backtrack := backtrack s;
     module_parameters := <[key := v]> (module_parameters s);
     albedo := albedo s; axis_height := axis_height s;
     collector_width := collector_width s;
     temperature_model_parameters := temperature_model_parameters s |}.
End PVSystem.

Record Location : Type := {
  latitude : Q;
  longitude : Q;
  loc_tz : Z;
  altitude : Q;
  name : string
}.

(** [self.dc]; the column [clipping] is the last one assigned. *)
Module DcFrame.
Record t : Type := {
  pdc : Series;
  losses : Series;
  output : Series;
  clipping : option Series
}.
End DcFrame.

(** [self.ac] *)
Module AcFrame.
Record t : Type := {
  pac : Series;
  output : Series;
  losses : Series;
  clipping : Series
}.
End AcFrame.

(** [self.plant] *)
Module PlantFrame.
Record t : Type := {
  output : Series;
  losses : Series
}.
End PlantFrame.

(** What [get_modelchain] saves on the instance: the system, the
    location and the model parameters. *)
Record Parameters : Type := {
  system : PVSystem.t;
  location : Location;
  degradation_loss : Q;
  bifacial_losses : Q;
  dc_losses : Q;
  ac_capacity : Q;
  inverter_efficiency_peak : Q;
  pmt_peak_loss : Q;
  pmt_rating : Q;
  pmt_constant_loss : Q;
  ac_collection : Q;
  mpt_peak_loss : Q;
  mpt_bottom_rating : Q;
  mpt_constant_loss : Q;
  transmission_loss : Q;
  poi_capacity : Q;
  plant_losses : Q;
  time_step : Q;
  dc_capacity : Q
}.

(** The ModelChain instance [self]: the saved parameters and the
    attributes that the stages assign later ([None] until then). *)
Record ModelChain : Type := {
  parameters :> Parameters;
  effective_irradiance : option Series;
  cell_temperature : option Series;
  back_irradiance : option Series;
  front_irradiance : option Series;
  effective_irradiance_bifacial : option Series;
  soiling : option Series;
  effective_irradiance_soiled : option Series;
  dc : option DcFrame.t;
  ac : option AcFrame.t;
  plant : option PlantFrame.t;
  aep : option np_float;
  ncf : option np_float;
  energy_yield : option np_float;
  pr : option np_float
}.

(** [self.attr = v], one setter for each attribute a stage assigns. *)

Definition set_effective_irradiance (v : Series) (mc : ModelChain) : ModelChain :=
  {| parameters := parameters mc; effective_irradiance := Some v;
     cell_temperature := cell_temperature mc;
     back_irradiance := back_irradiance mc;
     front_irradiance := front_irradiance mc;
     effective_irradiance_bifacial := effective_irradiance_bifacial mc;
     soiling := soiling mc;
     effective_irradiance_soiled := effective_irradiance_soiled mc;
     dc := dc mc; ac := ac mc; plant := plant mc; aep := aep mc;
     ncf := ncf mc; energy_yield := energy_yield mc; pr := pr mc |}.

Definition set_cell_temperature (v : Series) (mc : ModelChain) : ModelChain :=
  {| parameters := parameters mc;
     effective_irradiance := effective_irradiance mc;
     cell_temperature := Some v; back_irradiance := back_irradiance mc;
     front_irradiance := front_irradiance mc;
     effective_irradiance_bifacial := effective_irradiance_bifacial mc;
     soiling := soiling mc;
     effective_irradiance_soiled := effective_irradiance_soiled mc;
     dc := dc mc; ac := ac mc; plant := plant mc; aep := aep mc;
     ncf := ncf mc; energy_yield := energy_yield mc; pr := pr mc |}.

Definition set_back_irradiance (v : Series) (mc : ModelChain) : ModelChain :=
  {| parameters := parameters mc;
     effective_irradiance := effective_irradiance mc;
     cell_temperature := cell_temperature mc; back_irradiance := Some v;
     front_irradiance := front_irradiance mc;
     effective_irradiance_bifacial := effective_irradiance_bifacial mc;
     soiling := soiling mc;
     effective_irradiance_soiled := effective_irradiance_soiled mc;
     dc := dc mc; ac := ac mc; plant := plant mc; aep := aep mc;
     ncf := ncf mc; energy_yield := energy_yield mc; pr := pr mc |}.

Definition set_front_irradiance (v : Series) (mc : ModelChain) : ModelChain :=
  {| parameters := parameters mc;
     effective_irradiance := effective_irradiance mc;
     cell_temperature := cell_temperature mc;
     back_irradiance := back_irradiance mc; front_irradiance := Some v;
     effective_irradiance_bifacial := effective_irradiance_bifacial mc;
     soiling := soiling mc;
     effective_irradiance_soiled := effective_irradiance_soiled mc;
     dc := dc mc; ac := ac mc; plant := plant mc; aep := aep mc;
     ncf := ncf mc; energy_yield := energy_yield mc; pr := pr mc |}.

Definition set_effective_irradiance_bifacial (v : Series) (mc : ModelChain) : ModelChain :=
  {| parameters := parameters mc;
     effective_irradiance := effective_irradiance mc;
     cell_temperature := cell_temperature mc;
     back_irradiance := back_irradiance mc;
     front_irradiance := front_irradiance mc;
     effective_irradiance_bifacial := Some v; soiling := soiling mc;
     effective_irradiance_soiled := effective_irradiance_soiled mc;
     dc := dc mc; ac := ac mc; plant := plant mc; aep := aep mc;
     ncf := ncf mc; energy_yield := energy_yield mc; pr := pr mc |}.

Definition set_soiling (v : Series) (mc : ModelChain) : ModelChain :=
  {| parameters := parameters mc;
     effective_irradiance := effective_irradiance mc;
     cell_temperature := cell_temperature mc;
     back_irradiance := back_irradiance mc;
     front_irradiance := front_irradiance mc;
     effective_irradiance_bifacial := effective_irradiance_bifacial mc;
     soiling := Some v;
     effective_irradiance_soiled := effective_irradiance_soiled mc;
     dc := dc mc; ac := ac mc; plant := plant mc; aep := aep mc;
     ncf := ncf mc; energy_yield := energy_yield mc; pr := pr mc |}.

Definition set_effective_irradiance_soiled (v : Series) (mc : ModelChain) : ModelChain :=
  {| parameters := parameters mc;
     effective_irradiance := effective_irradiance mc;
     cell_temperature := cell_temperature mc;
     back_irradiance := back_irradiance mc;
     front_irradiance := front_irradiance mc;
     effective_irradiance_bifacial := effective_irradiance_bifacial mc;
     soiling := soiling mc; effective_irradiance_soiled := Some v;
     dc := dc mc; ac := ac mc; plant := plant mc; aep := aep mc;
     ncf := ncf mc; energy_yield := energy_yield mc; pr := pr mc |}.

Definition set_dc (v : DcFrame.t) (mc : ModelChain) : ModelChain :=
  {| parameters := parameters mc;
     effective_irradiance := effective_irradiance mc;
     cell_temperature := cell_temperature mc;
     back_irradiance := back_irradiance mc;
     front_irradiance := front_irradiance mc;
     effective_irradiance_bifacial := effective_irradiance_bifacial mc;
     soiling := soiling mc;
     effective_irradiance_soiled := effective_irradiance_soiled mc;
     dc := Some v; ac := ac mc; plant := plant mc; aep := aep mc;
     ncf := ncf mc; energy_yield := energy_yield mc; pr := pr mc |}.

Definition set_ac (v : AcFrame.t) (mc : ModelChain) : ModelChain :=
  {| parameters := parameters mc;
     effective_irradiance := effective_irradiance mc;
     cell_temperature := cell_temperature mc;
     back_irradiance := back_irradiance mc;
     front_irradiance := front_irradiance mc;
     effective_irradiance_bifacial := effective_irradiance_bifacial mc;
     soiling := soiling mc;
     effective_irradiance_soiled := effective_irradiance_soiled mc;
     dc := dc mc; ac := Some v; plant := plant mc; aep := aep mc;
     ncf := ncf mc; energy_yield := energy_yield mc; pr := pr mc |}.

Definition set_plant (v : PlantFrame.t) (mc : ModelChain) : ModelChain :=
  {| parameters := parameters mc;
     effective_irradiance := effective_irradiance mc;
     cell_temperature := cell_temperature mc;
     back_irradiance := back_irradiance mc;
     front_irradiance := front_irradiance mc;
     effective_irradiance_bifacial := effective_irradiance_bifacial mc;
     soiling := soiling mc;
     effective_irradiance_soiled := effective_irradiance_soiled mc;
     dc := dc mc; ac := ac mc; plant := Some v; aep := aep mc;
     ncf := ncf mc; energy_yield := energy_yield mc; pr := pr mc |}.

Definition set_aep (v : np_float) (mc : ModelChain) : ModelChain :=
  {| parameters := parameters mc;
     effective_irradiance := effective_irradiance mc;
     cell_temperature := cell_temperature mc;
     back_irradiance := back_irradiance mc;
     front_irradiance := front_irradiance mc;
     effective_irradiance_bifacial := effective_irradiance_bifacial mc;
     soiling := soiling mc;
     effective_irradiance_soiled := effective_irradiance_soiled mc;
     dc := dc mc; ac := ac mc; plant := plant mc; aep := Some v;
     ncf := ncf mc; energy_yield := energy_yield mc; pr := pr mc |}.

Definition set_ncf (v : np_float) (mc : ModelChain) : ModelChain :=
  {| parameters := parameters mc;
     effective_irradiance := effective_irradiance mc;
     cell_temperature := cell_temperature mc;
     back_irradiance := back_irradiance mc;
     front_irradiance := front_irradiance mc;
     effective_irradiance_bifacial := effective_irradiance_bifacial mc;
     soiling := soiling mc;
     effective_irradiance_soiled := effective_irradiance_soiled mc;
     dc := dc mc; ac := ac mc; plant := plant mc; aep := aep mc;
     ncf := Some v; energy_yield := energy_yield mc; pr := pr mc |}.

Definition set_energy_yield (v : np_float) (mc : ModelChain) : ModelChain :=
  {| parameters := parameters mc;
     effective_irradiance := effective_irradiance mc;
     cell_temperature := cell_temperature mc;
     back_irradiance := back_irradiance mc;
     front_irradiance := front_irradiance mc;
     effective_irradiance_bifacial := effective_irradiance_bifacial mc;
     soiling := soiling mc;
     effective_irradiance_soiled := effective_irradiance_soiled mc;
     dc := dc mc; ac := ac mc; plant := plant mc; aep := aep mc;
     ncf := ncf mc; energy_yield := Some v; pr := pr mc |}.

Definition set_pr (v : np_float) (mc : ModelChain) : ModelChain :=
  {| parameters := parameters mc;
     effective_irradiance := effective_irradiance mc;
     cell_temperature := cell_temperature mc;
     back_irradiance := back_irradiance mc;
     front_irradiance := front_irradiance mc;
     effective_irradiance_bifacial := effective_irradiance_bifacial mc;
     soiling := soiling mc;
     effective_irradiance_soiled := effective_irradiance_soiled mc;
     dc := dc mc; ac := ac mc; plant := plant mc; aep := aep mc;
     ncf := ncf mc; energy_yield := energy_yield mc; pr := Some v |}.

(* ===================================================================== *)
(** ** Series against Python scalars                                      *)
(* ===================================================================== *)

(** [s op c] and [c op s] for a series [s] and a Python number [c]:
    numpy broadcasts the scalar over the samples. *)
Definition series_mul_scalar (s : Series) (c : Q) : Series :=
  (λ x, np_mul x (Fin c)) <$> s.
Definition scalar_mul_series (c : Q) (s : Series) : Series :=
  (λ x, np_mul (Fin c) x) <$> s.
Definition series_div_scalar (s : Series) (c : Q) : Series :=
  (λ x, np_div x (Fin c)) <$> s.
Definition series_add_scalar (s : Series) (c : Q) : Series :=
  (λ x, np_add x (Fin c)) <$> s.
Definition series_sub_scalar (s : Series) (c : Q) : Series :=
  (λ x, np_sub x (Fin c)) <$> s.
Definition scalar_sub_series (c : Q) (s : Series) : Series :=
  (λ x, np_sub (Fin c) x) <$> s.
Definition series_pow2 (s : Series) : Series := np_pow2 <$> s.

(* ===================================================================== *)
(** ** External collaborators: pvlib and pvfactors                        *)
(* ===================================================================== *)

Module SolarPosition.
Record t : Type := { zenith : Series; azimuth : Series }.
End SolarPosition.

Module Tracking.
Record t : Type := { surface_tilt : Series; surface_azimuth : Series }.
End Tracking.

(** [pvarray_parameters] *)
Module PVArray.
Record t : Type := {
  n_pvrows : nat;
  axis_azimuth : Q;
  pvrow_height : Q;
  pvrow_width : Q;
  gcr : Q;
  rho_front_pvrow : Q;
  rho_back_pvrow : Q;
  horizon_band_angle : Q
}.
End PVArray.

(** What [pvfactor_build_report] collects from the middle row. *)
Module Report.
Record t : Type := { total_inc_back : Series; total_inc_front : Series }.
End Report.

(** The library functions the stages call.  They are taken as given:
    pure, and reading their arguments only. *)
Class Collaborators : Type := {
  (** [ModelChain.prepare_inputs]: the solar position at the index ... *)
  get_solarposition : Location → DatetimeIndex → SolarPosition.t;
  (** ... and, for a tracker, the rotation it follows. *)
  singleaxis : PVSystem.t → SolarPosition.t → Tracking.t;
  (** [aoi_model], [spectral_model] and [effective_irradiance_model]:
      the frontside effective irradiance. *)
  effective_irradiance_model :
    PVSystem.t → Location → Weather.t → Series;
  (** [temperature_model]: the cell temperature. *)
  temperature_model : PVSystem.t → Location → Weather.t → Series;
  (** [pvfactors.run.run_timeseries_engine] with [pvfactor_build_report]. *)
  run_timeseries_engine :
    PVArray.t → DatetimeIndex → Series → Series → Series → Series →
    Series → Series → Series → Report.t;
  (** [PVSystem.pvwatts_dc] at one sample. *)
  pvwatts_dc : PVSystem.t → np_float → np_float → np_float;
  (** [pvlib.pvsystem.pvwatts_ac pdc pdc0 eta_inv_nom] at one sample. *)
  pvwatts_ac : np_float → Q → Q → np_float
}.

(* ===================================================================== *)
(** ** [get_system]                                                       *)
(* ===================================================================== *)

Definition get_system (racking : string)
    (axis_height collector_width axis_azimuth gcr : Q)
    (module_parameters temperature_model_parameters : gmap string Q)
    (axis_tilt max_angle : Q) (backtrack : bool)
    (surface_tilt surface_azimuth albedo : Q) : PVSystem.t :=
  (* Single-Axis Tracker *)
  if String.eqb racking "tracker" then
    {| PVSystem.mount := SingleAxisTracker axis_tilt max_angle;
       PVSystem.axis_azimuth := axis_azimuth;
       PVSystem.gcr := gcr;
       PVSystem.backtrack := backtrack;
       PVSystem.module_parameters := module_parameters;
       PVSystem.albedo := None;
       PVSystem.axis_height := axis_height;
       PVSystem.collector_width := collector_width;
       PVSystem.temperature_model_parameters :=
         temperature_model_parameters |}
  (* Fixed-tilt System *)
  else
    let system :=
      {| PVSystem.mount := FixedTilt surface_tilt surface_azimuth;
         PVSystem.axis_azimuth := axis_azimuth;
         PVSystem.gcr := gcr;
         PVSystem.backtrack := false;
         PVSystem.module_parameters := module_parameters;
         PVSystem.albedo := None;
         PVSystem.axis_height := axis_height;
         PVSystem.collector_width := collector_width;
         PVSystem.temperature_model_parameters :=
           temperature_model_parameters |} in
    (* If racking is canopy or rooftop *)
    let system :=
      if negb (String.eqb racking "ground-mount")
      then PVSystem.set_albedo albedo system
      else system in
    let system :=
      if String.eqb racking "rooftop"
      then PVSystem.setitem_module_parameters "bifaciality" 0 system
      else system in
    system.

(* ===================================================================== *)
(** ** [get_modelchain]                                                   *)
(* ===================================================================== *)

(** A ModelChain on which no stage has run yet. *)
Definition ModelChain_init (p : Parameters) : ModelChain :=
  {| parameters := p;
     effective_irradiance := None; cell_temperature := None;
     back_irradiance := None; front_irradiance := None;
     effective_irradiance_bifacial := None; soiling := None;
     effective_irradiance_soiled := None;
     dc := None; ac := None; plant := None;
     aep := None; ncf := None; energy_yield := None; pr := None |}.

Definition get_modelchain (lat lon : Q) (utc_offset : Z) (elevation : Q)
    (name : string) (system : PVSystem.t)
    (degradation_loss bifacial_losses dc_losses ac_capacity
     inverter_efficiency_peak pmt_peak_loss pmt_rating pmt_constant_loss
     ac_collection mpt_peak_loss mpt_bottom_rating mpt_constant_loss
     transmission_loss poi_capacity plant_losses time_step : Q)
    : result ModelChain :=
  let location :=
    {| latitude := lat; longitude := lon; loc_tz := utc_offset;
       altitude := elevation; name := name |} in
  (* dc_capacity is input as a module_parameter per pvwatts requirements *)
  match getitem (PVSystem.module_parameters system) "pdc0" with
  | Raise e => Raise e
  | Ok pdc0 =>
      Ok (ModelChain_init
            {| system := system; location := location;
               degradation_loss := degradation_loss;
               bifacial_losses := bifacial_losses;
               dc_losses := dc_losses;
               ac_capacity := ac_capacity;
               inverter_efficiency_peak := inverter_efficiency_peak;
               pmt_peak_loss := pmt_peak_loss;
               pmt_rating := pmt_rating;
               pmt_constant_loss := pmt_constant_loss;
               ac_collection := ac_collection;
               mpt_peak_loss := mpt_peak_loss;
               mpt_bottom_rating := mpt_bottom_rating;
               mpt_constant_loss := mpt_constant_loss;
               transmission_loss := transmission_loss;
               poi_capacity := poi_capacity;
               plant_losses := plant_losses;
               time_step := time_step;
               dc_capacity := pdc0 |})
  end.

(* ===================================================================== *)
(** ** The stages added to the ModelChain                                 *)
(* ===================================================================== *)

Section Stages.
Context {collaborators : Collaborators}.

(** Accessors for a method that works on [self] and on the caller's
    [weather] frame. *)
Definition the_self : Py (ModelChain * Weather.t) ModelChain :=
  λ s, (Ok (fst s), s).
Definition the_weather : Py (ModelChain * Weather.t) Weather.t :=
  λ s, (Ok (snd s), s).
Definition modify_self (f : ModelChain → ModelChain)
    : Py (ModelChain * Weather.t) unit :=
  modify (λ s, (f (fst s), snd s)).
Definition modify_weather (f : Weather.t → Weather.t)
    : Py (ModelChain * Weather.t) unit :=
  modify (λ s, (fst s, f (snd s))).

(** The PVFactors run of [get_effective_irradiance]: surface angles,
    [pvarray_parameters] and the call of the engine. *)
Definition pvfactor_report (self : Parameters) (weather : Weather.t)
    : Report.t :=
  let solar_position :=
    get_solarposition (location self) (Weather.index weather) in
  let '(surface_tilt, surface_azimuth) :=
    match PVSystem.mount (system self) with
    (* Surface Inputs calculated in prepare_inputs if tracking, *)
    | SingleAxisTracker _ _ =>
        let tracking := singleaxis (system self) solar_position in
        (Tracking.surface_tilt tracking, Tracking.surface_azimuth tracking)
    (* but must be manually calculated if fixed-tilt *)
    | FixedTilt surface_tilt surface_azimuth =>
        (np_repeat surface_tilt (length (stamps (Weather.index weather))),
         np_repeat surface_azimuth
           (length (stamps (Weather.index weather))))
    end in
  let pvarray_parameters :=
    {| PVArray.n_pvrows := 3;
       PVArray.axis_azimuth := PVSystem.axis_azimuth (system self);
       PVArray.pvrow_height := PVSystem.axis_height (system self);
       PVArray.pvrow_width := PVSystem.collector_width (system self);
       PVArray.gcr := PVSystem.gcr (system self);
       (* front and back reflectivity *)
       PVArray.rho_front_pvrow := 0.01;
       PVArray.rho_back_pvrow := 0.03;
       (* sky dome's diffuse horizon band angle *)
       PVArray.horizon_band_angle := 15 |} in
  run_timeseries_engine pvarray_parameters (Weather.index weather)
    (Weather.dni weather) (Weather.dhi weather)
    (SolarPosition.zenith solar_position)
    (SolarPosition.azimuth solar_position)
    surface_tilt surface_azimuth (Weather.surface_albedo weather).

(** [get_effective_irradiance(self, weather, utc_offset)] *)
Definition get_effective_irradiance (utc_offset : Z)
    : Py (ModelChain * Weather.t) unit :=
  (* Must be datetimeindex aware *)
  let zone := "Etc/GMT+" +:+ pretty (- utc_offset)%Z in
  weather ← the_weather;
  (* If pd.datetimeindex is naive, localize, otherwise convert *)
  index ← lift (match tz (Weather.index weather) with
                | None => tz_localize zone (Weather.index weather)
                | Some _ => tz_convert zone (Weather.index weather)
                end);
  modify_weather (Weather.set_index index);;
  (* Check if I should override weather's albedo values *)
  self ← the_self;
  match PVSystem.albedo (system self) with
  | Some a => modify_weather (Weather.set_albedo a)
  | None => ret tt
  end;;
  (* Run PVLib models *)
  weather ← the_weather;
  modify_self (set_effective_irradiance
    (effective_irradiance_model (system self) (location self) weather));;
  self ← the_self;
  irradiance ← lift (getattr "effective_irradiance"
                       (effective_irradiance self));
  modify_self (set_effective_irradiance (fillna0 irradiance));;
  modify_self (set_cell_temperature
    (temperature_model (system self) (location self) weather));;
  (* Use PVFactors viewshed model *)
  let pvfactor_report := pvfactor_report self weather in
  (* Save the PVFactor results *)
  modify_self (set_back_irradiance
    (fillna0 (Report.total_inc_back pvfactor_report)));;
  modify_self (set_front_irradiance
    (fillna0 (Report.total_inc_front pvfactor_report)));;
  (* Calculate plane of array irradiance losses *)
  self ← the_self;
  front ← lift (if PVSystem.backtrack (system self)
                then getattr "effective_irradiance"
                       (effective_irradiance self)
                else getattr "front_irradiance" (front_irradiance self));
  back ← lift (getattr "back_irradiance" (back_irradiance self));
  bifaciality ← lift (getitem (PVSystem.module_parameters (system self))
                        "bifaciality");
  modify_self (set_effective_irradiance_bifacial
    (series_add front
       (series_mul_scalar back
          (bifaciality * (1 - bifacial_losses self)))));;
  (* Apply same soiling loss to front-and-backside POA *)
  modify_self (set_soiling (Weather.soiling weather));;
  self ← the_self;
  bifacial ← lift (getattr "effective_irradiance_bifacial"
                     (effective_irradiance_bifacial self));
  soiling ← lift (getattr "soiling" (soiling self));
  modify_self (set_effective_irradiance_soiled
    (series_mul bifacial (scalar_sub_series 1 soiling))).

(** [run_pvwatts_dc(self)] *)
Definition run_pvwatts_dc : Py ModelChain unit :=
  self ← get;
  g_poa_effective ← lift (getattr "effective_irradiance_soiled"
                            (effective_irradiance_soiled self));
  temp_cell ← lift (getattr "cell_temperature" (cell_temperature self));
  let pdc := zip_with (pvwatts_dc (system self)) g_poa_effective temp_cell in
  let losses := series_mul_scalar pdc (dc_losses self) in
  (* Note: calling dc.losses time series, not the dc_losses attribute *)
  let output := series_sub pdc losses in
  modify (set_dc {| DcFrame.pdc := pdc; DcFrame.losses := losses;
                    DcFrame.output := output; DcFrame.clipping := None |});;
  limit ← lift (py_div (ac_capacity self) (inverter_efficiency_peak self));
  let clipping := series_sub_scalar output limit in
  let clipping := clamp_negative clipping in
  modify (set_dc {| DcFrame.pdc := pdc; DcFrame.losses := losses;
                    DcFrame.output := output;
                    DcFrame.clipping := Some clipping |}).

(** The local series of [run_pvwatts_ac], kept so that statements can
    name them. *)
Record AcLocals : Type := {
  pmt_out : Series;
  mpt_in : Series;
  mpt_out : Series
}.

(** [run_pvwatts_ac], from [self.ac = pd.DataFrame({'pac': pac})] on. *)
Definition ac_cascade (self : Parameters) (pac : Series)
    : AcLocals * AcFrame.t :=
  (* PMT losses *)
  let pmt_out :=
    series_sub pac
      (series_add_scalar
         (scalar_mul_series (pmt_peak_loss self)
            (series_pow2
               (series_div_scalar (series_div_scalar pac 0.98)
                  (pmt_rating self))))
         (pmt_constant_loss self)) in
  let pmt_out := clamp_negative pmt_out in
  (* AC Collection losses *)
  let mpt_in := series_mul_scalar pmt_out (1 - ac_collection self) in
  (* Main Power Transformer losses *)
  let mpt_out :=
    series_sub mpt_in
      (series_add_scalar
         (scalar_mul_series (mpt_peak_loss self)
            (series_pow2
               (series_div_scalar (series_div_scalar mpt_in 0.98)
                  (mpt_bottom_rating self))))
         (mpt_constant_loss self)) in
  let mpt_out := clamp_negative mpt_out in
  (* Transmission line losses and plant clipping *)
  let output := series_mul_scalar mpt_out (1 - transmission_loss self) in
  let losses := series_sub pac output in
  let clipping := series_sub_scalar output (poi_capacity self) in
  let clipping := clamp_negative clipping in
  ({| pmt_out := pmt_out; mpt_in := mpt_in; mpt_out := mpt_out |},
   {| AcFrame.pac := pac; AcFrame.output := output;
      AcFrame.losses := losses; AcFrame.clipping := clipping |}).

(** [run_pvwatts_ac(self)] *)
Definition run_pvwatts_ac : Py ModelChain unit :=
  self ← get;
  dc_frame ← lift (getattr "dc" (dc self));
  pdc0 ← lift (py_div (ac_capacity self) (inverter_efficiency_peak self));
  let pac :=
    (λ pdc, pvwatts_ac pdc pdc0 (inverter_efficiency_peak self))
      <$> DcFrame.output dc_frame in
  modify (set_ac (snd (ac_cascade self pac))).

(** [self.plant] as [run_plant_model] builds it from [self.ac]. *)
Definition plant_frame (self : Parameters) (ac_frame : AcFrame.t)
    : PlantFrame.t :=
  let output :=
    series_sub (AcFrame.output ac_frame) (AcFrame.clipping ac_frame) in
  let losses := series_mul_scalar output (plant_losses self) in
  {| PlantFrame.output := output; PlantFrame.losses := losses |}.

(** [run_plant_model(self)] *)
Definition run_plant_model : Py ModelChain unit :=
  self ← get;
  ac_frame ← lift (getattr "ac" (ac self));
  modify (set_plant (plant_frame self ac_frame)).

(** [self.aep] as [get_results] computes it. *)
Definition annual_energy (self : Parameters) (plant_frame : PlantFrame.t)
    : np_float :=
  np_div
    (np_mul
       (np_sub (series_sum (PlantFrame.output plant_frame))
               (series_sum (PlantFrame.losses plant_frame)))
       (Fin (time_step self)))
    (Fin 60).

(** [get_results(self)] *)
Definition get_results : Py ModelChain unit :=
  self ← get;
  plant_frame ← lift (getattr "plant" (plant self));
  let aep := annual_energy self plant_frame in
  modify (set_aep aep);;
  modify (set_ncf (np_div (np_div aep (Fin (poi_capacity self))) (Fin 8760)));;
  modify (set_energy_yield (np_div aep (Fin (dc_capacity self))));;
  (* Only using front-side irradiance in Performance Ratio calculation *)
  irradiance ← lift (getattr "effective_irradiance"
                       (effective_irradiance self));
  efficiency ← lift (getitem (PVSystem.module_parameters (system self))
                       "efficiency");
  area ← lift (py_div (dc_capacity self) efficiency);
  area ← lift (py_div area 1000);
  modify (set_pr
    (np_sub (Fin 1)
       (np_div aep
          (np_mul
             (np_div (np_mul (series_sum irradiance) (Fin (time_step self)))
                     (Fin 60))
             (Fin area))))).

End Stages.

(* ===================================================================== *)
(** ** [get_psm3]                                                         *)
(* ===================================================================== *)

(** The data frame of a PSM3 answer: its index and its named columns, in
    order. *)
Record Psm3Frame : Type := {
  psm3_index : DatetimeIndex;
  psm3_columns : list (string * Series)
}.

(** What [pvlib.iotools.get_psm3] returns: the metadata of the site and
    the data. *)
Record Psm3Response : Type := {
  psm3_metadata : gmap string Z;
  psm3_data : Psm3Frame
}.

(** The NREL service behind [pvlib.iotools.get_psm3(latitude, longitude,
    api_key, email, names, interval)]. *)
Class SolarResourceDatabase : Type := {
  iotools_get_psm3 : Q → Q → string → string → string → Z → Psm3Response
}.

(** The column of a frame under a label.  The labels of a frame are
    taken to be distinct, as those of PSM3 are; the first match counts. *)
Fixpoint frame_column (label : string) (cols : list (string * Series))
    : option Series :=
  match cols with
  | [] => None
  | (l, s) :: cols' =>
      if String.eqb l label then Some s else frame_column label cols'
  end.

(** [df.filter(items)]: the columns whose label is among [items], in the
    order of [items]; labels the frame does not have are skipped. *)
Definition frame_filter (items : list string) (cols : list (string * Series))
    : list (string * Series) :=
  omap (λ label, (λ s, (label, s)) <$> frame_column label cols) items.

(** What [get_psm3] hands back, or the exception it raises:
    [ValueError] when the new column labels do not fit the frame
    (expected and given length), [KeyError] from the metadata. *)
Inductive psm3_result : Type :=
| Psm3 (weather : Weather.t) (utc_offset elevation : Z)
| Psm3ValueError (expected given : nat)
| Psm3KeyError (key : string).

Section Psm3.
Context {database : SolarResourceDatabase}.

Definition get_psm3 (lat lon : Q) (email api_key year : string)
    (time_step : Z) (soiling_loss nrel_fudge : Q) : psm3_result :=
  let psm3 := iotools_get_psm3 lat lon api_key email year time_step in
  let psm3_df := psm3_data psm3 in
  let weather :=
    frame_filter ["GHI"; "DNI"; "DHI"; "Temperature"; "Wind Speed";
                  "Surface Albedo"] (psm3_columns psm3_df) in
  (* weather.columns = ['ghi', 'dni', 'dhi', 'temp_air', 'wind_speed',
                        'surface_albedo'] *)
  match snd <$> weather with
  | [ghi; dni; dhi; temp_air; wind_speed; surface_albedo] =>
      let index := psm3_index psm3_df in
      let soiling := np_repeat soiling_loss (length (stamps index)) in
      (* A fudge factor to account for model bias *)
      let ghi := series_mul_scalar ghi nrel_fudge in
      let dni := series_mul_scalar dni nrel_fudge in
      let dhi := series_mul_scalar dhi nrel_fudge in
      let weather :=
        {| Weather.index := index;
           Weather.ghi := ghi; Weather.dni := dni; Weather.dhi := dhi;
           Weather.temp_air := temp_air;
           Weather.wind_speed := wind_speed;
           Weather.surface_albedo := surface_albedo;
           Weather.soiling := soiling;
           Weather.albedo := None |} in
      (* Site Meta Data *)
      match psm3_metadata psm3 !! "Time Zone" with
      | None => Psm3KeyError "Time Zone"
      | Some utc_offset =>
          match psm3_metadata psm3 !! "Elevation" with
          | None => Psm3KeyError "Elevation"
          | Some elevation => Psm3 weather utc_offset elevation
          end
      end
  | columns => Psm3ValueError (length columns) 6
  end.

End Psm3.

(* ===================================================================== *)
(** ** Vocabulary of the statements                                       *)
(* ===================================================================== *)

(** [s[t] == q]: the series has a sample at [t] and it is numerically
    equal to the finite value [q]. *)
Definition sample (s : Series) (t : nat) (q : Q) : Prop :=
  ∃ x, s !! t = Some x ∧ np_eq x (Fin q).


(** [sum] of finite samples. *)
Definition Qsum (qs : list Q) : Q := foldr Qplus 0 qs.

(** The AC stage as the specification words it, on one finite sample
    [p] of the inverter output. *)
Section AcStageSpec.
Variable cfg : Parameters.

Definition spec_transformer (peak_loss rating constant_loss input : Q) : Q :=
  Qmax 0 (input - (peak_loss * (input / 0.98 / rating) ^ 2 + constant_loss)).

Definition spec_pmt_out (p : Q) : Q :=
  spec_transformer (pmt_peak_loss cfg) (pmt_rating cfg)
    (pmt_constant_loss cfg) p.

Definition spec_mpt_in (p : Q) : Q :=
  spec_pmt_out p * (1 - ac_collection cfg).

Definition spec_mpt_out (p : Q) : Q :=
  spec_transformer (mpt_peak_loss cfg) (mpt_bottom_rating cfg)
    (mpt_constant_loss cfg) (spec_mpt_in p).

Definition spec_output (p : Q) : Q :=
  spec_mpt_out p * (1 - transmission_loss cfg).

Definition spec_losses (p : Q) : Q := p - spec_output p.

Definition spec_clipping (p : Q) : Q :=
  Qmax 0 (spec_output p - poi_capacity cfg).

End AcStageSpec.

(** The clamp [max(0, x)] as the mask assignment computes it on a finite
    sample. *)
Definition Qclamp (x : Q) : Q :=
  match x ?= 0 with
  | Lt => 0
  | _ => x
  end.

(* ===================================================================== *)
(** ** Sample plants, used to run the stages on concrete inputs           *)
(* ===================================================================== *)

Definition demo_module_parameters : gmap string Q :=
  <["pdc0" := 1000]> (<["gamma_pdc" := -0.004]>
    (<["bifaciality" := 0.7]> (<["efficiency" := 0.2]> ∅))).

Definition demo_temperature_parameters : gmap string Q :=
  <["a" := -3.56]> (<["b" := -0.075]> (<["deltaT" := 3]> ∅)).

(** A backtracking single-axis tracker, and a rooftop array given the
    same module parameters. *)
Definition demo_tracker : PVSystem.t :=
  get_system "tracker" 1.5 2 180 0.4 demo_module_parameters
    demo_temperature_parameters 0 60 true 0 0 0.

Definition demo_rooftop : PVSystem.t :=
  get_system "rooftop" 1.5 2 180 0.4 demo_module_parameters
    demo_temperature_parameters 0 0 false 10 180 0.3.

Definition demo_parameters (system : PVSystem.t) : Parameters :=
  {| system := system;
     location := {| latitude := 35; longitude := -106; loc_tz := (-7)%Z;
                    altitude := 1600; name := "demo" |};
     degradation_loss := 0.005; bifacial_losses := 0.1; dc_losses := 0.02;
     ac_capacity := 900; inverter_efficiency_peak := 0.98;
     pmt_peak_loss := 10; pmt_rating := 1000; pmt_constant_loss := 2;
     ac_collection := 0.01;
     mpt_peak_loss := 5; mpt_bottom_rating := 1000; mpt_constant_loss := 1;
     transmission_loss := 0.005; poi_capacity := 900; plant_losses := 0.02;
     time_step := 60; dc_capacity := 1000 |}.

(** The same plant with every loss of the AC and plant stages set to
    zero. *)
Definition lossless_parameters : Parameters :=
  {| system := demo_tracker;
     location := location (demo_parameters demo_tracker);
     degradation_loss := 0; bifacial_losses := 0; dc_losses := 0;
     ac_capacity := 2000; inverter_efficiency_peak := 0.98;
     pmt_peak_loss := 0; pmt_rating := 1000; pmt_constant_loss := 0;
     ac_collection := 0;
     mpt_peak_loss := 0; mpt_bottom_rating := 1000; mpt_constant_loss := 0;
     transmission_loss := 0; poi_capacity := 2000; plant_losses := 0;
     time_step := 60; dc_capacity := 1000 |}.

(** The same plant with a DC nameplate of zero. *)
Definition zero_capacity_parameters : Parameters :=
  {| system := demo_tracker;
     location := location (demo_parameters demo_tracker);
     degradation_loss := 0.005; bifacial_losses := 0.1; dc_losses := 0.02;
     ac_capacity := 900; inverter_efficiency_peak := 0.98;
     pmt_peak_loss := 10; pmt_rating := 1000; pmt_constant_loss := 2;
     ac_collection := 0.01;
     mpt_peak_loss := 5; mpt_bottom_rating := 1000; mpt_constant_loss := 1;
     transmission_loss := 0.005; poi_capacity := 900; plant_losses := 0.02;
     time_step := 60; dc_capacity := 0 |}.

(** Three hourly samples on a naive index. *)
Definition demo_weather : Weather.t :=
  {| Weather.index := {| stamps := [0; 3600; 7200]%Z; tz := None |};
     Weather.ghi := [Fin 0; Fin 500; Fin 1000];
     Weather.dni := [Fin 0; Fin 400; Fin 800];
     Weather.dhi := [Fin 0; Fin 100; Fin 200];
     Weather.temp_air := [Fin 10; Fin 15; Fin 20];
     Weather.wind_speed := [Fin 1; Fin 2; Fin 3];
     Weather.surface_albedo := [Fin 0.2; Fin 0.2; Fin 0.2];
     Weather.soiling := [Fin 0.02; Fin 0.02; Fin 0.02];
     Weather.albedo := None |}.

(** Stand-ins for pvlib and pvfactors: simple arithmetic on the weather
    columns, enough to run a stage end to end. *)
Definition demo_collaborators : Collaborators :=
  {| get_solarposition := λ _ idx,
       {| SolarPosition.zenith := np_repeat 30 (length (stamps idx));
          SolarPosition.azimuth := np_repeat 180 (length (stamps idx)) |};
     singleaxis := λ _ pos,
       {| Tracking.surface_tilt := SolarPosition.zenith pos;
          Tracking.surface_azimuth := SolarPosition.azimuth pos |};
     effective_irradiance_model := λ _ _ w, Weather.ghi w;
     temperature_model := λ _ _ w, Weather.temp_air w;
     run_timeseries_engine := λ _ _ dni dhi _ _ _ _ albedo,
       {| Report.total_inc_back := series_mul dhi albedo;
          Report.total_inc_front := series_add dni dhi |};
     pvwatts_dc := λ _ g _, g;
     pvwatts_ac := λ pdc _ eta, np_mul pdc (Fin eta) |}.

(** A plant frame and a frontside series for the metrics. *)
Definition demo_plant : PlantFrame.t :=
  {| PlantFrame.output := [Fin 100; Fin 100];
     PlantFrame.losses := [Fin 0; Fin 0] |}.

Definition demo_after_plant (p : Parameters) : ModelChain :=
  set_plant demo_plant
    (set_effective_irradiance [Fin 500; Fin 500] (ModelChain_init p)).

(** The tracker with a module efficiency of zero. *)
Definition demo_zero_efficiency : PVSystem.t :=
  PVSystem.setitem_module_parameters "efficiency" 0 demo_tracker.

(** The stages in the order a caller chains them, stopping at the
    first one that raises. *)
Definition demo_pipeline {collaborators : Collaborators} (utc_offset : Z)
    (self : ModelChain) (weather : Weather.t) : result unit * ModelChain :=
  let '(r, (self, _)) :=
    get_effective_irradiance utc_offset (self, weather) in
  match r with
  | Raise e => (Raise e, self)
  | Ok _ =>
      (run_pvwatts_dc ;; run_pvwatts_ac ;; run_plant_model ;; get_results)
        self
  end.

(** No sample is below zero (NaN is not). *)
Definition never_negative (s : Series) : Prop :=
  Forall (λ x, np_ltb x (Fin 0) = false) s.

(** No sample is NaN. *)
Definition no_nan (s : Series) : Prop :=
  Forall (λ x, np_isnan x = false) s.

(** A PSM3 answer of two half-hours, and the same answer without its
    wind column. *)
Definition demo_psm3_columns : list (string * Series) :=
  [("Year", [Fin 2018; Fin 2018]);
   ("Temperature", [Fin 10; Fin 11]);
   ("DHI", [Fin 100; Fin 110]);
   ("DNI", [Fin 400; Fin 410]);
   ("GHI", [Fin 500; Fin 520]);
   ("Surface Albedo", [Fin 0.2; Fin 0.2]);
   ("Wind Speed", [Fin 1; NaN])].

Definition demo_psm3_response (columns : list (string * Series))
    : Psm3Response :=
  {| psm3_metadata := <["Time Zone" := (-7)%Z]> (<["Elevation" := 1600%Z]> ∅);
     psm3_data := {| psm3_index := {| stamps := [0; 1800]%Z; tz := None |};
                     psm3_columns := columns |} |}.

Definition demo_database (columns : list (string * Series))
    : SolarResourceDatabase :=
  {| iotools_get_psm3 := λ _ _ _ _ _ _, demo_psm3_response columns |}.

(* ===================================================================== *)
(** ** Arithmetic on finite samples                                       *)
(* ===================================================================== *)

Lemma np_add_Fin (a b : Q) : np_add (Fin a) (Fin b) = Fin (a + b).
Proof. reflexivity. Qed.

Lemma np_sub_Fin (a b : Q) : np_sub (Fin a) (Fin b) = Fin (a - b).
Proof. reflexivity. Qed.

Lemma np_mul_Fin (a b : Q) : np_mul (Fin a) (Fin b) = Fin (a * b).
Proof. reflexivity. Qed.

Lemma np_pow2_Fin (a : Q) : np_pow2 (Fin a) = Fin (a ^ 2).
Proof. reflexivity. Qed.

Lemma np_div_Fin (a b : Q) : ¬ b == 0 → np_div (Fin a) (Fin b) = Fin (a / b).
Proof.
  intros Hb. unfold np_div.
  destruct (Qeq_bool b 0) eqn:E; [|reflexivity].
  apply Qeq_bool_iff in E. contradiction.
Qed.

Lemma np_div_Fin_zero (a b : Q) :
  b == 0 → np_div (Fin a) (Fin b) = np_signed_inf (a ?= 0).
Proof.
  intros Hb. unfold np_div.
  apply Qeq_bool_iff in Hb. rewrite Hb. reflexivity.
Qed.

Lemma np_signed_inf_not_finite (c : comparison) :
  np_isfinite (np_signed_inf c) = false.
Proof. destruct c; reflexivity. Qed.

Lemma np_clamp_negative_Fin (x : Q) :
  np_clamp_negative (Fin x) = Fin (Qclamp x).
Proof.
  unfold Qclamp, np_clamp_negative. simpl.
  destruct (x ?= 0); reflexivity.
Qed.

Lemma Qclamp_max (x : Q) : Qclamp x == Qmax 0 x.
Proof.
  unfold Qclamp. destruct (x ?= 0) eqn:E.
  - apply Qeq_alt in E. rewrite Q.max_r; [reflexivity|].
    rewrite E. apply Qle_refl.
  - apply Qlt_alt in E. rewrite Q.max_l; [reflexivity|].
    apply Qlt_le_weak, E.
  - apply Qgt_alt in E. rewrite Q.max_r; [reflexivity|].
    apply Qlt_le_weak, E.
Qed.

Lemma Qclamp_nonneg (x : Q) : 0 <= x → Qclamp x = x.
Proof.
  intros Hx. unfold Qclamp. destruct (x ?= 0) eqn:E; try reflexivity.
  apply Qlt_alt in E. lra.
Qed.

Lemma Qclamp_neg (x : Q) : x < 0 → Qclamp x = 0.
Proof.
  intros Hx. unfold Qclamp. destruct (x ?= 0) eqn:E; try reflexivity.
  - apply Qeq_alt in E. lra.
  - apply Qgt_alt in E. lra.
Qed.

#[local] Instance spec_transformer_proper :
  Proper (Qeq ==> Qeq ==> Qeq ==> Qeq ==> Qeq) spec_transformer.
Proof.
  intros a a' Ha b b' Hb c c' Hc d d' Hd. unfold spec_transformer.
  rewrite Ha, Hb, Hc, Hd. reflexivity.
Qed.

Lemma sample_Fin (s : Series) (t : nat) (q q' : Q) :
  s !! t = Some (Fin q) → q == q' → sample s t q'.
Proof. intros Hs Hq. exists (Fin q). split; [exact Hs | exact Hq]. Qed.

(** Looking a sample up through the elementwise operations. *)
Ltac series_lookup H :=
  unfold clamp_negative, series_sub, series_add, series_mul,
    series_add_scalar, scalar_mul_series, series_pow2, series_div_scalar,
    series_mul_scalar, series_sub_scalar, scalar_sub_series;
  repeat (rewrite ?list_lookup_fmap, ?lookup_zip_with, ?H;
          cbn [fmap option_fmap option_map mbind option_bind]).

(* ===================================================================== *)
(** ** The AC stage on one finite sample                                  *)
(* ===================================================================== *)

(** One transformer: quadratic loss, then the clamp. *)
Lemma transformer_Fin (peak rating const x : Q) :
  ¬ rating == 0 →
  np_clamp_negative
    (np_sub (Fin x)
       (np_add
          (np_mul (Fin peak)
             (np_pow2 (np_div (np_div (Fin x) (Fin 0.98)) (Fin rating))))
          (Fin const)))
  = Fin (Qclamp (x - (peak * (x / 0.98 / rating) ^ 2 + const))).
Proof.
  intros Hr. rewrite (np_div_Fin x 0.98) by discriminate.
  rewrite np_div_Fin by exact Hr.
  rewrite np_pow2_Fin, np_mul_Fin, np_add_Fin, np_sub_Fin.
  apply np_clamp_negative_Fin.
Qed.

Lemma ac_cascade_sample (self : Parameters) (pac : Series) (t : nat) (p : Q) :
  ¬ pmt_rating self == 0 → ¬ mpt_bottom_rating self == 0 →
  pac !! t = Some (Fin p) →
  let o1 := Qclamp (p - (pmt_peak_loss self
                           * (p / 0.98 / pmt_rating self) ^ 2
                         + pmt_constant_loss self)) in
  let i2 := o1 * (1 - ac_collection self) in
  let o2 := Qclamp (i2 - (mpt_peak_loss self
                            * (i2 / 0.98 / mpt_bottom_rating self) ^ 2
                          + mpt_constant_loss self)) in
  let out := o2 * (1 - transmission_loss self) in
  pmt_out (fst (ac_cascade self pac)) !! t = Some (Fin o1) ∧
  mpt_in (fst (ac_cascade self pac)) !! t = Some (Fin i2) ∧
  mpt_out (fst (ac_cascade self pac)) !! t = Some (Fin o2) ∧
  AcFrame.pac (snd (ac_cascade self pac)) !! t = Some (Fin p) ∧
  AcFrame.output (snd (ac_cascade self pac)) !! t = Some (Fin out) ∧
  AcFrame.losses (snd (ac_cascade self pac)) !! t = Some (Fin (p - out)) ∧
  AcFrame.clipping (snd (ac_cascade self pac)) !! t =
    Some (Fin (Qclamp (out - poi_capacity self))).
Proof.
  intros H1 H2 Hp. cbn zeta. unfold ac_cascade.
  cbn [fst snd pmt_out mpt_in mpt_out AcFrame.pac AcFrame.output
       AcFrame.losses AcFrame.clipping].
  series_lookup Hp.
  rewrite !(transformer_Fin _ _ _ _ H1), !np_mul_Fin.
  rewrite !(transformer_Fin _ _ _ _ H2).
  rewrite !np_mul_Fin, !np_sub_Fin, np_clamp_negative_Fin.
  repeat split; reflexivity.
Qed.

(** The loss of one transformer on a non-negative input. *)
Lemma Qclamp_transformer (peak const y x : Q) :
  0 <= peak → 0 <= const → 0 <= x →
  Qclamp (x - (peak * y ^ 2 + const)) <= x ∧
  (0 < x → 0 < const → Qclamp (x - (peak * y ^ 2 + const)) < x).
Proof.
  intros Hpeak Hconst Hx.
  assert (Hsq : 0 <= peak * y ^ 2).
  { apply Qmult_le_0_compat; [exact Hpeak|].
    change (y ^ 2) with (y * y). nra. }
  destruct (Qlt_le_dec (x - (peak * y ^ 2 + const)) 0) as [Hneg|Hpos].
  - rewrite Qclamp_neg by exact Hneg. split; [exact Hx | intros; assumption].
  - rewrite Qclamp_nonneg by exact Hpos. split; [lra | intros; lra].
Qed.

(* ===================================================================== *)
(** ** The stages on the sample plant                                     *)
(* ===================================================================== *)

(** [get_modelchain] reads the DC nameplate from the module parameters,
    and raises without it. *)
Example get_modelchain_reads_pdc0 :
  match get_modelchain 35 (-106) (-7) 1600 "demo" demo_tracker
          0.005 0.1 0.02 900 0.98 10 1000 2 0.01 5 1000 1 0.005 900 0.02 60
  with
  | Ok mc => mc = ModelChain_init (demo_parameters demo_tracker)
  | Raise _ => False
  end.
Proof. vm_compute. reflexivity. Qed.

Example get_modelchain_without_pdc0 :
  get_modelchain 35 (-106) (-7) 1600 "demo"
    (get_system "canopy" 3 2 180 0.4 ∅ ∅ 0 0 false 10 180 0.3)
    0.005 0.1 0.02 900 0.98 10 1000 2 0.01 5 1000 1 0.005 900 0.02 60
  = Raise (KeyError "pdc0").
Proof. reflexivity. Qed.

(** The whole chain runs on the sample tracker; the DC stage clips the
    third sample only. *)
Example demo_pipeline_runs :
  let run := demo_pipeline (collaborators := demo_collaborators) (-7)
               (ModelChain_init (demo_parameters demo_tracker))
               demo_weather in
  fst run = Ok tt ∧
  (DcFrame.output <$> dc (snd run)) =
    Some [Fin 0.000000000000; Fin 492.301040000000; Fin 984.602080000000] ∧
  (DcFrame.clipping <$> dc (snd run)) =
    Some (Some [Fin 0; Fin 0; Fin (6491003840000000 # 98000000000000)]).
Proof. vm_compute. repeat split; reflexivity. Qed.

(** Without a bifaciality in the module parameters the irradiance step
    raises, after it has rewritten the index of the caller's frame. *)
Example get_effective_irradiance_without_bifaciality :
  let system := get_system "canopy" 3 2 180 0.4 ∅ ∅ 0 0 false 10 180 0.3 in
  let run := get_effective_irradiance (collaborators := demo_collaborators) (-7)
               (ModelChain_init (demo_parameters system), demo_weather) in
  fst run = Raise (KeyError "bifaciality") ∧
  tz (Weather.index (snd (snd run))) = Some (etc_gmt_plus 7) ∧
  Weather.albedo (snd (snd run)) = Some 0.3.
Proof. vm_compute. repeat split; reflexivity. Qed.

(** East of Greenwich the name built at line 282 carries a sign,
    ['Etc/GMT+-5']; the tz database holds no such zone, and the step
    raises before it has assigned anything. *)
Example timezone_names :
  timezone "Etc/GMT+0" = Ok (etc_gmt_plus 0) ∧
  timezone "Etc/GMT+12" = Ok (etc_gmt_plus 12) ∧
  timezone "Etc/GMT+13" = Raise (UnknownTimeZoneError "Etc/GMT+13") ∧
  timezone "Etc/GMT+-5" = Raise (UnknownTimeZoneError "Etc/GMT+-5").
Proof. vm_compute. repeat split; reflexivity. Qed.

Example get_effective_irradiance_east_of_greenwich :
  let self := ModelChain_init (demo_parameters demo_tracker) in
  get_effective_irradiance (collaborators := demo_collaborators) 5
    (self, demo_weather)
  = (Raise (UnknownTimeZoneError "Etc/GMT+-5"), (self, demo_weather)).
Proof. vm_compute. reflexivity. Qed.

(** A padmount transformer rated 1000 with peak loss 10 and constant
    loss 2 passes 987.59 of an input of 1000. *)
Example pmt_out_of_1000 :
  ∃ o : Q,
    pmt_out (fst (ac_cascade (demo_parameters demo_tracker) [Fin 1000]))
      !! 0%nat = Some (Fin o) ∧
    987.58 < o < 987.60.
Proof. eexists. split; [vm_compute; reflexivity|]. split; reflexivity. Qed.

(** Two hourly samples of 100 W without losses are 200 Wh. *)
Example aep_of_two_hours :
  np_eq (annual_energy (demo_parameters demo_tracker) demo_plant) (Fin 200).
Proof. vm_compute. reflexivity. Qed.

(** A module efficiency of zero makes [get_results] raise, after [aep],
    [ncf] and [energy_yield] have been assigned. *)
Example get_results_zero_efficiency :
  let run := get_results
               (demo_after_plant (demo_parameters demo_zero_efficiency)) in
  fst run = Raise ZeroDivisionError ∧
  aep (snd run) = Some (Fin (12000 # 60)) ∧
  pr (snd run) = None.
Proof. vm_compute. repeat split; reflexivity. Qed.

(** The special values through one transformer: a negative input and a
    NaN input. *)
Example pmt_out_special_values :
  pmt_out (fst (ac_cascade (demo_parameters demo_tracker)
                  [Fin (-5); NaN; PInf]))
  = [Fin 0; NaN; NaN].
Proof. vm_compute. reflexivity. Qed.

(* ===================================================================== *)
(** ** Properties of the AC stage                                         *)
(* ===================================================================== *)

(** C1.  At every timestep [t] whose inverter output [pac[t]] is the
    finite value [p], the AC stage computes, in this order and each from
    the one before it, [pmt_out[t] = max(0, p - (pmt_peak_loss * (p /
    0.98 / pmt_rating)^2 + pmt_constant_loss))], [mpt_in[t] = pmt_out[t]
    * (1 - ac_collection)], [mpt_out[t] = max(0, mpt_in[t] -
    (mpt_peak_loss * (mpt_in[t] / 0.98 / mpt_bottom_rating)^2 +
    mpt_constant_loss))], [output[t] = mpt_out[t] * (1 -
    transmission_loss)], [losses[t] = p - output[t]] and [clipping[t] =
    max(0, output[t] - poi_capacity)]; the two transformer subtractions
    are clamped at zero separately.  The ratings divide, so they are
    nonzero. *)
Theorem ac_cascade_refines_spec
    (self : Parameters) (pac : Series) (t : nat) (p : Q) :
  ¬ pmt_rating self == 0 → ¬ mpt_bottom_rating self == 0 →
  pac !! t = Some (Fin p) →
  let locals := fst (ac_cascade self pac) in
  let frame := snd (ac_cascade self pac) in
  sample (pmt_out locals) t (spec_pmt_out self p) ∧
  sample (mpt_in locals) t (spec_mpt_in self p) ∧
  sample (mpt_out locals) t (spec_mpt_out self p) ∧
  sample (AcFrame.output frame) t (spec_output self p) ∧
  sample (AcFrame.losses frame) t (spec_losses self p) ∧
  sample (AcFrame.clipping frame) t (spec_clipping self p).
Proof.
  intros H1 H2 Hp locals frame. subst locals frame.
  pose proof (ac_cascade_sample self pac t p H1 H2 Hp) as HS.
  cbv zeta in HS. destruct HS as (E1 & E2 & E3 & _ & E5 & E6 & E7).
  set (o1 := Qclamp (p - _)) in *.
  set (i2 := o1 * (1 - ac_collection self)) in *.
  set (o2 := Qclamp (i2 - _)) in *.
  set (out := o2 * (1 - transmission_loss self)) in *.
  assert (A1 : o1 == spec_pmt_out self p) by apply Qclamp_max.
  assert (A2 : i2 == spec_mpt_in self p).
  { unfold i2, spec_mpt_in. rewrite A1. reflexivity. }
  assert (A3 : o2 == spec_mpt_out self p).
  { unfold o2, spec_mpt_out. rewrite Qclamp_max.
    change (Qmax 0 _) with
      (spec_transformer (mpt_peak_loss self) (mpt_bottom_rating self)
         (mpt_constant_loss self) i2).
    rewrite A2. reflexivity. }
  assert (A4 : out == spec_output self p).
  { unfold out, spec_output. rewrite A3. reflexivity. }
  repeat split.
  - exact (sample_Fin _ _ _ _ E1 A1).
  - exact (sample_Fin _ _ _ _ E2 A2).
  - exact (sample_Fin _ _ _ _ E3 A3).
  - exact (sample_Fin _ _ _ _ E5 A4).
  - apply (sample_Fin _ _ _ _ E6). unfold spec_losses. rewrite A4.
    reflexivity.
  - apply (sample_Fin _ _ _ _ E7). unfold spec_clipping.
    rewrite Qclamp_max, A4. reflexivity.
Qed.

Lemma ac_cascade_refines_spec_witness :
  let self := demo_parameters demo_tracker in
  let pac := [Fin 1000; Fin 0] in
  (¬ pmt_rating self == 0) ∧ (¬ mpt_bottom_rating self == 0) ∧
  pac !! 0%nat = Some (Fin 1000) ∧
  sample (pmt_out (fst (ac_cascade self pac))) 0 (spec_pmt_out self 1000) ∧
  sample (mpt_in (fst (ac_cascade self pac))) 0 (spec_mpt_in self 1000) ∧
  sample (mpt_out (fst (ac_cascade self pac))) 0 (spec_mpt_out self 1000) ∧
  sample (AcFrame.output (snd (ac_cascade self pac))) 0
    (spec_output self 1000) ∧
  sample (AcFrame.losses (snd (ac_cascade self pac))) 0
    (spec_losses self 1000) ∧
  sample (AcFrame.clipping (snd (ac_cascade self pac))) 0
    (spec_clipping self 1000).
Proof.
  intros self pac.
  assert (H1 : ¬ pmt_rating self == 0) by (vm_compute; discriminate).
  assert (H2 : ¬ mpt_bottom_rating self == 0) by (vm_compute; discriminate).
  assert (Hp : pac !! 0%nat = Some (Fin 1000)) by reflexivity.
  split; [exact H1|]. split; [exact H2|]. split; [exact Hp|].
  exact (ac_cascade_refines_spec self pac 0 1000 H1 H2 Hp).
Defined.

(** The methods store exactly these frames. *)
Lemma run_pvwatts_ac_ok {collaborators : Collaborators}
    (self : ModelChain) (dc_frame : DcFrame.t) :
  dc self = Some dc_frame → ¬ inverter_efficiency_peak self == 0 →
  run_pvwatts_ac self =
    (Ok tt,
     set_ac
       (snd (ac_cascade self
          ((λ pdc, pvwatts_ac pdc
                     (ac_capacity self / inverter_efficiency_peak self)
                     (inverter_efficiency_peak self))
             <$> DcFrame.output dc_frame)))
       self).
Proof.
  intros Hdc Heff. unfold run_pvwatts_ac, bind, get, lift, modify, py_div.
  rewrite Hdc. cbn [getattr].
  destruct (Qeq_bool (inverter_efficiency_peak self) 0) eqn:E; [|reflexivity].
  apply Qeq_bool_iff in E. contradiction.
Qed.

Lemma run_pvwatts_ac_zero_efficiency {collaborators : Collaborators}
    (self : ModelChain) (dc_frame : DcFrame.t) :
  dc self = Some dc_frame → inverter_efficiency_peak self == 0 →
  run_pvwatts_ac self = (Raise ZeroDivisionError, self).
Proof.
  intros Hdc Heff. unfold run_pvwatts_ac, bind, get, lift, modify, py_div.
  rewrite Hdc. cbn [getattr].
  apply Qeq_bool_iff in Heff. rewrite Heff. reflexivity.
Qed.

Lemma run_plant_model_ok (self : ModelChain) (ac_frame : AcFrame.t) :
  ac self = Some ac_frame →
  run_plant_model self = (Ok tt, set_plant (plant_frame self ac_frame) self).
Proof.
  intros Hac. unfold run_plant_model, bind, get, lift, modify.
  rewrite Hac. reflexivity.
Qed.

(** C6, as stated, fails on a negative inverter output: with every loss
    at zero and the POI ceiling far above, [pac = -1] comes out of the
    plant stage as [0], because each transformer clamps at zero. *)
Lemma lossless_cascade_not_below_zero :
  let self := lossless_parameters in
  let pac := [Fin (-1)] in
  (dc_losses self == 0 ∧ ac_collection self == 0 ∧
   transmission_loss self == 0 ∧ plant_losses self == 0) ∧
  (pmt_peak_loss self == 0 ∧ pmt_constant_loss self == 0 ∧
   mpt_peak_loss self == 0 ∧ mpt_constant_loss self == 0) ∧
  (-1 < ac_capacity self / inverter_efficiency_peak self ∧
   -1 < poi_capacity self) ∧
  AcFrame.pac (snd (ac_cascade self pac)) !! 0%nat = Some (Fin (-1)) ∧
  ¬ sample (PlantFrame.output (plant_frame self (snd (ac_cascade self pac))))
      0 (-1).
Proof.
  cbv zeta. repeat split; try reflexivity.
  intros (x & Hx & Hq). vm_compute in Hx.
  injection Hx as <-. vm_compute in Hq. discriminate.
Qed.

(** C6 (amended).  With the transformer loss constants, [ac_collection]
    and [transmission_loss] all zero, at every timestep whose inverter
    output [pac[t]] is a finite [p] with [0 <= p <= poi_capacity], the
    plant output equals it: [plant.output[t] == pac[t]].  The ratings
    divide, so they are nonzero. *)
Theorem lossless_cascade
    (self : Parameters) (pac : Series) (t : nat) (p : Q) :
  pmt_peak_loss self == 0 → pmt_constant_loss self == 0 →
  mpt_peak_loss self == 0 → mpt_constant_loss self == 0 →
  ac_collection self == 0 → transmission_loss self == 0 →
  ¬ pmt_rating self == 0 → ¬ mpt_bottom_rating self == 0 →
  pac !! t = Some (Fin p) → 0 <= p → p <= poi_capacity self →
  let frame := snd (ac_cascade self pac) in
  AcFrame.pac frame !! t = Some (Fin p) ∧
  sample (PlantFrame.output (plant_frame self frame)) t p.
Proof.
  intros Hpk1 Hc1 Hpk2 Hc2 Hcol Htr H1 H2 Hp Hp0 Hpoi frame. subst frame.
  pose proof (ac_cascade_sample self pac t p H1 H2 Hp) as HS.
  cbv zeta in HS. destruct HS as (_ & _ & _ & Epac & Eout & _ & Eclip).
  set (x1 := p - _) in *.
  assert (A1 : x1 == p).
  { unfold x1. rewrite Hpk1, Hc1. ring. }
  rewrite (Qclamp_nonneg x1) in Eout, Eclip by lra.
  set (i2 := x1 * (1 - ac_collection self)) in *.
  assert (A2 : i2 == p).
  { unfold i2. rewrite Hcol, A1. ring. }
  set (x2 := i2 - _) in *.
  assert (A3 : x2 == p).
  { unfold x2. rewrite Hpk2, Hc2, A2. ring. }
  rewrite (Qclamp_nonneg x2) in Eout, Eclip by lra.
  set (out := x2 * (1 - transmission_loss self)) in *.
  assert (A4 : out == p).
  { unfold out. rewrite Htr, A3. ring. }
  split; [exact Epac|].
  unfold plant_frame. cbn [PlantFrame.output].
  unfold sample, series_sub. rewrite lookup_zip_with, Eout, Eclip.
  cbn [mbind option_bind]. rewrite np_sub_Fin.
  eexists. split; [reflexivity|]. cbn [np_eq].
  destruct (Qlt_le_dec (out - poi_capacity self) 0) as [Hlt|Hge].
  - rewrite Qclamp_neg by exact Hlt. lra.
  - rewrite Qclamp_nonneg by exact Hge. lra.
Qed.

Lemma lossless_cascade_witness :
  let self := lossless_parameters in
  let pac := [Fin 5; Fin 700] in
  pac !! 1%nat = Some (Fin 700) ∧ 0 <= 700 ∧ 700 <= poi_capacity self ∧
  AcFrame.pac (snd (ac_cascade self pac)) !! 1%nat = Some (Fin 700) ∧
  sample (PlantFrame.output (plant_frame self (snd (ac_cascade self pac))))
    1 700.
Proof.
  intros self pac.
  assert (Hp : pac !! 1%nat = Some (Fin 700)) by reflexivity.
  assert (Hp0 : 0 <= 700) by (vm_compute; discriminate).
  assert (Hpoi : 700 <= poi_capacity self) by (vm_compute; discriminate).
  split; [exact Hp|]. split; [exact Hp0|]. split; [exact Hpoi|].
  refine (lossless_cascade self pac 1 700 _ _ _ _ _ _ _ _ Hp Hp0 Hpoi);
    vm_compute; (reflexivity || discriminate).
Defined.




(* ===================================================================== *)
(** ** The metrics: what [get_results] leaves on [self]                   *)
(* ===================================================================== *)

Lemma series_sum_Fin (qs : list Q) : series_sum (Fin <$> qs) = Fin (Qsum qs).
Proof.
  unfold series_sum, fillna0, Qsum.
  induction qs as [|q qs IH]; [reflexivity|].
  cbn [fmap list_fmap foldr np_isnan] in *. rewrite IH. reflexivity.
Qed.

Lemma annual_energy_Fin (self : Parameters) (os ls : list Q) :
  annual_energy self
    {| PlantFrame.output := Fin <$> os; PlantFrame.losses := Fin <$> ls |}
  = Fin ((Qsum os - Qsum ls) * time_step self / 60).
Proof.
  unfold annual_energy. cbn [PlantFrame.output PlantFrame.losses].
  rewrite !series_sum_Fin, np_sub_Fin, np_mul_Fin.
  apply np_div_Fin. discriminate.
Qed.

(** Every path through [get_results] once [self.plant] exists: [aep],
    [ncf] and [energy_yield] are assigned first, then the performance
    ratio either raises or is assigned. *)
Lemma get_results_run (self : ModelChain) (pf : PlantFrame.t) :
  plant self = Some pf →
  let a := annual_energy self pf in
  let assigned :=
    set_energy_yield (np_div a (Fin (dc_capacity self)))
      (set_ncf (np_div (np_div a (Fin (poi_capacity self))) (Fin 8760))
         (set_aep a self)) in
  get_results self =
    match effective_irradiance self with
    | None => (Raise (AttributeError "effective_irradiance"), assigned)
    | Some irradiance =>
        match PVSystem.module_parameters (system self) !! "efficiency" with
        | None => (Raise (KeyError "efficiency"), assigned)
        | Some efficiency =>
            if Qeq_bool efficiency 0
            then (Raise ZeroDivisionError, assigned)
            else
              (Ok tt,
               set_pr
                 (np_sub (Fin 1)
                    (np_div a
                       (np_mul
                          (np_div
                             (np_mul (series_sum irradiance)
                                (Fin (time_step self)))
                             (Fin 60))
                          (Fin (dc_capacity self / efficiency / 1000)))))
                 assigned)
        end
    end.
Proof.
  intros Hplant. cbv zeta.
  unfold get_results, bind, get, lift, modify, getitem, py_div.
  rewrite Hplant. cbn [getattr].
  cbn [set_aep set_ncf set_energy_yield parameters effective_irradiance].
  destruct (effective_irradiance self) as [irr|]; cbn [getattr];
    [|reflexivity].
  destruct (PVSystem.module_parameters (system self) !! "efficiency")
    as [e|]; [|reflexivity].
  destruct (Qeq_bool e 0); reflexivity.
Qed.

(** What [get_results] has assigned whether or not it goes on to
    raise. *)
Lemma get_results_assigned (self : ModelChain) (pf : PlantFrame.t) :
  plant self = Some pf →
  aep (snd (get_results self)) = Some (annual_energy self pf) ∧
  ncf (snd (get_results self)) =
    Some (np_div (np_div (annual_energy self pf)
                    (Fin (poi_capacity self))) (Fin 8760)) ∧
  energy_yield (snd (get_results self)) =
    Some (np_div (annual_energy self pf) (Fin (dc_capacity self))).
Proof.
  intros Hplant.
  pose proof (get_results_run self pf Hplant) as Hrun. cbv zeta in Hrun.
  rewrite Hrun.
  destruct (effective_irradiance self) as [irr|];
    [|repeat split; reflexivity].
  destruct (PVSystem.module_parameters (system self) !! "efficiency")
    as [e|]; [|repeat split; reflexivity].
  destruct (Qeq_bool e 0); repeat split; reflexivity.
Qed.

(** A numpy division by zero (or by NaN) is never finite ... *)
Lemma np_div_by_zero (a d : np_float) :
  (d = NaN ∨ ∃ z, d = Fin z ∧ z == 0) →
  np_isfinite (np_div a d) = false.
Proof.
  intros [->|(z & -> & Hz)].
  - destruct a; reflexivity.
  - destruct a as [q| | |]; try reflexivity.
    + rewrite np_div_Fin_zero by exact Hz. apply np_signed_inf_not_finite.
    + cbn [np_div]. destruct (z ?= 0); reflexivity.
    + cbn [np_div]. destruct (z ?= 0); reflexivity.
Qed.

(** ... a product with zero is zero or NaN ... *)
Lemma np_mul_by_zero (x : np_float) (z : Q) :
  z == 0 →
  np_mul x (Fin z) = NaN ∨ ∃ z', np_mul x (Fin z) = Fin z' ∧ z' == 0.
Proof.
  intros Hz. pose proof (proj1 (Qeq_alt z 0) Hz) as Hc.
  destruct x as [q| | |]; cbn [np_mul].
  - right. exists (q * z). split; [reflexivity|]. rewrite Hz. ring.
  - left. rewrite Hc. reflexivity.
  - left. rewrite Hc. reflexivity.
  - left. reflexivity.
Qed.

(** ... and subtracting a non-finite value leaves a non-finite value. *)
Lemma np_sub_not_finite (q : Q) (y : np_float) :
  np_isfinite y = false → np_isfinite (np_sub (Fin q) y) = false.
Proof. destruct y; [discriminate | reflexivity..]. Qed.

(** C3, as stated, fails for a zero DC nameplate: with a nonzero module
    efficiency [get_results] returns normally and leaves an infinite
    [energy_yield] and an infinite [pr] on the instance. *)
Lemma zero_dc_capacity_does_not_raise :
  let self := demo_after_plant zero_capacity_parameters in
  dc_capacity self == 0 ∧
  fst (get_results self) = Ok tt ∧
  energy_yield (snd (get_results self)) = Some PInf ∧
  pr (snd (get_results self)) = Some NInf.
Proof. cbv zeta. repeat split; reflexivity. Qed.

(** C3 (amended).  On an instance that has its plant series and
    frontside irradiance: if the module efficiency is 0, [get_results]
    raises [ZeroDivisionError]; if the module efficiency is nonzero and
    [dc_capacity] is 0, it raises nothing and the [energy_yield] and
    [pr] it assigns are not finite (an infinity or NaN). *)
Theorem get_results_zero_divisors
    (self : ModelChain) (pf : PlantFrame.t) (irradiance : Series)
    (efficiency : Q) :
  plant self = Some pf →
  effective_irradiance self = Some irradiance →
  PVSystem.module_parameters (system self) !! "efficiency"
    = Some efficiency →
  (efficiency == 0 → fst (get_results self) = Raise ZeroDivisionError) ∧
  (¬ efficiency == 0 → dc_capacity self == 0 →
   fst (get_results self) = Ok tt ∧
   ∃ y r : np_float,
     energy_yield (snd (get_results self)) = Some y ∧
     np_isfinite y = false ∧
     pr (snd (get_results self)) = Some r ∧
     np_isfinite r = false).
Proof.
  intros Hplant Hirr Heff.
  pose proof (get_results_run self pf Hplant) as Hrun. cbv zeta in Hrun.
  rewrite Hirr, Heff in Hrun. split.
  - intros He. apply Qeq_bool_iff in He. rewrite He in Hrun.
    rewrite Hrun. reflexivity.
  - intros He Hdc.
    destruct (Qeq_bool efficiency 0) eqn:E.
    { apply Qeq_bool_iff in E. contradiction. }
    rewrite Hrun. cbn [fst snd]. split; [reflexivity|].
    eexists _, _. split; [reflexivity|]. split.
    { apply np_div_by_zero. right. eexists. split; [reflexivity|exact Hdc]. }
    split; [reflexivity|].
    apply np_sub_not_finite, np_div_by_zero.
    assert (Harea : dc_capacity self / efficiency / 1000 == 0).
    { rewrite Hdc. unfold Qdiv. ring. }
    destruct (np_mul_by_zero
                (np_div (np_mul (series_sum irradiance)
                           (Fin (time_step self))) (Fin 60))
                _ Harea) as [->|(z' & -> & Hz')].
    + left. reflexivity.
    + right. exists z'. split; [reflexivity|exact Hz'].
Qed.

Lemma get_results_zero_divisors_witness :
  (let self := demo_after_plant (demo_parameters demo_zero_efficiency) in
   PVSystem.module_parameters (system self) !! "efficiency" = Some 0 ∧
   fst (get_results self) = Raise ZeroDivisionError) ∧
  (let self := demo_after_plant zero_capacity_parameters in
   PVSystem.module_parameters (system self) !! "efficiency" = Some 0.2 ∧
   dc_capacity self == 0 ∧
   fst (get_results self) = Ok tt ∧
   ∃ y r : np_float,
     energy_yield (snd (get_results self)) = Some y ∧
     np_isfinite y = false ∧
     pr (snd (get_results self)) = Some r ∧
     np_isfinite r = false).
Proof.
  split; intros self.
  - assert (Heff : PVSystem.module_parameters (system self) !! "efficiency"
                   = Some 0) by (vm_compute; reflexivity).
    split; [exact Heff|].
    refine (proj1 (get_results_zero_divisors self demo_plant
                     [Fin 500; Fin 500] 0 _ _ Heff) _); reflexivity.
  - assert (Heff : PVSystem.module_parameters (system self) !! "efficiency"
                   = Some 0.2) by (vm_compute; reflexivity).
    assert (Hdc : dc_capacity self == 0) by reflexivity.
    split; [exact Heff|]. split; [exact Hdc|].
    refine (proj2 (get_results_zero_divisors self demo_plant
                     [Fin 500; Fin 500] 0.2 _ _ Heff) _ Hdc);
      [reflexivity | reflexivity | discriminate].
Defined.

(** C4.  Whatever the plant series (of any length) and the parameters,
    [get_results] assigns [ncf = aep / poi_capacity / 8760] with the
    fixed constant 8760: on finite series of sum [Σ output] and [Σ
    losses], with a nonzero [poi_capacity], that is [((Σ output - Σ
    losses) * time_step / 60) / poi_capacity / 8760], in which the
    number of samples does not occur; two runs with the same [aep] and
    [poi_capacity] get the same [ncf], however long their series. *)
Theorem ncf_fixed_year (self : ModelChain) (pf : PlantFrame.t) :
  plant self = Some pf →
  let self' := snd (get_results self) in
  aep self' = Some (annual_energy self pf) ∧
  ncf self' = Some (np_div (np_div (annual_energy self pf)
                              (Fin (poi_capacity self))) (Fin 8760)) ∧
  (∀ os ls : list Q,
     pf = {| PlantFrame.output := Fin <$> os;
             PlantFrame.losses := Fin <$> ls |} →
     ¬ poi_capacity self == 0 →
     ncf self' =
       Some (Fin ((Qsum os - Qsum ls) * time_step self / 60
                  / poi_capacity self / 8760))) ∧
  (∀ (other : ModelChain) (pf' : PlantFrame.t),
     plant other = Some pf' →
     poi_capacity other = poi_capacity self →
     annual_energy other pf' = annual_energy self pf →
     ncf (snd (get_results other)) = ncf self').
Proof.
  intros Hplant self'. subst self'.
  destruct (get_results_assigned self pf Hplant) as (Haep & Hncf & _).
  split; [exact Haep|]. split; [exact Hncf|]. split.
  - intros os ls -> Hpoi. rewrite Hncf, annual_energy_Fin.
    rewrite np_div_Fin by exact Hpoi.
    rewrite np_div_Fin by discriminate. reflexivity.
  - intros other pf' Hplant' Hpoi Haep'.
    destruct (get_results_assigned other pf' Hplant') as (_ & Hncf' & _).
    rewrite Hncf, Hncf', Hpoi, Haep'. reflexivity.
Qed.

Lemma ncf_fixed_year_witness :
  let self := demo_after_plant (demo_parameters demo_tracker) in
  plant self = Some demo_plant ∧
  aep (snd (get_results self)) = Some (annual_energy self demo_plant) ∧
  ncf (snd (get_results self)) =
    Some (np_div (np_div (annual_energy self demo_plant)
                    (Fin (poi_capacity self))) (Fin 8760)) ∧
  ncf (snd (get_results self)) =
    Some (Fin ((Qsum [100; 100] - Qsum [0; 0]) * time_step self / 60
               / poi_capacity self / 8760)).
Proof.
  intros self.
  assert (Hplant : plant self = Some demo_plant) by reflexivity.
  split; [exact Hplant|].
  destruct (ncf_fixed_year self demo_plant Hplant)
    as (Haep & Hncf & Hfinite & _).
  split; [exact Haep|]. split; [exact Hncf|].
  apply (Hfinite [100; 100] [0; 0]); [reflexivity | discriminate].
Defined.

(** C9.  With a nonzero module efficiency, [get_results] assigns [pr =
    1 - aep / (Σ effective_irradiance * time_step / 60 * (dc_capacity /
    module_efficiency / 1000))], where the sum runs over the frontside
    series [self.effective_irradiance]: two instances that agree on the
    parameters, the plant series and that frontside series get the same
    [pr], whatever their bifacial-combined and soiled series are. *)
Theorem performance_ratio_frontside
    (self : ModelChain) (pf : PlantFrame.t) (irradiance : Series)
    (efficiency : Q) :
  plant self = Some pf →
  effective_irradiance self = Some irradiance →
  PVSystem.module_parameters (system self) !! "efficiency"
    = Some efficiency →
  ¬ efficiency == 0 →
  let self' := snd (get_results self) in
  let reference (g : np_float) : np_float :=
    np_mul (np_div (np_mul g (Fin (time_step self))) (Fin 60))
      (Fin (dc_capacity self / efficiency / 1000)) in
  fst (get_results self) = Ok tt ∧
  pr self' =
    Some (np_sub (Fin 1)
            (np_div (annual_energy self pf)
               (reference (series_sum irradiance)))) ∧
  (∀ (gs : list Q) (a : Q),
     irradiance = Fin <$> gs → annual_energy self pf = Fin a →
     ¬ Qsum gs * time_step self / 60
         * (dc_capacity self / efficiency / 1000) == 0 →
     pr self' =
       Some (Fin (1 - a / (Qsum gs * time_step self / 60
                           * (dc_capacity self / efficiency / 1000))))) ∧
  (∀ other : ModelChain,
     parameters other = parameters self →
     plant other = plant self →
     effective_irradiance other = effective_irradiance self →
     pr (snd (get_results other)) = pr self').
Proof.
  intros Hplant Hirr Heff He self' reference. subst self' reference.
  assert (Hb : Qeq_bool efficiency 0 = false).
  { destruct (Qeq_bool efficiency 0) eqn:E; [|reflexivity].
    apply Qeq_bool_iff in E. contradiction. }
  pose proof (get_results_run self pf Hplant) as Hrun. cbv zeta in Hrun.
  rewrite Hirr, Heff, Hb in Hrun.
  split; [rewrite Hrun; reflexivity|].
  split; [rewrite Hrun; reflexivity|]. split.
  - intros gs a -> Ha Hden. rewrite Hrun. cbn [snd set_pr pr].
    rewrite Ha, series_sum_Fin, np_mul_Fin.
    rewrite np_div_Fin by discriminate.
    rewrite np_mul_Fin, np_div_Fin by exact Hden.
    reflexivity.
  - intros other Hpar Hpl Hir.
    assert (Hplant' : plant other = Some pf) by (rewrite Hpl; exact Hplant).
    pose proof (get_results_run other pf Hplant') as Hrun'.
    cbv zeta in Hrun'. rewrite Hir, Hirr, Hpar, Heff, Hb in Hrun'.
    rewrite Hrun, Hrun'. reflexivity.
Qed.

Lemma performance_ratio_frontside_witness :
  let self := demo_after_plant (demo_parameters demo_tracker) in
  (plant self = Some demo_plant ∧
   effective_irradiance self = Some [Fin 500; Fin 500] ∧
   PVSystem.module_parameters (system self) !! "efficiency" = Some 0.2 ∧
   ¬ 0.2 == 0) ∧
  fst (get_results self) = Ok tt ∧
  pr (snd (get_results self)) = Some (Fin (34560000000 # 36000000000)).
Proof.
  intros self.
  assert (Hplant : plant self = Some demo_plant) by reflexivity.
  assert (Hirr : effective_irradiance self = Some [Fin 500; Fin 500])
    by reflexivity.
  assert (Heff : PVSystem.module_parameters (system self) !! "efficiency"
                 = Some 0.2) by (vm_compute; reflexivity).
  assert (He : ¬ 0.2 == 0) by discriminate.
  split; [exact (conj Hplant (conj Hirr (conj Heff He)))|].
  destruct (performance_ratio_frontside self demo_plant _ 0.2
              Hplant Hirr Heff He) as (Hok & Hpr & _).
  split; [exact Hok|]. rewrite Hpr. reflexivity.
Defined.

(* ===================================================================== *)
(** ** The irradiance-combining step                                      *)
(* ===================================================================== *)

(** ['Etc/GMT+' + str(k)] names a zone for [k] from 0 to 12, and for no
    other integer. *)
Lemma timezone_known (k : Z) :
  (0 ≤ k ≤ 12)%Z → timezone ("Etc/GMT+" +:+ pretty k) = Ok (etc_gmt_plus k).
Proof.
  intros Hk.
  assert (Hin : In k (seqZ 0 13))
    by (apply list_elem_of_In, elem_of_seqZ; lia).
  vm_compute in Hin.
  repeat destruct Hin as [<-|Hin]; try (vm_compute; reflexivity).
  contradiction.
Qed.

Lemma timezone_unknown (k : Z) :
  ¬ (0 ≤ k ≤ 12)%Z →
  timezone ("Etc/GMT+" +:+ pretty k)
    = Raise (UnknownTimeZoneError ("Etc/GMT+" +:+ pretty k)).
Proof.
  intros Hk. unfold timezone.
  destruct (find _ tz_database) as [zone|] eqn:E; [|reflexivity].
  apply find_some in E as [Hin Hname].
  apply list_elem_of_In in Hin. unfold tz_database in Hin.
  apply list_elem_of_fmap in Hin as (j & -> & Hj).
  apply elem_of_seqZ in Hj.
  apply String.eqb_eq in Hname. cbn [tz_name etc_gmt_plus] in Hname.
  apply (inj _) in Hname. apply (inj pretty) in Hname. subst j. lia.
Qed.

(** The index that lines 285-288 assign, for an offset whose zone name
    the database holds. *)
Lemma aware_index_known (utc_offset : Z) (idx : DatetimeIndex) :
  (-12 ≤ utc_offset ≤ 0)%Z →
  match tz idx with
  | None => tz_localize ("Etc/GMT+" +:+ pretty (- utc_offset)%Z) idx
  | Some _ => tz_convert ("Etc/GMT+" +:+ pretty (- utc_offset)%Z) idx
  end =
  Ok {| stamps := match tz idx with
                  | None => (λ wall, (wall - utc_offset * 3600)%Z)
                              <$> stamps idx
                  | Some _ => stamps idx
                  end;
        tz := Some (etc_gmt_plus (- utc_offset)) |}.
Proof.
  intros Hzone. unfold tz_localize, tz_convert.
  rewrite (timezone_known (- utc_offset)) by lia.
  destruct (tz idx); [reflexivity|].
  do 2 f_equal. apply list_fmap_ext. intros _ wall _.
  cbn [tz_utcoffset etc_gmt_plus]. lia.
Qed.

Lemma aware_index_unknown (utc_offset : Z) (idx : DatetimeIndex) :
  ¬ (-12 ≤ utc_offset ≤ 0)%Z →
  match tz idx with
  | None => tz_localize ("Etc/GMT+" +:+ pretty (- utc_offset)%Z) idx
  | Some _ => tz_convert ("Etc/GMT+" +:+ pretty (- utc_offset)%Z) idx
  end =
  Raise (UnknownTimeZoneError ("Etc/GMT+" +:+ pretty (- utc_offset)%Z)).
Proof.
  intros Hzone. unfold tz_localize, tz_convert.
  rewrite (timezone_unknown (- utc_offset)) by lia.
  destruct (tz idx); reflexivity.
Qed.

(** Runs the step past its first assignment. *)
Ltac run_irradiance Hzone :=
  unfold get_effective_irradiance, bind, the_self, the_weather, modify_self,
    modify_weather, modify, lift, ret, getitem, getattr;
  cbn [fst snd];
  rewrite (aware_index_known _ _ Hzone);
  cbn -[etc_gmt_plus fillna0 pvfactor_report].

Section Irradiance.
Context {collaborators : Collaborators}.

(** With a zone name the database does not hold, the step raises at
    its first assignment and leaves both objects as they were. *)
Lemma get_effective_irradiance_unknown_zone
    (utc_offset : Z) (self : ModelChain) (w : Weather.t) :
  ¬ (-12 ≤ utc_offset ≤ 0)%Z →
  get_effective_irradiance utc_offset (self, w) =
    (Raise (UnknownTimeZoneError ("Etc/GMT+" +:+ pretty (- utc_offset)%Z)),
     (self, w)).
Proof.
  intros Hzone.
  unfold get_effective_irradiance, bind, the_weather, lift.
  cbn [fst snd].
  rewrite (aware_index_unknown utc_offset (Weather.index w) Hzone).
  reflexivity.
Qed.

(** The caller's frame as [get_effective_irradiance] leaves it. *)
Lemma get_effective_irradiance_weather
    (utc_offset : Z) (self : ModelChain) (w : Weather.t) :
  (-12 ≤ utc_offset ≤ 0)%Z →
  let w' := snd (snd (get_effective_irradiance utc_offset (self, w))) in
  Weather.columns w' = Weather.columns w ∧
  Weather.index w' =
    {| stamps := match tz (Weather.index w) with
                 | None => (λ wall, (wall - utc_offset * 3600)%Z)
                             <$> stamps (Weather.index w)
                 | Some _ => stamps (Weather.index w)
                 end;
       tz := Some (etc_gmt_plus (- utc_offset)) |} ∧
  Weather.albedo w' =
    match PVSystem.albedo (system self) with
    | Some a => Some a
    | None => Weather.albedo w
    end.
Proof.
  intros Hzone. run_irradiance Hzone.
  destruct (PVSystem.albedo (system self));
    cbn -[etc_gmt_plus fillna0 pvfactor_report];
    destruct (PVSystem.backtrack (system self));
    cbn -[etc_gmt_plus fillna0 pvfactor_report];
    destruct (PVSystem.module_parameters (system self) !! "bifaciality");
    cbn -[etc_gmt_plus fillna0 pvfactor_report]; auto.
Qed.

(** A run on a system whose module parameters give a bifaciality. *)
Lemma get_effective_irradiance_ok
    (utc_offset : Z) (self : ModelChain) (w : Weather.t) (bifaciality : Q) :
  (-12 ≤ utc_offset ≤ 0)%Z →
  PVSystem.module_parameters (system self) !! "bifaciality"
    = Some bifaciality →
  ∃ (self' : ModelChain) (w' : Weather.t),
    get_effective_irradiance utc_offset (self, w) = (Ok tt, (self', w')) ∧
    let frontside :=
      fillna0 (effective_irradiance_model (system self) (location self) w') in
    let front := fillna0 (Report.total_inc_front (pvfactor_report self w')) in
    let back := fillna0 (Report.total_inc_back (pvfactor_report self w')) in
    let combined :=
      series_add
        (if PVSystem.backtrack (system self) then frontside else front)
        (series_mul_scalar back
           (bifaciality * (1 - bifacial_losses self))) in
    effective_irradiance self' = Some frontside ∧
    front_irradiance self' = Some front ∧
    back_irradiance self' = Some back ∧
    effective_irradiance_bifacial self' = Some combined ∧
    soiling self' = Some (Weather.soiling w) ∧
    effective_irradiance_soiled self' =
      Some (series_mul combined (scalar_sub_series 1 (Weather.soiling w))).
Proof.
  intros Hzone Hbif. run_irradiance Hzone.
  destruct (PVSystem.albedo (system self));
    cbn -[etc_gmt_plus fillna0 pvfactor_report];
    destruct (PVSystem.backtrack (system self));
    cbn -[etc_gmt_plus fillna0 pvfactor_report];
    rewrite Hbif; cbn -[etc_gmt_plus fillna0 pvfactor_report];
    eexists _, _; (split; [reflexivity|]);
    cbn -[etc_gmt_plus fillna0 pvfactor_report]; repeat split.
Qed.

(** One sample of [front + back * c]. *)
Lemma combined_sample (front back : Series) (c : Q) (t : nat) (f b : Q) :
  front !! t = Some (Fin f) → back !! t = Some (Fin b) →
  series_add front (series_mul_scalar back c) !! t = Some (Fin (f + b * c)).
Proof.
  intros Hf Hb. unfold series_add, series_mul_scalar.
  rewrite lookup_zip_with, list_lookup_fmap, Hf, Hb. reflexivity.
Qed.

(** One sample of [combined * (1 - soiling)]. *)
Lemma soiled_sample (combined soiling : Series) (t : nat) (c s : Q) :
  combined !! t = Some (Fin c) → soiling !! t = Some (Fin s) →
  series_mul combined (scalar_sub_series 1 soiling) !! t
    = Some (Fin (c * (1 - s))).
Proof.
  intros Hc Hs. unfold series_mul, scalar_sub_series.
  rewrite lookup_zip_with, list_lookup_fmap, Hc, Hs. reflexivity.
Qed.

End Irradiance.

(* ===================================================================== *)
(** ** Properties of the irradiance-combining step                        *)
(* ===================================================================== *)

(** C2, as stated, fails: the call rewrites the index of the caller's
    frame.  A naive index of three hourly stamps comes back localized to
    [Etc/GMT+7], so the frame after the call is not the frame before. *)
Lemma weather_index_is_rewritten :
  let self := ModelChain_init (demo_parameters demo_tracker) in
  let after :=
    snd (snd (get_effective_irradiance (collaborators := demo_collaborators) (-7)
                (self, demo_weather))) in
  Weather.index demo_weather = {| stamps := [0; 3600; 7200]%Z; tz := None |} ∧
  Weather.index after =
    {| stamps := [25200; 28800; 32400]%Z; tz := Some (etc_gmt_plus 7) |} ∧
  after ≠ demo_weather.
Proof.
  cbv zeta. split; [reflexivity|]. split; [vm_compute; reflexivity|].
  intros Heq. apply (f_equal (λ w, tz (Weather.index w))) in Heq.
  vm_compute in Heq. discriminate.
Qed.

(** C2 (amended).  [get_effective_irradiance] leaves every column of
    the caller's weather frame as it was ([ghi], [dni], [dhi],
    [temp_air], [wind_speed], [surface_albedo], [soiling]), whether it
    returns or raises.  For [utc_offset] from -12 to 0 it does rewrite
    the frame in two places, again whether it then returns or raises:
    the index becomes timezone-aware in the zone
    [Etc/GMT+(-utc_offset)] (a naive index is localized, its stamps
    read as wall-clock times of that zone; an aware one is converted
    and keeps its instants; there are as many stamps as before), and
    for a system that carries an [albedo] the frame's [albedo]
    attribute is set to it.  For any other [utc_offset] the name built
    at line 282 (['Etc/GMT+-5'], ['Etc/GMT+13']) is no zone: the call
    raises at line 286 or 288, before it has assigned anything, and
    leaves the frame and the instance exactly as they were. *)
Theorem weather_columns_preserved {collaborators : Collaborators}
    (utc_offset : Z) (self : ModelChain) (w : Weather.t) :
  let run := get_effective_irradiance utc_offset (self, w) in
  let w' := snd (snd run) in
  Weather.columns w' = Weather.columns w ∧
  Weather.surface_albedo w' = Weather.surface_albedo w ∧
  ((-12 ≤ utc_offset ≤ 0)%Z →
   Weather.index w' =
     {| stamps := match tz (Weather.index w) with
                  | None => (λ wall, (wall - utc_offset * 3600)%Z)
                              <$> stamps (Weather.index w)
                  | Some _ => stamps (Weather.index w)
                  end;
        tz := Some (etc_gmt_plus (- utc_offset)) |} ∧
   length (stamps (Weather.index w')) = length (stamps (Weather.index w)) ∧
   Weather.albedo w' =
     match PVSystem.albedo (system self) with
     | Some a => Some a
     | None => Weather.albedo w
     end) ∧
  (¬ (-12 ≤ utc_offset ≤ 0)%Z →
   run = (Raise (UnknownTimeZoneError
                   ("Etc/GMT+" +:+ pretty (- utc_offset)%Z)),
          (self, w))).
Proof.
  intros run w'. subst w' run.
  destruct (decide (-12 ≤ utc_offset ≤ 0)%Z) as [Hzone|Hzone].
  - destruct (get_effective_irradiance_weather utc_offset self w Hzone)
      as (Hcols & Hidx & Halb).
    split; [exact Hcols|]. split.
    { unfold Weather.columns in Hcols. congruence. }
    split; [|intros Hno; contradiction].
    intros _. split; [exact Hidx|]. split; [|exact Halb].
    rewrite Hidx. cbn [stamps].
    destruct (tz (Weather.index w)); [reflexivity | apply length_fmap].
  - rewrite (get_effective_irradiance_unknown_zone utc_offset self w Hzone).
    cbn [fst snd]. split; [reflexivity|]. split; [reflexivity|].
    split; [intros Hyes; contradiction | intros _; reflexivity].
Qed.

Lemma weather_columns_preserved_witness :
  let self := ModelChain_init (demo_parameters demo_rooftop) in
  let west :=
    get_effective_irradiance (collaborators := demo_collaborators) (-7)
      (self, demo_weather) in
  let east :=
    get_effective_irradiance (collaborators := demo_collaborators) 5
      (self, demo_weather) in
  ((-12 ≤ -7 ≤ 0)%Z ∧
   Weather.index (snd (snd west)) =
     {| stamps := [25200; 28800; 32400]%Z; tz := Some (etc_gmt_plus 7) |} ∧
   Weather.albedo (snd (snd west)) = Some 0.3) ∧
  (¬ (-12 ≤ 5 ≤ 0)%Z ∧
   east = (Raise (UnknownTimeZoneError "Etc/GMT+-5"), (self, demo_weather))).
Proof.
  intros self west east. split.
  - assert (Hzone : (-12 ≤ -7 ≤ 0)%Z) by lia.
    split; [exact Hzone|].
    destruct (weather_columns_preserved
                (collaborators := demo_collaborators) (-7) self demo_weather)
      as (_ & _ & Hknown & _).
    destruct (Hknown Hzone) as (Hidx & _ & Halb).
    split; [exact Hidx | exact Halb].
  - assert (Hzone : ¬ (-12 ≤ 5 ≤ 0)%Z) by lia.
    split; [exact Hzone|].
    destruct (weather_columns_preserved
                (collaborators := demo_collaborators) 5 self demo_weather)
      as (_ & _ & _ & Hunknown).
    exact (Hunknown Hzone).
Defined.

(** C8.  On a system whose module parameters give a bifaciality, with
    a [utc_offset] from -12 to 0 (one whose zone name exists: for any
    other the step raises before it computes anything), the step
    returns and, at every timestep with finite samples, the combined
    effective irradiance is [frontside + back * bifaciality * (1 -
    bifacial_losses)], where for a backtracking system [frontside] is
    the series of pvlib's effective-irradiance model (not the front
    value of the view-factor report), and for any other system it is
    the front value of the view-factor report; [back] is the back value
    of that report, and missing values are filled with 0 first. *)
Theorem combined_irradiance {collaborators : Collaborators}
    (utc_offset : Z) (self : ModelChain) (w : Weather.t) (bifaciality : Q) :
  (-12 ≤ utc_offset ≤ 0)%Z →
  PVSystem.module_parameters (system self) !! "bifaciality"
    = Some bifaciality →
  ∃ (self' : ModelChain) (w' : Weather.t) (combined : Series),
    get_effective_irradiance utc_offset (self, w) = (Ok tt, (self', w')) ∧
    effective_irradiance_bifacial self' = Some combined ∧
    let frontside :=
      fillna0 (effective_irradiance_model (system self) (location self) w') in
    let front := fillna0 (Report.total_inc_front (pvfactor_report self w')) in
    let back := fillna0 (Report.total_inc_back (pvfactor_report self w')) in
    effective_irradiance self' = Some frontside ∧
    front_irradiance self' = Some front ∧
    back_irradiance self' = Some back ∧
    (PVSystem.backtrack (system self) = true →
     ∀ (t : nat) (f b : Q),
       frontside !! t = Some (Fin f) → back !! t = Some (Fin b) →
       sample combined t (f + b * bifaciality * (1 - bifacial_losses self))) ∧
    (PVSystem.backtrack (system self) = false →
     ∀ (t : nat) (f b : Q),
       front !! t = Some (Fin f) → back !! t = Some (Fin b) →
       sample combined t (f + b * bifaciality * (1 - bifacial_losses self))).
Proof.
  intros Hzone Hbif.
  destruct (get_effective_irradiance_ok utc_offset self w bifaciality
              Hzone Hbif)
    as (self' & w' & Hrun & HS).
  cbv zeta in HS. destruct HS as (Hfs & Hfr & Hbk & Hcomb & _ & _).
  eexists self', w', _. split; [exact Hrun|]. split; [exact Hcomb|].
  cbv zeta. split; [exact Hfs|]. split; [exact Hfr|]. split; [exact Hbk|].
  split; intros Hbt t f b Hf Hb; rewrite Hbt;
    apply (sample_Fin _ _ _ _ (combined_sample _ _ _ t f b Hf Hb)); ring.
Qed.

Lemma combined_irradiance_witness :
  (-12 ≤ -7 ≤ 0)%Z ∧
  (let self := ModelChain_init (demo_parameters demo_tracker) in
   PVSystem.module_parameters (system self) !! "bifaciality" = Some 0.7 ∧
   PVSystem.backtrack (system self) = true ∧
   ∃ (self' : ModelChain) (combined : Series),
     fst (snd (get_effective_irradiance
                 (collaborators := demo_collaborators) (-7)
                 (self, demo_weather))) = self' ∧
     effective_irradiance_bifacial self' = Some combined ∧
     sample combined 1 (500 + 20.0 * 0.7 * (1 - 0.1))) ∧
  (let self := ModelChain_init (demo_parameters demo_rooftop) in
   PVSystem.module_parameters (system self) !! "bifaciality" = Some 0 ∧
   PVSystem.backtrack (system self) = false ∧
   ∃ (self' : ModelChain) (combined : Series),
     fst (snd (get_effective_irradiance
                 (collaborators := demo_collaborators) (-7)
                 (self, demo_weather))) = self' ∧
     effective_irradiance_bifacial self' = Some combined ∧
     sample combined 1 (500 + 20.0 * 0 * (1 - 0.1))).
Proof.
  assert (Hzone : (-12 ≤ -7 ≤ 0)%Z) by lia.
  split; [exact Hzone|].
  split; intros self.
  - assert (Hbif : PVSystem.module_parameters (system self) !! "bifaciality"
                   = Some 0.7) by (vm_compute; reflexivity).
    split; [exact Hbif|]. split; [reflexivity|].
    destruct (combined_irradiance (collaborators := demo_collaborators)
                (-7) self demo_weather 0.7 Hzone Hbif)
      as (self' & w' & combined & Hrun & Hcomb & HS).
    cbv zeta in HS. destruct HS as (_ & _ & _ & Hbt & _).
    exists self', combined. rewrite Hrun. split; [reflexivity|].
    split; [exact Hcomb|].
    assert (Hw : w' = snd (snd (get_effective_irradiance
                                  (collaborators := demo_collaborators)
                                  (-7) (self, demo_weather))))
      by (rewrite Hrun; reflexivity).
    apply (Hbt eq_refl 1%nat 500 20.0); rewrite Hw; vm_compute; reflexivity.
  - assert (Hbif : PVSystem.module_parameters (system self) !! "bifaciality"
                   = Some 0) by (vm_compute; reflexivity).
    split; [exact Hbif|]. split; [reflexivity|].
    destruct (combined_irradiance (collaborators := demo_collaborators)
                (-7) self demo_weather 0 Hzone Hbif)
      as (self' & w' & combined & Hrun & Hcomb & HS).
    cbv zeta in HS. destruct HS as (_ & _ & _ & _ & Hfixed).
    exists self', combined. rewrite Hrun. split; [reflexivity|].
    split; [exact Hcomb|].
    assert (Hw : w' = snd (snd (get_effective_irradiance
                                  (collaborators := demo_collaborators)
                                  (-7) (self, demo_weather))))
      by (rewrite Hrun; reflexivity).
    apply (Hfixed eq_refl 1%nat 500 20.0); rewrite Hw; vm_compute;
      reflexivity.
Defined.

(** C5.  If the bifaciality factor is 0, then for a [utc_offset] from
    -12 to 0 (one whose zone name exists: for any other the step raises
    before it computes anything) the step returns and, at every
    timestep with finite samples, the combined series equals the
    frontside series it starts from (pvlib's for a backtracking system,
    the view-factor front value otherwise) whatever the back-side
    sample is, and the soiled series is that frontside value times [1 -
    soiling]. *)
Theorem zero_bifaciality_is_frontside {collaborators : Collaborators}
    (utc_offset : Z) (self : ModelChain) (w : Weather.t) (bifaciality : Q) :
  (-12 ≤ utc_offset ≤ 0)%Z →
  PVSystem.module_parameters (system self) !! "bifaciality"
    = Some bifaciality →
  bifaciality == 0 →
  ∃ (self' : ModelChain) (w' : Weather.t) (combined soiled : Series),
    get_effective_irradiance utc_offset (self, w) = (Ok tt, (self', w')) ∧
    effective_irradiance_bifacial self' = Some combined ∧
    effective_irradiance_soiled self' = Some soiled ∧
    let frontside :=
      if PVSystem.backtrack (system self)
      then fillna0 (effective_irradiance_model (system self)
                      (location self) w')
      else fillna0 (Report.total_inc_front (pvfactor_report self w')) in
    let back := fillna0 (Report.total_inc_back (pvfactor_report self w')) in
    ∀ (t : nat) (f b : Q),
      frontside !! t = Some (Fin f) → back !! t = Some (Fin b) →
      sample combined t f ∧
      ∀ s : Q, Weather.soiling w !! t = Some (Fin s) →
               sample soiled t (f * (1 - s)).
Proof.
  intros Hzone Hbif Hzero.
  destruct (get_effective_irradiance_ok utc_offset self w bifaciality
              Hzone Hbif)
    as (self' & w' & Hrun & HS).
  cbv zeta in HS. destruct HS as (_ & _ & _ & Hcomb & _ & Hsoiled).
  eexists self', w', _, _. split; [exact Hrun|].
  split; [exact Hcomb|]. split; [exact Hsoiled|].
  cbv zeta. intros t f b Hf Hb.
  pose proof (combined_sample _ _
                (bifaciality * (1 - bifacial_losses self)) t f b Hf Hb)
    as Hc.
  split.
  - apply (sample_Fin _ _ _ _ Hc). rewrite Hzero. ring.
  - intros s Hs. apply (sample_Fin _ _ _ _ (soiled_sample _ _ t _ s Hc Hs)).
    rewrite Hzero. ring.
Qed.

Lemma zero_bifaciality_is_frontside_witness :
  let self := ModelChain_init (demo_parameters demo_rooftop) in
  ((-12 ≤ -7 ≤ 0)%Z ∧
   PVSystem.module_parameters (system self) !! "bifaciality" = Some 0 ∧
   0 == 0) ∧
  ∃ (self' : ModelChain) (combined soiled : Series),
    fst (snd (get_effective_irradiance (collaborators := demo_collaborators) (-7)
                (self, demo_weather))) = self' ∧
    effective_irradiance_bifacial self' = Some combined ∧
    effective_irradiance_soiled self' = Some soiled ∧
    sample combined 1 500 ∧ sample soiled 1 (500 * (1 - 0.02)).
Proof.
  intros self.
  assert (Hbif : PVSystem.module_parameters (system self) !! "bifaciality"
                 = Some 0) by (vm_compute; reflexivity).
  assert (Hzero : 0 == 0) by reflexivity.
  assert (Hzone : (-12 ≤ -7 ≤ 0)%Z) by lia.
  split; [exact (conj Hzone (conj Hbif Hzero))|].
  destruct (zero_bifaciality_is_frontside (collaborators := demo_collaborators) (-7)
              self demo_weather 0 Hzone Hbif Hzero)
    as (self' & w' & combined & soiled & Hrun & Hcomb & Hsoiled & HS).
  exists self', combined, soiled. rewrite Hrun. split; [reflexivity|].
  split; [exact Hcomb|]. split; [exact Hsoiled|].
  assert (Hw : w' = snd (snd (get_effective_irradiance
                                (collaborators := demo_collaborators) (-7)
                                (self, demo_weather))))
    by (rewrite Hrun; reflexivity).
  destruct (HS 1%nat 500 20.0) as [Hc Hs].
  { rewrite Hw. vm_compute. reflexivity. }
  { rewrite Hw. vm_compute. reflexivity. }
  split; [exact Hc|]. apply Hs. reflexivity.
Defined.

(** C10.  On a system that [get_system] built with [racking ==
    'rooftop'], the module parameter [bifaciality] is 0 whatever the
    supplied module parameters said and the system does not backtrack;
    the irradiance-combining step then, for a [utc_offset] from -12 to
    0 (one whose zone name exists: for any other the step raises
    before it computes anything), returns and, at every timestep with
    finite samples, the combined series equals the view-factor front
    value: the back-side sample contributes nothing. *)
Theorem rooftop_has_no_backside_gain {collaborators : Collaborators}
    (utc_offset : Z) (self : ModelChain) (w : Weather.t)
    (axis_height collector_width axis_azimuth gcr : Q)
    (module_parameters temperature_model_parameters : gmap string Q)
    (axis_tilt max_angle : Q) (backtrack : bool)
    (surface_tilt surface_azimuth albedo : Q) :
  system self =
    get_system "rooftop" axis_height collector_width axis_azimuth gcr
      module_parameters temperature_model_parameters axis_tilt max_angle
      backtrack surface_tilt surface_azimuth albedo →
  PVSystem.module_parameters (system self) !! "bifaciality" = Some 0 ∧
  PVSystem.backtrack (system self) = false ∧
  ((-12 ≤ utc_offset ≤ 0)%Z →
   ∃ (self' : ModelChain) (w' : Weather.t) (combined : Series),
     get_effective_irradiance utc_offset (self, w) = (Ok tt, (self', w')) ∧
     effective_irradiance_bifacial self' = Some combined ∧
     let front := fillna0 (Report.total_inc_front (pvfactor_report self w')) in
     let back := fillna0 (Report.total_inc_back (pvfactor_report self w')) in
     front_irradiance self' = Some front ∧
     back_irradiance self' = Some back ∧
     ∀ (t : nat) (f b : Q),
       front !! t = Some (Fin f) → back !! t = Some (Fin b) →
       sample combined t f).
Proof.
  intros Hsys.
  assert (Hbif : PVSystem.module_parameters (system self) !! "bifaciality"
                 = Some 0).
  { rewrite Hsys. unfold get_system. cbn [String.eqb Ascii.eqb Bool.eqb negb].
    cbn [PVSystem.setitem_module_parameters PVSystem.set_albedo
         PVSystem.module_parameters].
    apply lookup_insert_eq. }
  assert (Hbt : PVSystem.backtrack (system self) = false).
  { rewrite Hsys. reflexivity. }
  split; [exact Hbif|]. split; [exact Hbt|]. intros Hzone.
  destruct (get_effective_irradiance_ok utc_offset self w 0 Hzone Hbif)
    as (self' & w' & Hrun & HS).
  cbv zeta in HS. destruct HS as (_ & Hfr & Hbk & Hcomb & _ & _).
  rewrite Hbt in Hcomb.
  eexists self', w', _. split; [exact Hrun|]. split; [exact Hcomb|].
  cbv zeta. split; [exact Hfr|]. split; [exact Hbk|].
  intros t f b Hf Hb.
  apply (sample_Fin _ _ _ _ (combined_sample _ _ _ t f b Hf Hb)). ring.
Qed.

Lemma rooftop_has_no_backside_gain_witness :
  let self := ModelChain_init (demo_parameters demo_rooftop) in
  (-12 ≤ -7 ≤ 0)%Z ∧
  demo_module_parameters !! "bifaciality" = Some 0.7 ∧
  PVSystem.module_parameters (system self) !! "bifaciality" = Some 0 ∧
  PVSystem.backtrack (system self) = false ∧
  ∃ (self' : ModelChain) (combined : Series),
    fst (snd (get_effective_irradiance (collaborators := demo_collaborators) (-7)
                (self, demo_weather))) = self' ∧
    effective_irradiance_bifacial self' = Some combined ∧
    sample combined 2 1000.
Proof.
  intros self.
  assert (Hzone : (-12 ≤ -7 ≤ 0)%Z) by lia.
  split; [exact Hzone|]. split; [vm_compute; reflexivity|].
  destruct (rooftop_has_no_backside_gain (collaborators := demo_collaborators) (-7)
              self demo_weather 1.5 2 180 0.4 demo_module_parameters
              demo_temperature_parameters 0 0 false 10 180 0.3 eq_refl)
    as (Hbif & Hbt & Hstep).
  destruct (Hstep Hzone)
    as (self' & w' & combined & Hrun & Hcomb & HS).
  split; [exact Hbif|]. split; [exact Hbt|].
  exists self', combined. rewrite Hrun. split; [reflexivity|].
  split; [exact Hcomb|].
  cbv zeta in HS. destruct HS as (_ & _ & Hsample).
  assert (Hw : w' = snd (snd (get_effective_irradiance
                                (collaborators := demo_collaborators) (-7)
                                (self, demo_weather))))
    by (rewrite Hrun; reflexivity).
  apply (Hsample 2%nat 1000 40.0); rewrite Hw; vm_compute; reflexivity.
Defined.

(* ===================================================================== *)
(** * Further properties of the stages                                    *)
(* ===================================================================== *)

(* ===================================================================== *)
(** ** Clamps, lengths and bounds of the AC and plant stages              *)
(* ===================================================================== *)

Lemma np_clamp_negative_not_below (x : np_float) :
  np_ltb (np_clamp_negative x) (Fin 0) = false.
Proof.
  unfold np_clamp_negative.
  destruct (np_ltb x (Fin 0)) eqn:E; [reflexivity | exact E].
Qed.

Lemma clamp_negative_never_negative (s : Series) :
  never_negative (clamp_negative s).
Proof.
  unfold never_negative, clamp_negative. apply Forall_fmap, Forall_forall.
  intros x _. apply np_clamp_negative_not_below.
Qed.

(** X1.  Whatever the parameters and the inverter output (infinite and
    NaN samples included), no sample of [pmt_out], [mpt_out] or
    [ac.clipping] is below zero. *)
Theorem ac_clamped_series_never_negative (self : Parameters) (pac : Series) :
  never_negative (pmt_out (fst (ac_cascade self pac))) ∧
  never_negative (mpt_out (fst (ac_cascade self pac))) ∧
  never_negative (AcFrame.clipping (snd (ac_cascade self pac))).
Proof.
  unfold ac_cascade. cbn [fst snd pmt_out mpt_out AcFrame.clipping].
  repeat split; apply clamp_negative_never_negative.
Qed.

(** X2.  Every series of the AC stage, local or column, has exactly as
    many samples as the inverter output: the stage neither drops nor
    adds a timestep. *)
Theorem ac_cascade_lengths (self : Parameters) (pac : Series) :
  let locals := fst (ac_cascade self pac) in
  let frame := snd (ac_cascade self pac) in
  length (pmt_out locals) = length pac ∧
  length (mpt_in locals) = length pac ∧
  length (mpt_out locals) = length pac ∧
  length (AcFrame.pac frame) = length pac ∧
  length (AcFrame.output frame) = length pac ∧
  length (AcFrame.losses frame) = length pac ∧
  length (AcFrame.clipping frame) = length pac.
Proof.
  cbv zeta. unfold ac_cascade.
  cbn [fst snd pmt_out mpt_in mpt_out AcFrame.pac AcFrame.output
       AcFrame.losses AcFrame.clipping].
  unfold clamp_negative, series_sub, series_add_scalar, scalar_mul_series,
    series_pow2, series_div_scalar, series_mul_scalar, series_sub_scalar.
  repeat rewrite ?length_fmap, ?length_zip_with.
  repeat split; lia.
Qed.

Lemma Qclamp_nonnegative (x : Q) : 0 <= Qclamp x.
Proof.
  destruct (Qlt_le_dec x 0) as [Hx|Hx].
  - rewrite Qclamp_neg by exact Hx. apply Qle_refl.
  - rewrite Qclamp_nonneg by exact Hx. exact Hx.
Qed.

Lemma Qclamp_nonpos (x : Q) : x <= 0 → Qclamp x == 0.
Proof.
  intros Hx. rewrite Qclamp_max. apply Q.max_l. exact Hx.
Qed.

(** X3.  With non-negative transformer coefficients, nonzero ratings and
    loss fractions [ac_collection] and [transmission_loss] between 0 and
    1, a finite inverter output [p >= 0] leaves the AC stage as an
    output between 0 and [p]; the recorded loss is non-negative and
    output plus loss gives back [p]. *)
Theorem ac_output_between_zero_and_input
    (self : Parameters) (pac : Series) (t : nat) (p : Q) :
  ¬ pmt_rating self == 0 → ¬ mpt_bottom_rating self == 0 →
  0 <= pmt_peak_loss self → 0 <= pmt_constant_loss self →
  0 <= mpt_peak_loss self → 0 <= mpt_constant_loss self →
  0 <= ac_collection self <= 1 → 0 <= transmission_loss self <= 1 →
  pac !! t = Some (Fin p) → 0 <= p →
  ∃ out loss : Q,
    AcFrame.output (snd (ac_cascade self pac)) !! t = Some (Fin out) ∧
    AcFrame.losses (snd (ac_cascade self pac)) !! t = Some (Fin loss) ∧
    0 <= out <= p ∧ 0 <= loss ∧ out + loss == p.
Proof.
  intros H1 H2 Hpk1 Hc1 Hpk2 Hc2 [Hcol0 Hcol1] [Htr0 Htr1] Hp Hp0.
  pose proof (ac_cascade_sample self pac t p H1 H2 Hp) as HS.
  cbv zeta in HS. destruct HS as (_ & _ & _ & _ & Eout & Eloss & _).
  eexists _, _. split; [exact Eout|]. split; [exact Eloss|].
  set (o1 := Qclamp (p - _)) in *.
  assert (Ho1 : o1 <= p)
    by exact (proj1 (Qclamp_transformer _ _ _ p Hpk1 Hc1 Hp0)).
  assert (Ho1' : 0 <= o1) by apply Qclamp_nonnegative.
  set (i2 := o1 * (1 - ac_collection self)) in *.
  assert (Hi2 : 0 <= i2 <= o1) by (unfold i2; split; nra).
  set (o2 := Qclamp (i2 - _)) in *.
  assert (Ho2 : o2 <= i2)
    by exact (proj1 (Qclamp_transformer _ _ _ i2 Hpk2 Hc2 (proj1 Hi2))).
  assert (Ho2' : 0 <= o2) by apply Qclamp_nonnegative.
  set (out := o2 * (1 - transmission_loss self)) in *.
  assert (Hout : 0 <= out <= o2) by (unfold out; split; nra).
  repeat split; lra.
Qed.

Lemma ac_output_between_zero_and_input_witness :
  let self := demo_parameters demo_tracker in
  let pac := [Fin 1000; Fin 0] in
  (pac !! 0%nat = Some (Fin 1000) ∧ 0 <= 1000) ∧
  ∃ out loss : Q,
    AcFrame.output (snd (ac_cascade self pac)) !! 0%nat = Some (Fin out) ∧
    AcFrame.losses (snd (ac_cascade self pac)) !! 0%nat = Some (Fin loss) ∧
    0 <= out <= 1000 ∧ 0 <= loss ∧ out + loss == 1000.
Proof.
  intros self pac.
  assert (Hp : pac !! 0%nat = Some (Fin 1000)) by reflexivity.
  assert (Hp0 : 0 <= 1000) by (vm_compute; discriminate).
  split; [exact (conj Hp Hp0)|].
  refine (ac_output_between_zero_and_input self pac 0 1000
            _ _ _ _ _ _ _ _ Hp Hp0);
    try (vm_compute; discriminate);
    split; vm_compute; discriminate.
Defined.

(** X4.  Night-time: where the inverter output is zero, with
    non-negative constant-loss terms, nonzero ratings and a non-negative
    [poi_capacity], the AC output, the AC loss, the AC clipping and the
    plant output are all zero (the constant transformer losses are
    clamped away, not carried as negative power). *)
Theorem zero_inverter_output_gives_zero
    (self : Parameters) (pac : Series) (t : nat) (p : Q) :
  ¬ pmt_rating self == 0 → ¬ mpt_bottom_rating self == 0 →
  0 <= pmt_constant_loss self → 0 <= mpt_constant_loss self →
  0 <= poi_capacity self →
  pac !! t = Some (Fin p) → p == 0 →
  let frame := snd (ac_cascade self pac) in
  sample (AcFrame.output frame) t 0 ∧
  sample (AcFrame.losses frame) t 0 ∧
  sample (AcFrame.clipping frame) t 0 ∧
  sample (PlantFrame.output (plant_frame self frame)) t 0.
Proof.
  intros H1 H2 Hc1 Hc2 Hpoi Hp Hz frame. subst frame.
  pose proof (ac_cascade_sample self pac t p H1 H2 Hp) as HS.
  cbv zeta in HS. destruct HS as (_ & _ & _ & _ & Eout & Eloss & Eclip).
  set (x1 := p - _) in *.
  assert (A1 : Qclamp x1 == 0).
  { assert (E : x1 == - pmt_constant_loss self)
      by (unfold x1; rewrite Hz; unfold Qdiv; ring).
    apply Qclamp_nonpos. lra. }
  set (i2 := Qclamp x1 * (1 - ac_collection self)) in *.
  assert (A2 : i2 == 0) by (unfold i2; rewrite A1; ring).
  set (x2 := i2 - _) in *.
  assert (A3 : Qclamp x2 == 0).
  { assert (E : x2 == - mpt_constant_loss self)
      by (unfold x2; rewrite A2; unfold Qdiv; ring).
    apply Qclamp_nonpos. lra. }
  set (out := Qclamp x2 * (1 - transmission_loss self)) in *.
  assert (A4 : out == 0) by (unfold out; rewrite A3; ring).
  assert (A5 : Qclamp (out - poi_capacity self) == 0)
    by (apply Qclamp_nonpos; lra).
  split; [exact (sample_Fin _ _ _ _ Eout A4)|].
  split; [apply (sample_Fin _ _ _ _ Eloss); lra|].
  split; [exact (sample_Fin _ _ _ _ Eclip A5)|].
  unfold plant_frame. cbn [PlantFrame.output].
  unfold sample, series_sub. rewrite lookup_zip_with, Eout, Eclip.
  cbn [mbind option_bind]. rewrite np_sub_Fin.
  eexists. split; [reflexivity|]. cbn [np_eq]. lra.
Qed.

Lemma zero_inverter_output_gives_zero_witness :
  let self := demo_parameters demo_tracker in
  let pac := [Fin 1000; Fin 0] in
  (pac !! 1%nat = Some (Fin 0) ∧ 0 == 0) ∧
  sample (AcFrame.output (snd (ac_cascade self pac))) 1 0 ∧
  sample (AcFrame.losses (snd (ac_cascade self pac))) 1 0 ∧
  sample (AcFrame.clipping (snd (ac_cascade self pac))) 1 0 ∧
  sample (PlantFrame.output (plant_frame self (snd (ac_cascade self pac))))
    1 0.
Proof.
  intros self pac.
  assert (Hp : pac !! 1%nat = Some (Fin 0)) by reflexivity.
  assert (Hz : 0 == 0) by reflexivity.
  split; [exact (conj Hp Hz)|].
  refine (zero_inverter_output_gives_zero self pac 1 0 _ _ _ _ _ Hp Hz);
    vm_compute; discriminate.
Defined.

(** X5.  A padmount rating of zero raises nothing: numpy divides by it.
    A nonzero finite inverter output then comes out of the padmount
    transformer as 0 when [pmt_peak_loss] is positive (the loss is
    infinite and the clamp zeroes it), and as NaN when [pmt_peak_loss]
    is zero. *)
Theorem zero_pmt_rating_zeroes_or_nans
    (self : Parameters) (pac : Series) (t : nat) (p : Q) :
  pmt_rating self == 0 → pac !! t = Some (Fin p) → ¬ p == 0 →
  (0 < pmt_peak_loss self →
   pmt_out (fst (ac_cascade self pac)) !! t = Some (Fin 0)) ∧
  (pmt_peak_loss self == 0 →
   pmt_out (fst (ac_cascade self pac)) !! t = Some NaN).
Proof.
  intros Hr Hp Hp0.
  assert (Hq : np_pow2 (np_div (np_div (Fin p) (Fin 0.98))
                          (Fin (pmt_rating self))) = PInf).
  { rewrite (np_div_Fin p 0.98) by discriminate.
    rewrite np_div_Fin_zero by exact Hr.
    destruct (p / 0.98 ?= 0) eqn:E; [|reflexivity..].
    apply Qeq_alt in E. exfalso. apply Hp0.
    setoid_replace p with (p / 0.98 * 0.98) using relation Qeq
      by (field; discriminate).
    rewrite E. ring. }
  unfold ac_cascade. cbn [fst pmt_out]. series_lookup Hp.
  rewrite Hq. split; intros Hpk.
  - apply Qgt_alt in Hpk. cbn [np_mul]. rewrite Hpk. reflexivity.
  - apply Qeq_alt in Hpk. cbn [np_mul]. rewrite Hpk. reflexivity.
Qed.

Lemma zero_pmt_rating_zeroes_or_nans_witness :
  let self := demo_parameters demo_tracker in
  let unrated :=
    {| system := system self; location := location self;
       degradation_loss := 0.005; bifacial_losses := 0.1; dc_losses := 0.02;
       ac_capacity := 900; inverter_efficiency_peak := 0.98;
       pmt_peak_loss := 10; pmt_rating := 0; pmt_constant_loss := 2;
       ac_collection := 0.01;
       mpt_peak_loss := 5; mpt_bottom_rating := 1000;
       mpt_constant_loss := 1;
       transmission_loss := 0.005; poi_capacity := 900;
       plant_losses := 0.02; time_step := 60; dc_capacity := 1000 |} in
  (pmt_rating unrated == 0 ∧ [Fin 1000] !! 0%nat = Some (Fin 1000) ∧
   ¬ 1000 == 0 ∧ 0 < pmt_peak_loss unrated) ∧
  pmt_out (fst (ac_cascade unrated [Fin 1000])) !! 0%nat = Some (Fin 0).
Proof.
  intros self unrated.
  assert (Hr : pmt_rating unrated == 0) by reflexivity.
  assert (Hp : [Fin 1000] !! 0%nat = Some (Fin 1000)) by reflexivity.
  assert (Hp0 : ¬ 1000 == 0) by discriminate.
  assert (Hpk : 0 < pmt_peak_loss unrated) by reflexivity.
  split; [exact (conj Hr (conj Hp (conj Hp0 Hpk)))|].
  exact (proj1 (zero_pmt_rating_zeroes_or_nans unrated [Fin 1000] 0 1000
                  Hr Hp Hp0) Hpk).
Defined.

(** X6.  The plant stage caps the AC output at the POI capacity: on a
    finite inverter output (ratings nonzero), [plant.output[t]] is the
    smaller of [ac.output[t]] and [poi_capacity], so it never exceeds
    [poi_capacity], and [plant.losses[t]] is that value times
    [plant_losses]. *)
Theorem plant_output_capped_at_poi
    (self : Parameters) (pac : Series) (t : nat) (p : Q) :
  ¬ pmt_rating self == 0 → ¬ mpt_bottom_rating self == 0 →
  pac !! t = Some (Fin p) →
  let frame := snd (ac_cascade self pac) in
  ∃ out delivered : Q,
    AcFrame.output frame !! t = Some (Fin out) ∧
    PlantFrame.output (plant_frame self frame) !! t = Some (Fin delivered) ∧
    PlantFrame.losses (plant_frame self frame) !! t
      = Some (Fin (delivered * plant_losses self)) ∧
    delivered == Qmin out (poi_capacity self) ∧
    delivered <= poi_capacity self.
Proof.
  intros H1 H2 Hp frame. subst frame.
  pose proof (ac_cascade_sample self pac t p H1 H2 Hp) as HS.
  cbv zeta in HS. destruct HS as (_ & _ & _ & _ & Eout & _ & Eclip).
  eexists _, _. split; [exact Eout|].
  unfold plant_frame. cbn [PlantFrame.output PlantFrame.losses].
  unfold series_mul_scalar, series_sub.
  rewrite list_lookup_fmap, lookup_zip_with, Eout, Eclip.
  cbn [fmap option_fmap option_map mbind option_bind].
  rewrite np_sub_Fin, np_mul_Fin.
  split; [reflexivity|]. split; [reflexivity|].
  set (out := _ * (1 - transmission_loss self)).
  destruct (Qlt_le_dec (out - poi_capacity self) 0) as [Hlt|Hge].
  - rewrite Qclamp_neg by exact Hlt.
    rewrite Q.min_l by lra. split; lra.
  - rewrite Qclamp_nonneg by exact Hge.
    rewrite Q.min_r by lra. split; lra.
Qed.

Lemma plant_output_capped_at_poi_witness :
  let self := demo_parameters demo_tracker in
  let pac := [Fin 1000; Fin 0] in
  pac !! 0%nat = Some (Fin 1000) ∧
  ∃ out delivered : Q,
    AcFrame.output (snd (ac_cascade self pac)) !! 0%nat = Some (Fin out) ∧
    PlantFrame.output (plant_frame self (snd (ac_cascade self pac)))
      !! 0%nat = Some (Fin delivered) ∧
    PlantFrame.losses (plant_frame self (snd (ac_cascade self pac)))
      !! 0%nat = Some (Fin (delivered * plant_losses self)) ∧
    delivered == Qmin out (poi_capacity self) ∧
    delivered <= poi_capacity self.
Proof.
  intros self pac.
  assert (Hp : pac !! 0%nat = Some (Fin 1000)) by reflexivity.
  split; [exact Hp|].
  refine (plant_output_capped_at_poi self pac 0 1000 _ _ Hp);
    vm_compute; discriminate.
Defined.

(* ===================================================================== *)
(** ** The DC stage                                                       *)
(* ===================================================================== *)

Section DcStage.
Context {collaborators : Collaborators}.

(** [self.dc] before and after the clipping column is assigned. *)
Lemma run_pvwatts_dc_run
    (self : ModelChain) (g_poa_effective temp_cell : Series) :
  effective_irradiance_soiled self = Some g_poa_effective →
  cell_temperature self = Some temp_cell →
  let pdc := zip_with (pvwatts_dc (system self)) g_poa_effective temp_cell in
  let losses := series_mul_scalar pdc (dc_losses self) in
  let output := series_sub pdc losses in
  let frame clipping :=
    {| DcFrame.pdc := pdc; DcFrame.losses := losses;
       DcFrame.output := output; DcFrame.clipping := clipping |} in
  run_pvwatts_dc self =
    if Qeq_bool (inverter_efficiency_peak self) 0
    then (Raise ZeroDivisionError, set_dc (frame None) self)
    else
      (Ok tt,
       set_dc
         (frame
            (Some (clamp_negative
                     (series_sub_scalar output
                        (ac_capacity self / inverter_efficiency_peak self)))))
         self).
Proof.
  intros Hg Ht. cbv zeta.
  unfold run_pvwatts_dc, bind, get, lift, modify, py_div.
  rewrite Hg, Ht. cbn [getattr].
  cbn [set_dc parameters].
  destruct (Qeq_bool (inverter_efficiency_peak self) 0); reflexivity.
Qed.

End DcStage.

(** X7.  On an instance that has its soiled irradiance and cell
    temperature, with a nonzero [inverter_efficiency_peak],
    [run_pvwatts_dc] returns and leaves a frame with all four columns;
    at every timestep whose DC power [pdc[t]] is a finite [q], the loss
    is [q * dc_losses], the output [q * (1 - dc_losses)] and the
    clipping [max(0, output - ac_capacity / inverter_efficiency_peak)];
    no clipping sample is below zero. *)
Theorem run_pvwatts_dc_columns {collaborators : Collaborators}
    (self : ModelChain) (g_poa_effective temp_cell : Series) :
  effective_irradiance_soiled self = Some g_poa_effective →
  cell_temperature self = Some temp_cell →
  ¬ inverter_efficiency_peak self == 0 →
  ∃ (frame : DcFrame.t) (clipping : Series),
    run_pvwatts_dc self = (Ok tt, set_dc frame self) ∧
    DcFrame.pdc frame
      = zip_with (pvwatts_dc (system self)) g_poa_effective temp_cell ∧
    DcFrame.clipping frame = Some clipping ∧
    never_negative clipping ∧
    ∀ (t : nat) (q : Q),
      DcFrame.pdc frame !! t = Some (Fin q) →
      sample (DcFrame.losses frame) t (q * dc_losses self) ∧
      sample (DcFrame.output frame) t (q * (1 - dc_losses self)) ∧
      sample clipping t
        (Qmax 0 (q * (1 - dc_losses self)
                 - ac_capacity self / inverter_efficiency_peak self)).
Proof.
  intros Hg Ht Heff.
  pose proof (run_pvwatts_dc_run self _ _ Hg Ht) as Hrun. cbv zeta in Hrun.
  destruct (Qeq_bool (inverter_efficiency_peak self) 0) eqn:E.
  { apply Qeq_bool_iff in E. contradiction. }
  set (pdc := zip_with (pvwatts_dc (system self)) g_poa_effective
                temp_cell) in *.
  eexists _, _. split; [exact Hrun|].
  cbn [DcFrame.pdc DcFrame.losses DcFrame.output DcFrame.clipping].
  split; [reflexivity|]. split; [reflexivity|].
  split; [apply clamp_negative_never_negative|].
  intros t q Hq. unfold sample. series_lookup Hq.
  rewrite !np_mul_Fin, !np_sub_Fin, np_clamp_negative_Fin.
  repeat split.
  - eexists. split; [reflexivity|]. cbn [np_eq]. reflexivity.
  - eexists. split; [reflexivity|]. cbn [np_eq]. ring.
  - eexists. split; [reflexivity|]. cbn [np_eq].
    rewrite Qclamp_max. apply Q.max_compat; [reflexivity | ring].
Qed.

Lemma run_pvwatts_dc_columns_witness :
  let self :=
    set_cell_temperature [Fin 20; Fin 25; Fin 30]
      (set_effective_irradiance_soiled [Fin 0; Fin 500; Fin 1000]
         (ModelChain_init (demo_parameters demo_tracker))) in
  ¬ inverter_efficiency_peak self == 0 ∧
  ∃ (frame : DcFrame.t) (clipping : Series),
    run_pvwatts_dc (collaborators := demo_collaborators) self
      = (Ok tt, set_dc frame self) ∧
    DcFrame.clipping frame = Some clipping ∧
    sample (DcFrame.output frame) 2 (1000 * (1 - 0.02)) ∧
    sample clipping 2 (Qmax 0 (1000 * (1 - 0.02) - 900 / 0.98)).
Proof.
  intros self.
  assert (Heff : ¬ inverter_efficiency_peak self == 0) by discriminate.
  split; [exact Heff|].
  destruct (run_pvwatts_dc_columns (collaborators := demo_collaborators)
              self [Fin 0; Fin 500; Fin 1000] [Fin 20; Fin 25; Fin 30]
              eq_refl eq_refl Heff)
    as (frame & clipping & Hrun & Hpdc & Hclip & _ & Hsamples).
  exists frame, clipping. split; [exact Hrun|]. split; [exact Hclip|].
  destruct (Hsamples 2%nat 1000) as (_ & Hout & Hc).
  { rewrite Hpdc. reflexivity. }
  split; [exact Hout | exact Hc].
Defined.

(** X8.  With [inverter_efficiency_peak] equal to 0, [run_pvwatts_dc]
    raises [ZeroDivisionError] after it has assigned [self.dc] with the
    columns [pdc], [losses] and [output]: the frame stays on the
    instance without a [clipping] column, and [run_pvwatts_ac] then
    raises [ZeroDivisionError] too, without assigning [self.ac]. *)
Theorem run_pvwatts_dc_zero_efficiency {collaborators : Collaborators}
    (self : ModelChain) (g_poa_effective temp_cell : Series) :
  effective_irradiance_soiled self = Some g_poa_effective →
  cell_temperature self = Some temp_cell →
  inverter_efficiency_peak self == 0 →
  ∃ frame : DcFrame.t,
    run_pvwatts_dc self = (Raise ZeroDivisionError, set_dc frame self) ∧
    DcFrame.pdc frame
      = zip_with (pvwatts_dc (system self)) g_poa_effective temp_cell ∧
    length (DcFrame.output frame) = length (DcFrame.pdc frame) ∧
    DcFrame.clipping frame = None ∧
    run_pvwatts_ac (set_dc frame self)
      = (Raise ZeroDivisionError, set_dc frame self).
Proof.
  intros Hg Ht Heff.
  pose proof (run_pvwatts_dc_run self _ _ Hg Ht) as Hrun. cbv zeta in Hrun.
  pose proof (proj2 (Qeq_bool_iff _ _) Heff) as E. rewrite E in Hrun.
  eexists. split; [exact Hrun|].
  cbn [DcFrame.pdc DcFrame.output DcFrame.clipping].
  split; [reflexivity|]. split.
  { unfold series_sub, series_mul_scalar.
    rewrite length_zip_with, length_fmap. lia. }
  split; [reflexivity|].
  eapply run_pvwatts_ac_zero_efficiency; [reflexivity | exact Heff].
Qed.

Lemma run_pvwatts_dc_zero_efficiency_witness :
  let broken :=
    {| system := demo_tracker;
       location := location (demo_parameters demo_tracker);
       degradation_loss := 0.005; bifacial_losses := 0.1; dc_losses := 0.02;
       ac_capacity := 900; inverter_efficiency_peak := 0;
       pmt_peak_loss := 10; pmt_rating := 1000; pmt_constant_loss := 2;
       ac_collection := 0.01;
       mpt_peak_loss := 5; mpt_bottom_rating := 1000;
       mpt_constant_loss := 1;
       transmission_loss := 0.005; poi_capacity := 900;
       plant_losses := 0.02; time_step := 60; dc_capacity := 1000 |} in
  let self :=
    set_cell_temperature [Fin 20]
      (set_effective_irradiance_soiled [Fin 500] (ModelChain_init broken)) in
  inverter_efficiency_peak self == 0 ∧
  ∃ frame : DcFrame.t,
    run_pvwatts_dc (collaborators := demo_collaborators) self
      = (Raise ZeroDivisionError, set_dc frame self) ∧
    DcFrame.clipping frame = None ∧
    run_pvwatts_ac (collaborators := demo_collaborators) (set_dc frame self)
      = (Raise ZeroDivisionError, set_dc frame self).
Proof.
  intros broken self.
  assert (Heff : inverter_efficiency_peak self == 0) by reflexivity.
  split; [exact Heff|].
  destruct (run_pvwatts_dc_zero_efficiency
              (collaborators := demo_collaborators) self [Fin 500] [Fin 20]
              eq_refl eq_refl Heff)
    as (frame & Hrun & _ & _ & Hclip & Hac).
  exists frame. split; [exact Hrun|]. split; [exact Hclip | exact Hac].
Defined.

(* ===================================================================== *)
(** ** The metrics                                                        *)
(* ===================================================================== *)

(** X9.  Running [get_results] again on the instance it has just
    updated changes nothing and ends the same way: same outcome, same
    metrics, whether the first run returned or raised. *)
Theorem get_results_idempotent (self : ModelChain) :
  get_results (snd (get_results self)) = get_results self.
Proof.
  destruct (plant self) as [pf|] eqn:Hplant.
  - pose proof (get_results_run self pf Hplant) as Hrun. cbv zeta in Hrun.
    destruct (effective_irradiance self) as [irr|] eqn:Hirr;
      [destruct (PVSystem.module_parameters (system self) !! "efficiency")
         as [e|] eqn:He; [destruct (Qeq_bool e 0) eqn:Ez|]|];
      rewrite Hrun; cbn [snd];
      match goal with
      | |- get_results ?s = _ =>
          rewrite (get_results_run s pf Hplant); cbv zeta
      end;
      cbn [set_pr set_energy_yield set_ncf set_aep effective_irradiance
           parameters];
      rewrite ?Hirr, ?He, ?Ez; reflexivity.
  - assert (Hrun : get_results self = (Raise (AttributeError "plant"), self)).
    { unfold get_results, bind, get, lift. rewrite Hplant. reflexivity. }
    rewrite Hrun. cbn [snd]. exact Hrun.
Qed.

(** X10.  When [self.plant] exists and the module parameters have no
    ['efficiency'], [get_results] raises [KeyError] only after it has
    assigned [aep], [ncf] and [energy_yield]; [pr] keeps whatever value
    it had.  When [self.plant] does not exist it raises
    [AttributeError] and assigns nothing. *)
Theorem get_results_missing_inputs (self : ModelChain) :
  (plant self = None →
   get_results self = (Raise (AttributeError "plant"), self)) ∧
  (∀ (pf : PlantFrame.t) (irradiance : Series),
     plant self = Some pf →
     effective_irradiance self = Some irradiance →
     PVSystem.module_parameters (system self) !! "efficiency" = None →
     fst (get_results self) = Raise (KeyError "efficiency") ∧
     aep (snd (get_results self)) = Some (annual_energy self pf) ∧
     is_Some (ncf (snd (get_results self))) ∧
     is_Some (energy_yield (snd (get_results self))) ∧
     pr (snd (get_results self)) = pr self).
Proof.
  split.
  - intros Hplant. unfold get_results, bind, get, lift.
    rewrite Hplant. reflexivity.
  - intros pf irr Hplant Hirr Heff.
    pose proof (get_results_run self pf Hplant) as Hrun. cbv zeta in Hrun.
    rewrite Hirr, Heff in Hrun. rewrite Hrun. cbn [fst snd].
    repeat split; eexists; reflexivity.
Qed.

Lemma get_results_missing_inputs_witness :
  get_results (ModelChain_init (demo_parameters demo_tracker))
    = (Raise (AttributeError "plant"),
       ModelChain_init (demo_parameters demo_tracker)) ∧
  (let bare :=
     get_system "canopy" 3 2 180 0.4 (<["pdc0" := 1000]> ∅) ∅
       0 0 false 10 180 0.3 in
   let self := demo_after_plant (demo_parameters bare) in
   PVSystem.module_parameters (system self) !! "efficiency" = None ∧
   fst (get_results self) = Raise (KeyError "efficiency") ∧
   aep (snd (get_results self)) = Some (annual_energy self demo_plant) ∧
   pr (snd (get_results self)) = None).
Proof.
  split.
  - apply (proj1 (get_results_missing_inputs
                    (ModelChain_init (demo_parameters demo_tracker)))).
    reflexivity.
  - intros bare self.
    assert (Heff : PVSystem.module_parameters (system self) !! "efficiency"
                   = None) by (vm_compute; reflexivity).
    split; [exact Heff|].
    destruct (proj2 (get_results_missing_inputs self) demo_plant
                [Fin 500; Fin 500] eq_refl eq_refl Heff)
      as (Hraise & Haep & _ & _ & Hpr).
    split; [exact Hraise|]. split; [exact Haep | exact Hpr].
Defined.

Lemma Qsum_zip_with_minus (os cs : list Q) :
  length os = length cs →
  Qsum (zip_with Qminus os cs) == Qsum os - Qsum cs.
Proof.
  revert cs. induction os as [|o os IH]; intros [|c cs] Hlen;
    try discriminate; cbn [zip_with Qsum foldr].
  - ring.
  - injection Hlen as Hlen. fold (Qsum (zip_with Qminus os cs)).
    fold (Qsum os). fold (Qsum cs). rewrite (IH cs Hlen). ring.
Qed.

Lemma Qsum_scaled (k : Q) (qs : list Q) :
  Qsum ((λ x, x * k) <$> qs) == Qsum qs * k.
Proof.
  induction qs as [|q qs IH]; cbn [fmap list_fmap Qsum foldr].
  - ring.
  - fold (Qsum ((λ x, x * k) <$> qs)). fold (Qsum qs). rewrite IH. ring.
Qed.

Lemma series_sub_Fin (os cs : list Q) :
  series_sub (Fin <$> os) (Fin <$> cs) = Fin <$> zip_with Qminus os cs.
Proof.
  unfold series_sub. revert cs.
  induction os as [|o os IH]; intros [|c cs]; try reflexivity.
  cbn [fmap list_fmap zip_with]. rewrite <- IH. reflexivity.
Qed.

Lemma series_mul_scalar_Fin (k : Q) (qs : list Q) :
  series_mul_scalar (Fin <$> qs) k = Fin <$> ((λ x, x * k) <$> qs).
Proof.
  unfold series_mul_scalar. rewrite <- !list_fmap_compose. reflexivity.
Qed.

(** X11.  [run_plant_model] followed by [get_results]: on an AC frame
    of finite samples, [aep] is the energy delivered past the POI
    clipping less the plant losses, [(Σ ac.output - Σ ac.clipping) *
    (1 - plant_losses) * time_step / 60], and with a nonzero
    [dc_capacity] the energy yield is [aep / dc_capacity]. *)
Theorem aep_after_plant_model
    (self : ModelChain) (ac_frame : AcFrame.t) (os cs : list Q) :
  ac self = Some ac_frame →
  AcFrame.output ac_frame = Fin <$> os →
  AcFrame.clipping ac_frame = Fin <$> cs →
  length os = length cs →
  ∃ (after_plant : ModelChain) (a : Q),
    run_plant_model self = (Ok tt, after_plant) ∧
    aep (snd (get_results after_plant)) = Some (Fin a) ∧
    a == (Qsum os - Qsum cs) * (1 - plant_losses self)
         * time_step self / 60 ∧
    (¬ dc_capacity self == 0 →
     energy_yield (snd (get_results after_plant))
       = Some (Fin (a / dc_capacity self))).
Proof.
  intros Hac Hout Hclip Hlen.
  remember (plant_frame self ac_frame) as pf eqn:Hpf.
  destruct (get_results_assigned (set_plant pf self) pf eq_refl)
    as (Haep & _ & Hey).
  cbn [set_plant parameters] in Haep, Hey.
  assert (Hae : annual_energy self pf =
                Fin ((Qsum (zip_with Qminus os cs)
                      - Qsum ((λ x, x * plant_losses self)
                                <$> zip_with Qminus os cs))
                     * time_step self / 60)).
  { rewrite Hpf. unfold plant_frame. rewrite Hout, Hclip.
    rewrite series_sub_Fin, series_mul_scalar_Fin.
    apply annual_energy_Fin. }
  rewrite Hae in Haep, Hey.
  eexists (set_plant pf self), _.
  split; [rewrite Hpf; exact (run_plant_model_ok self ac_frame Hac)|].
  split; [exact Haep|]. split.
  - rewrite Qsum_scaled, Qsum_zip_with_minus by exact Hlen.
    unfold Qdiv. ring.
  - intros Hdc. rewrite Hey. rewrite np_div_Fin by exact Hdc. reflexivity.
Qed.

Lemma aep_after_plant_model_witness :
  let frame :=
    {| AcFrame.pac := [Fin 1000; Fin 500];
       AcFrame.output := Fin <$> [950; 480];
       AcFrame.losses := [Fin 50; Fin 20];
       AcFrame.clipping := Fin <$> [50; 0] |} in
  let self := set_ac frame (ModelChain_init (demo_parameters demo_tracker)) in
  length [950; 480] = length [50; 0] ∧
  ∃ (after_plant : ModelChain) (a : Q),
    run_plant_model self = (Ok tt, after_plant) ∧
    aep (snd (get_results after_plant)) = Some (Fin a) ∧
    a == (Qsum [950; 480] - Qsum [50; 0]) * (1 - 0.02) * 60 / 60.
Proof.
  intros frame self. split; [reflexivity|].
  destruct (aep_after_plant_model self frame [950; 480] [50; 0]
              eq_refl eq_refl eq_refl eq_refl)
    as (after_plant & a & Hrun & Haep & Ha & _).
  exists after_plant, a. split; [exact Hrun|]. split; [exact Haep|].
  exact Ha.
Defined.

(* ===================================================================== *)
(** ** More on the irradiance-combining step                              *)
(* ===================================================================== *)

Lemma fillna0_no_nan (s : Series) : no_nan (fillna0 s).
Proof.
  unfold no_nan, fillna0. apply Forall_fmap, Forall_forall.
  intros x _. cbn. destruct x; reflexivity.
Qed.

Section IrradianceState.
Context {collaborators : Collaborators}.

(** Everything [get_effective_irradiance] leaves on [self] once the
    zone name is resolved, on the path that returns and on the path
    that raises. *)
Lemma get_effective_irradiance_state
    (utc_offset : Z) (self : ModelChain) (w : Weather.t) :
  (-12 ≤ utc_offset ≤ 0)%Z →
  let run := get_effective_irradiance utc_offset (self, w) in
  let self' := fst (snd run) in
  let w' := snd (snd run) in
  (parameters self' = parameters self ∧
   dc self' = dc self ∧ ac self' = ac self ∧ plant self' = plant self ∧
   aep self' = aep self ∧ ncf self' = ncf self ∧
   energy_yield self' = energy_yield self ∧ pr self' = pr self) ∧
  (effective_irradiance self' =
     Some (fillna0 (effective_irradiance_model (system self)
                      (location self) w')) ∧
   cell_temperature self' =
     Some (temperature_model (system self) (location self) w') ∧
   back_irradiance self' =
     Some (fillna0 (Report.total_inc_back (pvfactor_report self w'))) ∧
   front_irradiance self' =
     Some (fillna0 (Report.total_inc_front (pvfactor_report self w')))) ∧
  (PVSystem.module_parameters (system self) !! "bifaciality" = None →
   fst run = Raise (KeyError "bifaciality") ∧
   effective_irradiance_bifacial self' = effective_irradiance_bifacial self ∧
   soiling self' = soiling self ∧
   effective_irradiance_soiled self' = effective_irradiance_soiled self).
Proof.
  intros Hzone. run_irradiance Hzone.
  destruct (PVSystem.albedo (system self));
    cbn -[etc_gmt_plus fillna0 pvfactor_report];
    destruct (PVSystem.backtrack (system self));
    cbn -[etc_gmt_plus fillna0 pvfactor_report];
    destruct (PVSystem.module_parameters (system self) !! "bifaciality");
    cbn -[etc_gmt_plus fillna0 pvfactor_report];
    (split; [repeat split|]); (split; [repeat split|]);
    intros Hnone; try discriminate; repeat split.
Qed.

End IrradianceState.

(** X12.  [get_effective_irradiance] changes neither the parameters
    saved on the instance nor what later stages had left on it
    ([self.dc], [self.ac], [self.plant], [aep], [ncf], [energy_yield],
    [pr]): results of an earlier run stay in place, unrefreshed,
    whether the call returns or raises.  For a [utc_offset] from -12 to
    0 the three series it fills, [effective_irradiance],
    [back_irradiance] and [front_irradiance], are assigned and contain
    no NaN afterwards, again whether the call returns or raises; for
    any other [utc_offset] the call raises on the zone name and the
    instance is exactly as before. *)
Theorem get_effective_irradiance_frame {collaborators : Collaborators}
    (utc_offset : Z) (self : ModelChain) (w : Weather.t) :
  let run := get_effective_irradiance utc_offset (self, w) in
  let self' := fst (snd run) in
  (parameters self' = parameters self ∧
   dc self' = dc self ∧ ac self' = ac self ∧ plant self' = plant self ∧
   aep self' = aep self ∧ ncf self' = ncf self ∧
   energy_yield self' = energy_yield self ∧ pr self' = pr self) ∧
  ((-12 ≤ utc_offset ≤ 0)%Z →
   ∃ frontside back front : Series,
     effective_irradiance self' = Some frontside ∧
     back_irradiance self' = Some back ∧
     front_irradiance self' = Some front ∧
     no_nan frontside ∧ no_nan back ∧ no_nan front) ∧
  (¬ (-12 ≤ utc_offset ≤ 0)%Z →
   fst run = Raise (UnknownTimeZoneError
                      ("Etc/GMT+" +:+ pretty (- utc_offset)%Z)) ∧
   self' = self).
Proof.
  intros run self'. subst self' run.
  destruct (decide (-12 ≤ utc_offset ≤ 0)%Z) as [Hzone|Hzone].
  - destruct (get_effective_irradiance_state utc_offset self w Hzone)
      as (Hframe & (Hfs & _ & Hbk & Hfr) & _).
    split; [exact Hframe|]. split; [|intros Hno; contradiction].
    intros _. eexists _, _, _. split; [exact Hfs|]. split; [exact Hbk|].
    split; [exact Hfr|]. repeat split; apply fillna0_no_nan.
  - rewrite (get_effective_irradiance_unknown_zone utc_offset self w Hzone).
    cbn [fst snd]. split; [repeat split|].
    split; [intros Hyes; contradiction | intros _; split; reflexivity].
Qed.

Lemma get_effective_irradiance_frame_witness :
  let self := demo_after_plant (demo_parameters demo_tracker) in
  let west :=
    get_effective_irradiance (collaborators := demo_collaborators) (-7)
      (self, demo_weather) in
  let east :=
    get_effective_irradiance (collaborators := demo_collaborators) 5
      (self, demo_weather) in
  ((-12 ≤ -7 ≤ 0)%Z ∧
   plant (fst (snd west)) = Some demo_plant ∧
   ∃ front : Series,
     front_irradiance (fst (snd west)) = Some front ∧ no_nan front) ∧
  (¬ (-12 ≤ 5 ≤ 0)%Z ∧
   fst east = Raise (UnknownTimeZoneError "Etc/GMT+-5") ∧
   fst (snd east) = self).
Proof.
  intros self west east. split.
  - assert (Hzone : (-12 ≤ -7 ≤ 0)%Z) by lia.
    split; [exact Hzone|].
    destruct (get_effective_irradiance_frame
                (collaborators := demo_collaborators) (-7) self demo_weather)
      as ((_ & _ & _ & Hplant & _) & Hknown & _).
    split; [exact Hplant|].
    destruct (Hknown Hzone) as (_ & _ & front & _ & _ & Hfr & _ & _ & Hnan).
    exists front. split; [exact Hfr | exact Hnan].
  - assert (Hzone : ¬ (-12 ≤ 5 ≤ 0)%Z) by lia.
    split; [exact Hzone|].
    destruct (get_effective_irradiance_frame
                (collaborators := demo_collaborators) 5 self demo_weather)
      as (_ & _ & Hunknown).
    exact (Hunknown Hzone).
Defined.

(** X13.  On a system whose module parameters have no ['bifaciality']
    (any racking but rooftop, with a monofacial module dictionary), and
    for a [utc_offset] from -12 to 0 (one whose zone name exists), the
    step raises [KeyError] late: the caller's index is already
    timezone-aware, [effective_irradiance], [cell_temperature],
    [back_irradiance] and [front_irradiance] are already assigned, and
    the combined, soiling and soiled attributes are left as they were. *)
Theorem get_effective_irradiance_without_bifaciality_key
    {collaborators : Collaborators}
    (utc_offset : Z) (self : ModelChain) (w : Weather.t) :
  (-12 ≤ utc_offset ≤ 0)%Z →
  PVSystem.module_parameters (system self) !! "bifaciality" = None →
  let run := get_effective_irradiance utc_offset (self, w) in
  let self' := fst (snd run) in
  fst run = Raise (KeyError "bifaciality") ∧
  tz (Weather.index (snd (snd run))) = Some (etc_gmt_plus (- utc_offset)) ∧
  is_Some (effective_irradiance self') ∧
  is_Some (cell_temperature self') ∧
  is_Some (back_irradiance self') ∧
  is_Some (front_irradiance self') ∧
  effective_irradiance_bifacial self' = effective_irradiance_bifacial self ∧
  soiling self' = soiling self ∧
  effective_irradiance_soiled self' = effective_irradiance_soiled self.
Proof.
  intros Hzone Hnone run self'. subst run self'.
  destruct (get_effective_irradiance_state utc_offset self w Hzone)
    as (_ & (Hfs & Htemp & Hbk & Hfr) & Hraise).
  destruct (Hraise Hnone) as (Hr & Hcomb & Hsoil & Hsoiled).
  destruct (get_effective_irradiance_weather utc_offset self w Hzone)
    as (_ & Hidx & _).
  split; [exact Hr|]. split.
  { rewrite Hidx. reflexivity. }
  rewrite Hfs, Htemp, Hbk, Hfr.
  repeat split; try (eexists; reflexivity); assumption.
Qed.

Lemma get_effective_irradiance_without_bifaciality_key_witness :
  let monofacial :=
    get_system "ground-mount" 1.5 2 180 0.4 (<["pdc0" := 1000]> ∅) ∅
      0 0 false 25 180 0 in
  let self := ModelChain_init (demo_parameters monofacial) in
  let run := get_effective_irradiance (collaborators := demo_collaborators)
               (-7) (self, demo_weather) in
  (-12 ≤ -7 ≤ 0)%Z ∧
  PVSystem.module_parameters monofacial !! "bifaciality" = None ∧
  fst run = Raise (KeyError "bifaciality") ∧
  is_Some (front_irradiance (fst (snd run))) ∧
  effective_irradiance_bifacial (fst (snd run)) = None.
Proof.
  intros monofacial self run.
  assert (Hnone : PVSystem.module_parameters (system self)
                    !! "bifaciality" = None) by (vm_compute; reflexivity).
  assert (Hzone : (-12 ≤ -7 ≤ 0)%Z) by lia.
  split; [exact Hzone|]. split; [exact Hnone|].
  destruct (get_effective_irradiance_without_bifaciality_key
              (collaborators := demo_collaborators) (-7) self demo_weather
              Hzone Hnone)
    as (Hr & _ & _ & _ & _ & Hfr & Hcomb & _).
  split; [exact Hr|]. split; [exact Hfr | exact Hcomb].
Defined.

(** X14.  A second call does not move the timestamps again: once a call
    has made the index timezone-aware, running the step again with the
    same [utc_offset], on any instance, leaves the index of the frame
    exactly as the first call left it. *)
Theorem get_effective_irradiance_index_settles
    {collaborators : Collaborators}
    (utc_offset : Z) (self again : ModelChain) (w : Weather.t) :
  let once := snd (snd (get_effective_irradiance utc_offset (self, w))) in
  let twice :=
    snd (snd (get_effective_irradiance utc_offset (again, once))) in
  Weather.index twice = Weather.index once.
Proof.
  intros once twice.
  destruct (decide (-12 ≤ utc_offset ≤ 0)%Z) as [Hzone|Hzone].
  - destruct (get_effective_irradiance_weather utc_offset self w Hzone)
      as (_ & Hidx1 & _).
    destruct (get_effective_irradiance_weather utc_offset again once Hzone)
      as (_ & Hidx2 & _).
    fold once in Hidx1. fold twice in Hidx2. rewrite Hidx2, Hidx1.
    reflexivity.
  - subst twice.
    rewrite (get_effective_irradiance_unknown_zone utc_offset again once
               Hzone).
    reflexivity.
Qed.

(** X15.  The albedo override never reaches the view-factor engine: for
    fixed-tilt systems on the same site that agree on tilt, azimuth,
    axis azimuth, axis height, collector width and ground-coverage
    ratio, and a [utc_offset] from -12 to 0 (one whose zone name
    exists, so that the step reaches the engine), the back and front
    irradiance the step stores are the same whatever [albedo] each
    system carries and whatever [albedo] attribute the frame had; the
    engine is given the frame's [surface_albedo] column. *)
Theorem albedo_override_never_reaches_pvfactors
    {collaborators : Collaborators}
    (utc_offset : Z) (self other : ModelChain) (w w2 : Weather.t)
    (surface_tilt surface_azimuth : Q) :
  (-12 ≤ utc_offset ≤ 0)%Z →
  PVSystem.mount (system self) = FixedTilt surface_tilt surface_azimuth →
  PVSystem.mount (system other) = FixedTilt surface_tilt surface_azimuth →
  PVSystem.axis_azimuth (system other) = PVSystem.axis_azimuth (system self) →
  PVSystem.axis_height (system other) = PVSystem.axis_height (system self) →
  PVSystem.collector_width (system other)
    = PVSystem.collector_width (system self) →
  PVSystem.gcr (system other) = PVSystem.gcr (system self) →
  location other = location self →
  Weather.index w2 = Weather.index w →
  Weather.columns w2 = Weather.columns w →
  let self' := fst (snd (get_effective_irradiance utc_offset (self, w))) in
  let other' :=
    fst (snd (get_effective_irradiance utc_offset (other, w2))) in
  is_Some (back_irradiance self') ∧ is_Some (front_irradiance self') ∧
  back_irradiance other' = back_irradiance self' ∧
  front_irradiance other' = front_irradiance self'.
Proof.
  intros Hzone Hm1 Hm2 Haz Hah Hcw Hgcr Hloc Hidx Hcols self' other'.
  subst self' other'.
  destruct (get_effective_irradiance_state utc_offset self w Hzone)
    as (_ & (_ & _ & Hbk & Hfr) & _).
  destruct (get_effective_irradiance_state utc_offset other w2 Hzone)
    as (_ & (_ & _ & Hbk2 & Hfr2) & _).
  destruct (get_effective_irradiance_weather utc_offset self w Hzone)
    as (Hc1 & Hi1 & _).
  destruct (get_effective_irradiance_weather utc_offset other w2 Hzone)
    as (Hc2 & Hi2 & _).
  set (w1' := snd (snd (get_effective_irradiance utc_offset (self, w)))) in *.
  set (w2' := snd (snd (get_effective_irradiance utc_offset (other, w2))))
    in *.
  assert (Hreport : pvfactor_report other w2' = pvfactor_report self w1').
  { assert (Hi : Weather.index w2' = Weather.index w1')
      by (rewrite Hi1, Hi2, Hidx; reflexivity).
    assert (Hc : Weather.columns w2' = Weather.columns w1')
      by (rewrite Hc1, Hc2, Hcols; reflexivity).
    unfold Weather.columns in Hc.
    injection Hc as _ Hdni Hdhi _ _ Halb _.
    unfold pvfactor_report.
    rewrite Hm1, Hm2, Haz, Hah, Hcw, Hgcr, Hloc, Hi, Hdni, Hdhi, Halb.
    reflexivity. }
  rewrite Hbk, Hfr, Hbk2, Hfr2, Hreport.
  repeat split; eexists; reflexivity.
Qed.

Lemma albedo_override_never_reaches_pvfactors_witness :
  let dark :=
    get_system "rooftop" 1.5 2 180 0.4 demo_module_parameters
      demo_temperature_parameters 0 0 false 10 180 0.05 in
  let bright :=
    get_system "rooftop" 1.5 2 180 0.4 demo_module_parameters
      demo_temperature_parameters 0 0 false 10 180 0.9 in
  let run system :=
    fst (snd (get_effective_irradiance (collaborators := demo_collaborators)
                (-7) (ModelChain_init (demo_parameters system),
                      demo_weather))) in
  (-12 ≤ -7 ≤ 0)%Z ∧
  PVSystem.albedo dark ≠ PVSystem.albedo bright ∧
  is_Some (back_irradiance (run dark)) ∧
  back_irradiance (run bright) = back_irradiance (run dark) ∧
  front_irradiance (run bright) = front_irradiance (run dark).
Proof.
  intros dark bright run.
  assert (Hzone : (-12 ≤ -7 ≤ 0)%Z) by lia.
  split; [exact Hzone|]. split; [discriminate|].
  destruct (albedo_override_never_reaches_pvfactors
              (collaborators := demo_collaborators) (-7)
              (ModelChain_init (demo_parameters dark))
              (ModelChain_init (demo_parameters bright))
              demo_weather demo_weather 10 180 Hzone
              eq_refl eq_refl eq_refl eq_refl eq_refl eq_refl eq_refl
              eq_refl eq_refl)
    as (Hsome & _ & Hbk & Hfr).
  split; [exact Hsome|]. split; [exact Hbk | exact Hfr].
Defined.

(* ===================================================================== *)
(** ** Building the system and the model chain                           *)
(* ===================================================================== *)

(** X16.  [get_system] treats every racking name other than ['tracker']
    (canopy, rooftop, ground-mount or an unknown name) as a fixed-tilt
    system that never backtracks, whatever [backtrack] was passed, and
    gives it the [albedo] unless the name is ['ground-mount']; and for
    every racking name it keeps each module parameter other than
    ['bifaciality'] as supplied. *)
Theorem get_system_fixed_tilt_policy
    (racking : string) (axis_height collector_width axis_azimuth gcr : Q)
    (module_parameters temperature_model_parameters : gmap string Q)
    (axis_tilt max_angle : Q) (backtrack : bool)
    (surface_tilt surface_azimuth albedo : Q) :
  let built :=
    get_system racking axis_height collector_width axis_azimuth gcr
      module_parameters temperature_model_parameters axis_tilt max_angle
      backtrack surface_tilt surface_azimuth albedo in
  (racking ≠ "tracker" →
   PVSystem.mount built = FixedTilt surface_tilt surface_azimuth ∧
   PVSystem.backtrack built = false ∧
   (racking ≠ "ground-mount" → PVSystem.albedo built = Some albedo) ∧
   (racking = "ground-mount" → PVSystem.albedo built = None)) ∧
  (∀ key : string,
     key ≠ "bifaciality" →
     PVSystem.module_parameters built !! key = module_parameters !! key) ∧
  (racking ≠ "rooftop" → PVSystem.module_parameters built = module_parameters).
Proof.
  cbv zeta. unfold get_system.
  destruct (String.eqb racking "tracker") eqn:Etr.
  - apply String.eqb_eq in Etr. subst racking.
    split; [intros Hne; contradiction|]. split; reflexivity.
  - destruct (String.eqb racking "ground-mount") eqn:Egm;
      destruct (String.eqb racking "rooftop") eqn:Ert;
      cbn [negb PVSystem.set_albedo PVSystem.setitem_module_parameters
           PVSystem.mount PVSystem.backtrack PVSystem.albedo
           PVSystem.module_parameters];
      (split; [intros _; repeat split; intros Hr;
               try reflexivity;
               try (apply String.eqb_eq in Egm; contradiction);
               try (apply String.eqb_neq in Egm; contradiction)|]);
      (split; [intros key Hkey; try reflexivity;
               apply lookup_insert_ne; congruence|]);
      intros Hr; try reflexivity;
      apply String.eqb_eq in Ert; contradiction.
Qed.

Lemma get_system_fixed_tilt_policy_witness :
  let built :=
    get_system "carport" 3 2 180 0.4 demo_module_parameters
      demo_temperature_parameters 0 60 true 10 180 0.3 in
  ("carport" ≠ "tracker" ∧ "carport" ≠ "ground-mount" ∧
   "carport" ≠ "rooftop") ∧
  PVSystem.mount built = FixedTilt 10 180 ∧
  PVSystem.backtrack built = false ∧
  PVSystem.albedo built = Some 0.3 ∧
  PVSystem.module_parameters built = demo_module_parameters.
Proof.
  intros built.
  assert (H1 : "carport" ≠ "tracker") by discriminate.
  assert (H2 : "carport" ≠ "ground-mount") by discriminate.
  assert (H3 : "carport" ≠ "rooftop") by discriminate.
  split; [exact (conj H1 (conj H2 H3))|].
  destruct (get_system_fixed_tilt_policy "carport" 3 2 180 0.4
              demo_module_parameters demo_temperature_parameters
              0 60 true 10 180 0.3)
    as (Hfixed & _ & Hsame).
  destruct (Hfixed H1) as (Hm & Hb & Ha & _).
  split; [exact Hm|]. split; [exact Hb|]. split; [exact (Ha H2)|].
  exact (Hsame H3).
Defined.

(** X17.  [get_modelchain] needs the DC nameplate: without ['pdc0'] in
    the module parameters it raises [KeyError]; with it, the instance
    carries it as [dc_capacity] and no stage attribute yet, so that each
    of [run_pvwatts_dc], [run_pvwatts_ac], [run_plant_model] and
    [get_results], called before the stages it depends on, raises
    [AttributeError] and leaves the instance untouched. *)
Theorem get_modelchain_needs_pdc0 {collaborators : Collaborators}
    (lat lon : Q) (utc_offset : Z) (elevation : Q) (name : string)
    (built : PVSystem.t)
    (degradation_loss bifacial_losses dc_losses ac_capacity
     inverter_efficiency_peak pmt_peak_loss pmt_rating pmt_constant_loss
     ac_collection mpt_peak_loss mpt_bottom_rating mpt_constant_loss
     transmission_loss poi_capacity plant_losses time_step : Q) :
  let made :=
    get_modelchain lat lon utc_offset elevation name built
      degradation_loss bifacial_losses dc_losses ac_capacity
      inverter_efficiency_peak pmt_peak_loss pmt_rating pmt_constant_loss
      ac_collection mpt_peak_loss mpt_bottom_rating mpt_constant_loss
      transmission_loss poi_capacity plant_losses time_step in
  (PVSystem.module_parameters built !! "pdc0" = None →
   made = Raise (KeyError "pdc0")) ∧
  (∀ pdc0 : Q,
     PVSystem.module_parameters built !! "pdc0" = Some pdc0 →
     ∃ mc : ModelChain,
       made = Ok mc ∧
       system mc = built ∧ dc_capacity mc = pdc0 ∧
       loc_tz (location mc) = utc_offset ∧
       run_pvwatts_dc mc
         = (Raise (AttributeError "effective_irradiance_soiled"), mc) ∧
       run_pvwatts_ac mc = (Raise (AttributeError "dc"), mc) ∧
       run_plant_model mc = (Raise (AttributeError "ac"), mc) ∧
       get_results mc = (Raise (AttributeError "plant"), mc)).
Proof.
  cbv zeta. unfold get_modelchain, getitem. split.
  - intros Hnone. rewrite Hnone. reflexivity.
  - intros pdc0 Hsome. rewrite Hsome. eexists. split; [reflexivity|].
    repeat split.
Qed.

Lemma get_modelchain_needs_pdc0_witness :
  PVSystem.module_parameters demo_rooftop !! "pdc0" = Some 1000 ∧
  ∃ mc : ModelChain,
    get_modelchain 35 (-106) (-7) 1600 "demo" demo_rooftop
      0.005 0.1 0.02 900 0.98 10 1000 2 0.01 5 1000 1 0.005 900 0.02 60
      = Ok mc ∧
    dc_capacity mc = 1000 ∧
    run_pvwatts_ac (collaborators := demo_collaborators) mc
      = (Raise (AttributeError "dc"), mc) ∧
    get_results mc = (Raise (AttributeError "plant"), mc).
Proof.
  assert (Hpdc0 : PVSystem.module_parameters demo_rooftop !! "pdc0"
                  = Some 1000) by (vm_compute; reflexivity).
  split; [exact Hpdc0|].
  destruct (proj2 (get_modelchain_needs_pdc0
                     (collaborators := demo_collaborators)
                     35 (-106) (-7) 1600 "demo" demo_rooftop
                     0.005 0.1 0.02 900 0.98 10 1000 2 0.01 5 1000 1
                     0.005 900 0.02 60) 1000 Hpdc0)
    as (mc & Hmade & _ & Hdc & _ & _ & Hac & _ & Hres).
  exists mc. split; [exact Hmade|]. split; [exact Hdc|].
  split; [exact Hac | exact Hres].
Defined.

(* ===================================================================== *)
(** ** The stages in sequence                                             *)
(* ===================================================================== *)

(** X18.  The stages compose: on any instance whose module parameters
    give a bifaciality and a nonzero efficiency, with a nonzero
    [inverter_efficiency_peak] and a [utc_offset] from -12 to 0 (one
    whose zone name exists), [get_effective_irradiance] returns and
    then [run_pvwatts_dc], [run_pvwatts_ac], [run_plant_model] and
    [get_results], run in this order on the instance it leaves, all
    return; every frame and every metric is then assigned, the
    parameters are as before, and the plant series has exactly one
    sample for each sample of the DC output. *)
Theorem stages_run_in_sequence {collaborators : Collaborators}
    (utc_offset : Z) (self : ModelChain) (w : Weather.t)
    (bifaciality efficiency : Q) :
  (-12 ≤ utc_offset ≤ 0)%Z →
  PVSystem.module_parameters (system self) !! "bifaciality"
    = Some bifaciality →
  PVSystem.module_parameters (system self) !! "efficiency"
    = Some efficiency →
  ¬ efficiency == 0 →
  ¬ inverter_efficiency_peak self == 0 →
  ∃ (irradiated : ModelChain) (w' : Weather.t),
    get_effective_irradiance utc_offset (self, w)
      = (Ok tt, (irradiated, w')) ∧
    let run :=
      (run_pvwatts_dc ;; run_pvwatts_ac ;; run_plant_model ;; get_results)
        irradiated in
    fst run = Ok tt ∧
    parameters (snd run) = parameters self ∧
    (∃ (dc_frame : DcFrame.t) (ac_frame : AcFrame.t)
       (plant_series : PlantFrame.t),
       dc (snd run) = Some dc_frame ∧ ac (snd run) = Some ac_frame ∧
       plant (snd run) = Some plant_series ∧
       length (AcFrame.pac ac_frame) = length (DcFrame.output dc_frame) ∧
       length (PlantFrame.output plant_series)
         = length (DcFrame.output dc_frame) ∧
       length (PlantFrame.losses plant_series)
         = length (DcFrame.output dc_frame)) ∧
    is_Some (aep (snd run)) ∧ is_Some (ncf (snd run)) ∧
    is_Some (energy_yield (snd run)) ∧ is_Some (pr (snd run)).
Proof.
  intros Hzone Hbif Heff He Hinv.
  destruct (get_effective_irradiance_ok utc_offset self w bifaciality
              Hzone Hbif)
    as (s1 & w1 & Hrun & HS).
  cbv zeta in HS. destruct HS as (Hfs & _ & _ & _ & _ & Hsoiled).
  destruct (get_effective_irradiance_state utc_offset self w Hzone)
    as ((Hpar & _) & (_ & Htemp & _) & _).
  rewrite Hrun in Hpar, Htemp. cbn [fst snd] in Hpar, Htemp.
  exists s1, w1. split; [exact Hrun|].
  assert (Hinvb : Qeq_bool (inverter_efficiency_peak s1) 0 = false).
  { rewrite Hpar. destruct (Qeq_bool _ 0) eqn:E; [|reflexivity].
    apply Qeq_bool_iff in E. contradiction. }
  assert (Heb : Qeq_bool efficiency 0 = false).
  { destruct (Qeq_bool efficiency 0) eqn:E; [|reflexivity].
    apply Qeq_bool_iff in E. contradiction. }
  pose proof (run_pvwatts_dc_run s1 _ _ Hsoiled Htemp) as Hdc.
  cbv zeta in Hdc. rewrite Hinvb in Hdc.
  set (dc_frame := {| DcFrame.pdc := _ |}) in Hdc.
  set (s2 := set_dc dc_frame s1) in *.
  assert (Hinv2 : ¬ inverter_efficiency_peak s2 == 0).
  { intros E. apply Qeq_bool_iff in E.
    change (inverter_efficiency_peak s2)
      with (inverter_efficiency_peak s1) in E.
    rewrite Hinvb in E. discriminate. }
  pose proof (run_pvwatts_ac_ok s2 dc_frame eq_refl Hinv2) as Hac.
  set (ac_frame := snd (ac_cascade s2 _)) in Hac.
  set (s3 := set_ac ac_frame s2) in *.
  pose proof (run_plant_model_ok s3 ac_frame eq_refl) as Hplant.
  set (s4 := set_plant (plant_frame s3 ac_frame) s3) in *.
  pose proof (get_results_run s4 (plant_frame s3 ac_frame) eq_refl) as Hres.
  cbv zeta in Hres.
  change (effective_irradiance s4) with (effective_irradiance s1) in Hres.
  change (system s4) with (system s1) in Hres.
  rewrite Hfs, Hpar, Heff, Heb in Hres.
  cbv zeta. unfold bind.
  rewrite Hdc, Hac, Hplant, Hres. cbn [fst snd].
  split; [reflexivity|].
  split; [exact Hpar|].
  split.
  { exists dc_frame, ac_frame, (plant_frame s3 ac_frame).
    split; [reflexivity|]. split; [reflexivity|]. split; [reflexivity|].
    destruct (ac_cascade_lengths s2
                ((λ pdc, pvwatts_ac pdc
                           (ac_capacity s2 / inverter_efficiency_peak s2)
                           (inverter_efficiency_peak s2))
                   <$> DcFrame.output dc_frame))
      as (_ & _ & _ & Lpac & Lout & _ & Lclip).
    fold ac_frame in Lpac, Lout, Lclip.
    rewrite length_fmap in Lpac, Lout, Lclip.
    split; [exact Lpac|].
    unfold plant_frame. cbn [PlantFrame.output PlantFrame.losses].
    unfold series_mul_scalar, series_sub.
    rewrite length_fmap, length_zip_with, Lout, Lclip. split; lia. }
  repeat split; eexists; reflexivity.
Qed.

Lemma stages_run_in_sequence_witness :
  let self := ModelChain_init (demo_parameters demo_tracker) in
  ((-12 ≤ -7 ≤ 0)%Z ∧
   PVSystem.module_parameters (system self) !! "bifaciality" = Some 0.7 ∧
   PVSystem.module_parameters (system self) !! "efficiency" = Some 0.2 ∧
   ¬ 0.2 == 0 ∧ ¬ inverter_efficiency_peak self == 0) ∧
  ∃ (irradiated : ModelChain) (w' : Weather.t),
    get_effective_irradiance (collaborators := demo_collaborators) (-7)
      (self, demo_weather) = (Ok tt, (irradiated, w')) ∧
    let run :=
      (run_pvwatts_dc (collaborators := demo_collaborators) ;;
       run_pvwatts_ac (collaborators := demo_collaborators) ;;
       run_plant_model ;; get_results) irradiated in
    fst run = Ok tt ∧ is_Some (plant (snd run)) ∧ is_Some (pr (snd run)).
Proof.
  intros self.
  assert (Hbif : PVSystem.module_parameters (system self) !! "bifaciality"
                 = Some 0.7) by (vm_compute; reflexivity).
  assert (Heff : PVSystem.module_parameters (system self) !! "efficiency"
                 = Some 0.2) by (vm_compute; reflexivity).
  assert (He : ¬ 0.2 == 0) by discriminate.
  assert (Hinv : ¬ inverter_efficiency_peak self == 0) by discriminate.
  assert (Hzone : (-12 ≤ -7 ≤ 0)%Z) by lia.
  split; [exact (conj Hzone (conj Hbif (conj Heff (conj He Hinv))))|].
  destruct (stages_run_in_sequence (collaborators := demo_collaborators)
              (-7) self demo_weather 0.7 0.2 Hzone Hbif Heff He Hinv)
    as (s1 & w1 & Hrun & Hall).
  cbv zeta in Hall.
  destruct Hall
    as (Hok & _ & (dcf & acf & pf & _ & _ & Hplant & _) & _ & _ & _ & Hpr).
  exists s1, w1. split; [exact Hrun|]. cbv zeta.
  split; [exact Hok|]. split; [|exact Hpr].
  exists pf. exact Hplant.
Defined.

(* ===================================================================== *)
(** ** [get_psm3]                                                         *)
(* ===================================================================== *)

Section Psm3Properties.
Context {database : SolarResourceDatabase}.

(** X19.  When the PSM3 answer has the six columns ['GHI'], ['DNI'],
    ['DHI'], ['Temperature'], ['Wind Speed'] and ['Surface Albedo'], in
    any order and among any others, and its metadata have ['Time Zone']
    and ['Elevation'], [get_psm3] returns them with a weather frame on
    the answer's index: the three irradiance columns multiplied by
    [nrel_fudge], temperature, wind and albedo as received, a [soiling]
    column holding [soiling_loss] once for each timestamp, the other
    columns dropped. *)
Theorem get_psm3_weather
    (lat lon : Q) (email api_key year : string) (time_step : Z)
    (soiling_loss nrel_fudge : Q)
    (ghi dni dhi temperature wind surface_albedo : Series)
    (time_zone elevation : Z) :
  let answer := iotools_get_psm3 lat lon api_key email year time_step in
  let columns := psm3_columns (psm3_data answer) in
  frame_column "GHI" columns = Some ghi →
  frame_column "DNI" columns = Some dni →
  frame_column "DHI" columns = Some dhi →
  frame_column "Temperature" columns = Some temperature →
  frame_column "Wind Speed" columns = Some wind →
  frame_column "Surface Albedo" columns = Some surface_albedo →
  psm3_metadata answer !! "Time Zone" = Some time_zone →
  psm3_metadata answer !! "Elevation" = Some elevation →
  ∃ weather : Weather.t,
    get_psm3 lat lon email api_key year time_step soiling_loss nrel_fudge
      = Psm3 weather time_zone elevation ∧
    Weather.index weather = psm3_index (psm3_data answer) ∧
    Weather.ghi weather = series_mul_scalar ghi nrel_fudge ∧
    Weather.dni weather = series_mul_scalar dni nrel_fudge ∧
    Weather.dhi weather = series_mul_scalar dhi nrel_fudge ∧
    Weather.temp_air weather = temperature ∧
    Weather.wind_speed weather = wind ∧
    Weather.surface_albedo weather = surface_albedo ∧
    Weather.soiling weather
      = replicate (length (stamps (psm3_index (psm3_data answer))))
          (Fin soiling_loss) ∧
    ∀ (t : nat) (g : Q),
      ghi !! t = Some (Fin g) →
      Weather.ghi weather !! t = Some (Fin (g * nrel_fudge)).
Proof.
  intros answer columns Hghi Hdni Hdhi Htemp Hwind Halb Htz Hel.
  unfold get_psm3, frame_filter. fold answer. fold columns.
  cbn [omap list_omap]. rewrite Hghi, Hdni, Hdhi, Htemp, Hwind, Halb.
  cbn [fmap option_fmap option_map list_fmap snd].
  rewrite Htz, Hel. eexists. split; [reflexivity|].
  cbn [Weather.index Weather.ghi Weather.dni Weather.dhi Weather.temp_air
       Weather.wind_speed Weather.surface_albedo Weather.soiling].
  repeat split.
  intros t g Hg. unfold series_mul_scalar.
  rewrite list_lookup_fmap, Hg. reflexivity.
Qed.

(** X20.  When one of the six columns is missing from the PSM3 answer,
    [get_psm3] raises [ValueError]: the filter has kept fewer than six
    columns and the six new labels do not fit.  This happens before the
    metadata are read, so whatever they hold. *)
Theorem get_psm3_missing_column
    (lat lon : Q) (email api_key year : string) (time_step : Z)
    (soiling_loss nrel_fudge : Q) (label : string) :
  let answer := iotools_get_psm3 lat lon api_key email year time_step in
  label ∈ ["GHI"; "DNI"; "DHI"; "Temperature"; "Wind Speed";
           "Surface Albedo"] →
  frame_column label (psm3_columns (psm3_data answer)) = None →
  ∃ kept : nat,
    (kept < 6)%nat ∧
    get_psm3 lat lon email api_key year time_step soiling_loss nrel_fudge
      = Psm3ValueError kept 6.
Proof.
  intros answer Hin Hnone.
  unfold get_psm3, frame_filter. fold answer.
  set (columns := psm3_columns (psm3_data answer)) in *.
  cbn [omap list_omap].
  repeat (apply elem_of_cons in Hin as [->|Hin]);
    [..|apply elem_of_nil in Hin; contradiction];
    rewrite Hnone;
    repeat match goal with
      | |- context [frame_column ?l columns] =>
          destruct (frame_column l columns)
      end;
    cbn [fmap option_fmap option_map list_fmap snd length];
    eexists; (split; [|reflexivity]); lia.
Qed.

(** X21.  With all six columns present, missing metadata raise
    [KeyError]: for ['Time Zone'] first, and for ['Elevation'] when the
    time zone is there. *)
Theorem get_psm3_missing_metadata
    (lat lon : Q) (email api_key year : string) (time_step : Z)
    (soiling_loss nrel_fudge : Q) :
  let answer := iotools_get_psm3 lat lon api_key email year time_step in
  let columns := psm3_columns (psm3_data answer) in
  (∀ label : string,
     label ∈ ["GHI"; "DNI"; "DHI"; "Temperature"; "Wind Speed";
              "Surface Albedo"] →
     is_Some (frame_column label columns)) →
  (psm3_metadata answer !! "Time Zone" = None →
   get_psm3 lat lon email api_key year time_step soiling_loss nrel_fudge
     = Psm3KeyError "Time Zone") ∧
  (is_Some (psm3_metadata answer !! "Time Zone") →
   psm3_metadata answer !! "Elevation" = None →
   get_psm3 lat lon email api_key year time_step soiling_loss nrel_fudge
     = Psm3KeyError "Elevation").
Proof.
  intros answer columns Hall.
  assert (Hcols : ∃ a b c d e f,
            frame_column "GHI" columns = Some a ∧
            frame_column "DNI" columns = Some b ∧
            frame_column "DHI" columns = Some c ∧
            frame_column "Temperature" columns = Some d ∧
            frame_column "Wind Speed" columns = Some e ∧
            frame_column "Surface Albedo" columns = Some f).
  { destruct (Hall "GHI") as [a Ha]; [set_solver|].
    destruct (Hall "DNI") as [b Hb]; [set_solver|].
    destruct (Hall "DHI") as [c Hc]; [set_solver|].
    destruct (Hall "Temperature") as [d Hd]; [set_solver|].
    destruct (Hall "Wind Speed") as [e He]; [set_solver|].
    destruct (Hall "Surface Albedo") as [f Hf]; [set_solver|].
    exists a, b, c, d, e, f. repeat split; assumption. }
  destruct Hcols as (a & b & c & d & e & f & Ha & Hb & Hc & Hd & He & Hf).
  unfold get_psm3, frame_filter. fold answer. fold columns.
  cbn [omap list_omap]. rewrite Ha, Hb, Hc, Hd, He, Hf.
  cbn [fmap option_fmap option_map list_fmap snd].
  split.
  - intros Htz. rewrite Htz. reflexivity.
  - intros [z Htz] Hel. rewrite Htz, Hel. reflexivity.
Qed.

End Psm3Properties.

Lemma get_psm3_weather_witness :
  ∃ weather : Weather.t,
    get_psm3 (database := demo_database demo_psm3_columns)
      35 (-106) "me@example.org" "key" "tmy" 30 0.02 0.97
      = Psm3 weather (-7) 1600 ∧
    Weather.ghi weather = [Fin (500 * 0.97); Fin (520 * 0.97)] ∧
    Weather.wind_speed weather = [Fin 1; NaN] ∧
    Weather.soiling weather = [Fin 0.02; Fin 0.02].
Proof.
  destruct (get_psm3_weather (database := demo_database demo_psm3_columns)
              35 (-106) "me@example.org" "key" "tmy" 30 0.02 0.97
              [Fin 500; Fin 520] [Fin 400; Fin 410] [Fin 100; Fin 110]
              [Fin 10; Fin 11] [Fin 1; NaN] [Fin 0.2; Fin 0.2] (-7) 1600
              eq_refl eq_refl eq_refl eq_refl eq_refl eq_refl
              eq_refl eq_refl)
    as (weather & Hrun & _ & Hghi & _ & _ & _ & Hwind & _ & Hsoil & _).
  exists weather. split; [exact Hrun|]. split; [exact Hghi|].
  split; [exact Hwind | exact Hsoil].
Defined.

Lemma get_psm3_missing_column_witness :
  let columns := take 6 demo_psm3_columns in
  frame_column "Wind Speed" columns = None ∧
  get_psm3 (database := demo_database columns)
    35 (-106) "me@example.org" "key" "tmy" 30 0.02 1
    = Psm3ValueError 5 6.
Proof.
  intros columns.
  assert (Hnone : frame_column "Wind Speed" columns = None) by reflexivity.
  split; [exact Hnone|].
  destruct (get_psm3_missing_column (database := demo_database columns)
              35 (-106) "me@example.org" "key" "tmy" 30 0.02 1
              "Wind Speed")
    as (kept & _ & Hrun); [set_solver | exact Hnone |].
  rewrite Hrun. vm_compute in Hrun. injection Hrun as <-. reflexivity.
Defined.

Lemma get_psm3_missing_metadata_witness :
  let database :=
    {| iotools_get_psm3 := λ _ _ _ _ _ _,
         {| psm3_metadata := <["Elevation" := 1600%Z]> ∅;
            psm3_data := psm3_data (demo_psm3_response demo_psm3_columns) |}
    |} in
  get_psm3 (database := database)
    35 (-106) "me@example.org" "key" "tmy" 30 0.02 1
    = Psm3KeyError "Time Zone".
Proof.
  intros database.
  refine (proj1 (get_psm3_missing_metadata (database := database)
                   35 (-106) "me@example.org" "key" "tmy" 30 0.02 1 _) _).
  - intros label Hin.
    repeat (apply elem_of_cons in Hin as [->|Hin]);
      [..|apply elem_of_nil in Hin; contradiction];
      eexists; reflexivity.
  - reflexivity.
Defined.

(* ===================================================================== *)
(** ** Bounds on the combined and soiled irradiance                       *)
(* ===================================================================== *)

(** X22.  Bifacial gain and soiling act in one direction each: on a
    system whose module parameters give a bifaciality, with a
    [utc_offset] from -12 to 0 (one whose zone name exists), the step
    returns and, at every timestep with finite samples where the front
    term [f] and the back sample [b] are non-negative, with
    [bifaciality >= 0], [bifacial_losses <= 1] and a soiling fraction
    between 0 and 1, the combined irradiance is at least [f] and the
    soiled irradiance lies between 0 and the combined one. *)
Theorem combined_and_soiled_bounds {collaborators : Collaborators}
    (utc_offset : Z) (self : ModelChain) (w : Weather.t) (bifaciality : Q) :
  (-12 ≤ utc_offset ≤ 0)%Z →
  PVSystem.module_parameters (system self) !! "bifaciality"
    = Some bifaciality →
  0 <= bifaciality → bifacial_losses self <= 1 →
  ∃ (self' : ModelChain) (w' : Weather.t) (combined soiled : Series),
    get_effective_irradiance utc_offset (self, w) = (Ok tt, (self', w')) ∧
    effective_irradiance_bifacial self' = Some combined ∧
    effective_irradiance_soiled self' = Some soiled ∧
    let frontside :=
      if PVSystem.backtrack (system self)
      then fillna0 (effective_irradiance_model (system self)
                      (location self) w')
      else fillna0 (Report.total_inc_front (pvfactor_report self w')) in
    let back := fillna0 (Report.total_inc_back (pvfactor_report self w')) in
    ∀ (t : nat) (f b s : Q),
      frontside !! t = Some (Fin f) → back !! t = Some (Fin b) →
      Weather.soiling w !! t = Some (Fin s) →
      0 <= f → 0 <= b → 0 <= s <= 1 →
      ∃ c d : Q,
        combined !! t = Some (Fin c) ∧ soiled !! t = Some (Fin d) ∧
        f <= c ∧ 0 <= d <= c.
Proof.
  intros Hzone Hbif Hb0 Hbl.
  destruct (get_effective_irradiance_ok utc_offset self w bifaciality
              Hzone Hbif)
    as (self' & w' & Hrun & HS).
  cbv zeta in HS. destruct HS as (_ & _ & _ & Hcomb & _ & Hsoiled).
  eexists self', w', _, _. split; [exact Hrun|].
  split; [exact Hcomb|]. split; [exact Hsoiled|].
  cbv zeta. intros t f b s Hf Hb Hs Hf0 Hbk0 [Hs0 Hs1].
  pose proof (combined_sample _ _
                (bifaciality * (1 - bifacial_losses self)) t f b Hf Hb)
    as Hc.
  eexists _, _. split; [exact Hc|].
  split; [exact (soiled_sample _ _ t _ s Hc Hs)|].
  assert (Hgain : 0 <= b * (bifaciality * (1 - bifacial_losses self))).
  { apply Qmult_le_0_compat; [exact Hbk0|].
    apply Qmult_le_0_compat; [exact Hb0 | lra]. }
  split; [lra|]. split; nra.
Qed.

Lemma combined_and_soiled_bounds_witness :
  let self := ModelChain_init (demo_parameters demo_tracker) in
  ((-12 ≤ -7 ≤ 0)%Z ∧
   PVSystem.module_parameters (system self) !! "bifaciality" = Some 0.7 ∧
   0 <= 0.7 ∧ bifacial_losses self <= 1) ∧
  ∃ (self' : ModelChain) (combined soiled : Series) (c d : Q),
    fst (snd (get_effective_irradiance
                (collaborators := demo_collaborators) (-7)
                (self, demo_weather))) = self' ∧
    effective_irradiance_bifacial self' = Some combined ∧
    effective_irradiance_soiled self' = Some soiled ∧
    combined !! 1%nat = Some (Fin c) ∧ soiled !! 1%nat = Some (Fin d) ∧
    500 <= c ∧ 0 <= d <= c.
Proof.
  intros self.
  assert (Hbif : PVSystem.module_parameters (system self) !! "bifaciality"
                 = Some 0.7) by (vm_compute; reflexivity).
  assert (Hb0 : 0 <= 0.7) by discriminate.
  assert (Hbl : bifacial_losses self <= 1) by discriminate.
  assert (Hzone : (-12 ≤ -7 ≤ 0)%Z) by lia.
  split; [exact (conj Hzone (conj Hbif (conj Hb0 Hbl)))|].
  destruct (combined_and_soiled_bounds (collaborators := demo_collaborators)
              (-7) self demo_weather 0.7 Hzone Hbif Hb0 Hbl)
    as (self' & w' & combined & soiled & Hrun & Hcomb & Hsoiled & HS).
  assert (Hw : w' = snd (snd (get_effective_irradiance
                                (collaborators := demo_collaborators) (-7)
                                (self, demo_weather))))
    by (rewrite Hrun; reflexivity).
  destruct (HS 1%nat 500 20.0 0.02) as (c & d & Hc & Hd & Hfc & Hdc).
  { rewrite Hw. vm_compute. reflexivity. }
  { rewrite Hw. vm_compute. reflexivity. }
  { reflexivity. }
  { discriminate. }
  { discriminate. }
  { split; discriminate. }
  exists self', combined, soiled, c, d. rewrite Hrun.
  split; [reflexivity|]. split; [exact Hcomb|]. split; [exact Hsoiled|].
  split; [exact Hc|]. split; [exact Hd|]. split; [exact Hfc | exact Hdc].
Defined.
